(** * aoebskybot: a shallow embedding of [aoebskybot.py]

    The script polls a match-history endpoint for a roster of players,
    derives one status string per player, compares it with the string
    stored by the previous run in [mostrecentmatch.json], stores the new
    strings and posts the ones that changed.

    The embedding follows the script line by line.  The single Python
    function [check_player_statuses_and_post_changes] is cut at its own
    numbered comments ("1. Load", "2. Fetch", "3. Compare", "4. Save",
    "5. Post") into Rocq definitions which the top-level definition
    composes again.  Effects are explicit: a computation takes the mutable
    part of the world, and returns a result (a value or a raised
    exception), the new world and the events it produced, in order.

    Conventions.
    - A Python [str] is a Rocq [string]; a character is a code point below
      256.
    - A value decoded from JSON is a [pyval].
    - The standard library and the packages the script imports ([json],
      [datetime], [requests], [pytz], [atproto]) are not part of the
      script.  What the script needs from them is modelled in the sections
      named after them, from their documented behaviour. *)

From Stdlib Require Import ZArith List String Ascii Bool Lia PeanoNat.
From Stdlib Require Import PrimFloat.
Import ListNotations.

Local Open Scope string_scope.
Local Open Scope Z_scope.

(* ================================================================== *)
(** * Python values *)

(** What [json.loads] can return.  A dict keeps its keys in insertion
    order, so it is an association list. *)
#[warnings="-register-all"]
Inductive pyval : Type :=
| PyNone
| PyBool (b : bool)
| PyInt (n : Z)
| PyFloat (f : float)
| PyStr (s : string)
| PyList (l : list pyval)
| PyDict (d : list (string * pyval)).

(** [dict.get(key)], [None] left to the caller. *)
Fixpoint dict_get {V : Type} (d : list (string * V)) (key : string) : option V :=
  match d with
  | [] => None
  | (k, v) :: d' => if String.eqb k key then Some v else dict_get d' key
  end.

(** [d[key] = v]: an existing key keeps its place, a new one goes last. *)
Fixpoint dict_set {V : Type} (d : list (string * V)) (key : string) (v : V)
  : list (string * V) :=
  match d with
  | [] => [(key, v)]
  | (k, v0) :: d' =>
      if String.eqb k key then (k, v) :: d' else (k, v0) :: dict_set d' key v
  end.

(** Truth value of an object, as [if x:] tests it. *)
Definition truthy (v : pyval) : bool :=
  match v with
  | PyNone => false
  | PyBool b => b
  | PyInt n => negb (n =? 0)
  | PyFloat f => negb (PrimFloat.eqb f 0%float)
  | PyStr s => negb (String.eqb s "")
  | PyList l => match l with [] => false | _ => true end
  | PyDict d => match d with [] => false | _ => true end
  end.

(* ================================================================== *)
(** * Exceptions *)

(** The exception classes that can occur in a run.  [RequestsJSONDecodeError]
    is [requests.exceptions.JSONDecodeError]; [JSONDecodeError] is
    [json.JSONDecodeError].  [UnicodeDecodeError] is a [ValueError] and
    [RecursionError] a [RuntimeError]: neither is a [JSONDecodeError], a
    [RequestException] or an [OSError]. *)
Inductive exn_class : Type :=
| RequestException
| HTTPError
| ConnectionError
| Timeout
| InvalidJSONError
| RequestsJSONDecodeError
| JSONDecodeError
| ValueError
| KeyError
| IndexError
| TypeError
| AttributeError
| OverflowError
| OSError
| UnicodeDecodeError
| RecursionError
| OtherException.

(** An exception: its class and [str(e)].  The texts given below to the
    exceptions the interpreter and the libraries raise follow CPython's;
    only the class decides which [except] clause accepts an exception. *)
Record exn : Type := mkExn { exn_cls : exn_class; exn_msg : string }.

(** [issubclass c h] restricted to the two classes the script names in an
    [except] clause.  In [requests] (2.27 and later)
    [class InvalidJSONError(RequestException)] and
    [class JSONDecodeError(InvalidJSONError, json.JSONDecodeError)]. *)
Definition is_RequestException (c : exn_class) : bool :=
  match c with
  | RequestException | HTTPError | ConnectionError | Timeout
  | InvalidJSONError | RequestsJSONDecodeError => true
  | _ => false
  end.

Definition is_JSONDecodeError (c : exn_class) : bool :=
  match c with
  | JSONDecodeError | RequestsJSONDecodeError => true
  | _ => false
  end.

(** [IOError] is an alias of [OSError]. *)
Definition is_IOError (c : exn_class) : bool :=
  match c with
  | OSError => true
  | _ => false
  end.

(* ================================================================== *)
(** * Strings *)

Module Str.

(** [str.isspace] on one character, for code points below 256: the ASCII
    white space, the four separators 28..31, NEL (133) and the
    no-break space (160). *)
Definition isspace (c : ascii) : bool :=
  let n := nat_of_ascii c in
  ((9 <=? n) && (n <=? 13) || (28 <=? n) && (n <=? 32)
   || (n =? 133) || (n =? 160))%nat.

(** [s.lstrip()] *)
Fixpoint lstrip (s : string) : string :=
  match s with
  | EmptyString => EmptyString
  | String c s' => if isspace c then lstrip s' else s
  end.

(** [s.rstrip()] *)
Fixpoint rstrip (s : string) : string :=
  match s with
  | EmptyString => EmptyString
  | String c s' =>
      match rstrip s' with
      | EmptyString => if isspace c then EmptyString else String c EmptyString
      | r => String c r
      end
  end.

(** [s.strip()]: white space removed at both ends. *)
Definition strip (s : string) : string := rstrip (lstrip s).

(** [s.replace(old, new)] for a one-character [old]. *)
Fixpoint replace_char (s : string) (old : ascii) (new : string) : string :=
  match s with
  | EmptyString => EmptyString
  | String c s' =>
      if Ascii.eqb c old then new ++ replace_char s' old new
      else String c (replace_char s' old new)
  end.

(** [s[i:]] *)
Fixpoint drop (n : nat) (s : string) : string :=
  match n, s with
  | O, _ => s
  | S n', EmptyString => EmptyString
  | S n', String _ s' => drop n' s'
  end.

(** [s[:i]] *)
Fixpoint take (n : nat) (s : string) : string :=
  match n, s with
  | O, _ => EmptyString
  | S n', EmptyString => EmptyString
  | S n', String c s' => String c (take n' s')
  end.

Definition digit_char (d : Z) : ascii := ascii_of_nat (48 + Z.to_nat d).

(** The [width] low decimal digits of [n], most significant first. *)
Fixpoint digits (width : nat) (n : Z) : string :=
  match width with
  | O => EmptyString
  | S w => digits w (n / 10) ++ String (digit_char (n mod 10)) EmptyString
  end.

(** Number of decimal digits of a non-negative [n] (at least one). *)
Definition ndigits (n : Z) : nat :=
  if n <? 10 then 1%nat else S (Z.to_nat (Z.log2 n) / 3).

(** Decimal digits of the non-negative [n] without padding: [ndigits]
    over-approximates the count, the leading zeros are dropped. *)
Fixpoint drop_zeros (s : string) : string :=
  match s with
  | String c (String _ _ as s') => if Ascii.eqb c "0" then drop_zeros s' else s
  | _ => s
  end.

(** [str(n)] for an [int]. *)
Definition of_Z (n : Z) : string :=
  if n <? 0 then "-" ++ drop_zeros (digits (ndigits (- n)) (- n))
  else drop_zeros (digits (ndigits n) n).

(** [n] in decimal, padded with zeros to [width] characters:
    ["%02d"], ["%04d"]. *)
Definition zero_pad (width : nat) (n : Z) : string :=
  let s := of_Z n in
  if (String.length s <? width)%nat then digits width n else s.

(** Value of a decimal digit character. *)
Definition digit_value (c : ascii) : option Z :=
  let n := nat_of_ascii c in
  if ((48 <=? n) && (n <=? 57))%nat then Some (Z.of_nat n - 48) else None.

(** A string made of decimal digits only, as a number; [None] when it is
    empty or has another character. *)
Fixpoint parse_digits_from (acc : Z) (s : string) : option Z :=
  match s with
  | EmptyString => Some acc
  | String c s' =>
      match digit_value c with
      | Some d => parse_digits_from (acc * 10 + d) s'
      | None => None
      end
  end.

Definition parse_digits (s : string) : option Z :=
  match s with
  | EmptyString => None
  | _ => parse_digits_from 0 s
  end.

(** Position of the first occurrence of a character: [s.find(c)], with
    [None] for -1. *)
Fixpoint find_char (c : ascii) (s : string) : option nat :=
  match s with
  | EmptyString => None
  | String c' s' =>
      if Ascii.eqb c' c then Some O
      else match find_char c s' with Some i => Some (S i) | None => None end
  end.

End Str.

(* ================================================================== *)
(** * Results of computations that may raise *)

Inductive result (A : Type) : Type :=
| Return (a : A)
| Raise (e : exn).
Arguments Return {A} a.
Arguments Raise {A} e.

Definition raise {A : Type} (c : exn_class) (msg : string) : result A :=
  Raise (mkExn c msg).

(* ================================================================== *)
(** * [datetime]

    The part of the standard module the script calls: [fromisoformat],
    [replace(tzinfo=...)], the addition of an offset that [astimezone]
    performs, and [strftime] for the one format used.  The calendar
    functions are those of [Lib/datetime.py]; [fromisoformat] accepts the
    format that module documents up to Python 3.10,
    [YYYY-MM-DD[*HH[:MM[:SS[.fff[fff]]]][+HH:MM[:SS[.ffffff]]]]], every
    numeric field made of decimal digits, and rejects every other
    string.  Later versions accept more strings; they agree on the
    strings accepted here. *)

Module Datetime.

(** A [datetime] object.  [tzinfo] is [None] for a naive object, and the
    offset from UTC in microseconds for an aware one. *)
Record datetime : Type := mkDatetime {
  year : Z; month : Z; day : Z;
  hour : Z; minute : Z; second : Z; microsecond : Z;
  tzinfo : option Z
}.

Definition _MAXORDINAL : Z := 3652059.

Definition _is_leap (y : Z) : bool :=
  (y mod 4 =? 0) && (negb (y mod 100 =? 0) || (y mod 400 =? 0)).

Definition _days_before_year (y : Z) : Z :=
  let y := y - 1 in y * 365 + y / 4 - y / 100 + y / 400.

Definition _DAYS_IN_MONTH : list Z :=
  [-1; 31; 28; 31; 30; 31; 30; 31; 31; 30; 31; 30; 31].

Definition _DAYS_BEFORE_MONTH : list Z :=
  [-1; 0; 31; 59; 90; 120; 151; 181; 212; 243; 273; 304; 334].

Definition _days_in_month (y m : Z) : Z :=
  if (m =? 2) && _is_leap y then 29 else nth (Z.to_nat m) _DAYS_IN_MONTH 0.

Definition _days_before_month (y m : Z) : Z :=
  nth (Z.to_nat m) _DAYS_BEFORE_MONTH 0
  + (if (2 <? m) && _is_leap y then 1 else 0).

Definition _ymd2ord (y m d : Z) : Z :=
  _days_before_year y + _days_before_month y m + d.

Definition _DI400Y : Z := 146097.
Definition _DI100Y : Z := 36524.
Definition _DI4Y : Z := 1461.

Definition _ord2ymd (n : Z) : Z * Z * Z :=
  let n := n - 1 in
  let n400 := n / _DI400Y in let n := n mod _DI400Y in
  let y := n400 * 400 + 1 in
  let n100 := n / _DI100Y in let n := n mod _DI100Y in
  let n4 := n / _DI4Y in let n := n mod _DI4Y in
  let n1 := n / 365 in let n := n mod 365 in
  let y := y + n100 * 100 + n4 * 4 + n1 in
  if (n1 =? 4) || (n100 =? 4) then (y - 1, 12, 31)
  else
    let leapyear := (n1 =? 3) && (negb (n4 =? 24) || (n100 =? 3)) in
    let m := Z.shiftr (n + 50) 5 in
    let preceding :=
      nth (Z.to_nat m) _DAYS_BEFORE_MONTH 0
      + (if (2 <? m) && leapyear then 1 else 0) in
    if n <? preceding then
      let m := m - 1 in
      let preceding :=
        preceding - (nth (Z.to_nat m) _DAYS_IN_MONTH 0
                     + (if (m =? 2) && leapyear then 1 else 0)) in
      (y, m, n - preceding + 1)
    else (y, m, n - preceding + 1).

(** The range checks of the constructor: [_check_date_fields] and
    [_check_time_fields]. *)
Definition check_fields (y m d hh mm ss us : Z) : bool :=
  (1 <=? y) && (y <=? 9999) && (1 <=? m) && (m <=? 12)
  && (1 <=? d) && (d <=? _days_in_month y m)
  && (0 <=? hh) && (hh <=? 23) && (0 <=? mm) && (mm <=? 59)
  && (0 <=? ss) && (ss <=? 59) && (0 <=? us) && (us <=? 999999).

(** [s[a:a+n]] as a number when it is exactly [n] digits. *)
Definition field (s : string) (a n : nat) : option Z :=
  let f := Str.take n (Str.drop a s) in
  if (String.length f =? n)%nat then Str.parse_digits f else None.

Definition char_at (s : string) (i : nat) : option ascii := String.get i s.

Definition is_char (o : option ascii) (c : ascii) : bool :=
  match o with Some c' => Ascii.eqb c' c | None => false end.

(** [_parse_isoformat_date] on [dtstr[0:10]]. *)
Definition _parse_isoformat_date (dstr : string) : option (Z * Z * Z) :=
  match field dstr 0 4, field dstr 5 2, field dstr 8 2 with
  | Some y, Some m, Some d =>
      if is_char (char_at dstr 4) "-" && is_char (char_at dstr 7) "-"
      then Some (y, m, d) else None
  | _, _, _ => None
  end.

(** The fraction [.fff[fff]] that may end [HH:MM:SS]; [rest] is what
    follows the seconds. *)
Definition parse_fraction (rest : string) : option Z :=
  match rest with
  | EmptyString => Some 0
  | String c frac =>
      if Ascii.eqb c "." then
        match String.length frac with
        | 3%nat => option_map (fun v => v * 1000) (Str.parse_digits frac)
        | 6%nat => Str.parse_digits frac
        | _ => None
        end
      else None
  end.

(** [_parse_hh_mm_ss_ff]: [HH[:MM[:SS[.fff[fff]]]]]. *)
Definition _parse_hh_mm_ss_ff (tstr : string) : option (Z * Z * Z * Z) :=
  match field tstr 0 2 with
  | None => None
  | Some hh =>
      match Str.drop 2 tstr with
      | EmptyString => Some (hh, 0, 0, 0)
      | String c1 r1 =>
          if negb (Ascii.eqb c1 ":") then None else
          match field r1 0 2 with
          | None => None
          | Some mm =>
              match Str.drop 2 r1 with
              | EmptyString => Some (hh, mm, 0, 0)
              | String c2 r2 =>
                  if negb (Ascii.eqb c2 ":") then None else
                  match field r2 0 2 with
                  | None => None
                  | Some ss =>
                      match parse_fraction (Str.drop 2 r2) with
                      | Some us => Some (hh, mm, ss, us)
                      | None => None
                      end
                  end
              end
          end
      end
  end.

(** [tstr.find('-') + 1 or tstr.find('+') + 1], with 0 as [None]. *)
Definition tz_pos (tstr : string) : option nat :=
  match Str.find_char "-" tstr with
  | Some i => Some (S i)
  | None =>
      match Str.find_char "+" tstr with
      | Some i => Some (S i)
      | None => None
      end
  end.

Definition usec_of (hh mm ss us : Z) : Z :=
  ((hh * 60 + mm) * 60 + ss) * 1000000 + us.

(** [_parse_isoformat_time]: the time of day and the [tzinfo]. *)
Definition _parse_isoformat_time (tstr : string)
  : option (Z * Z * Z * Z * option Z) :=
  if (String.length tstr <? 2)%nat then None else
  match tz_pos tstr with
  | None =>
      option_map (fun c => (c, None)) (_parse_hh_mm_ss_ff tstr)
  | Some p =>
      let tzstr := Str.drop p tstr in
      let n := String.length tzstr in
      match _parse_hh_mm_ss_ff (Str.take (p - 1) tstr) with
      | None => None
      | Some c =>
          if negb ((n =? 5) || (n =? 8) || (n =? 15))%nat then None else
          match _parse_hh_mm_ss_ff tzstr with
          | None => None
          | Some (h, m, s, u) =>
              let sign := if is_char (char_at tstr (p - 1)) "-" then -1 else 1 in
              let off := sign * usec_of h m s u in
              (* [timezone(offset)] wants it strictly within one day *)
              if (-86400000000 <? off) && (off <? 86400000000)
              then Some (c, Some off) else None
          end
      end
  end.

(** [datetime.fromisoformat(date_string)] *)
Definition fromisoformat (date_string : string) : result datetime :=
  let invalid := raise ValueError
    ("Invalid isoformat string: '" ++ date_string ++ "'") in
  let dstr := Str.take 10 date_string in
  let tstr := Str.drop 11 date_string in
  match _parse_isoformat_date dstr with
  | None => invalid
  | Some (y, m, d) =>
      let time_components :=
        if (String.length date_string <=? 10)%nat
        then Some (0, 0, 0, 0, None)
        else _parse_isoformat_time tstr in
      match time_components with
      | None => invalid
      | Some (hh, mm, ss, us, tz) =>
          if check_fields y m d hh mm ss us
          then Return (mkDatetime y m d hh mm ss us tz)
          else raise ValueError "field out of range"
      end
  end.

(** [dt.replace(tzinfo=tz)]: the fields are kept as they are. *)
Definition replace_tzinfo (dt : datetime) (tz : option Z) : datetime :=
  mkDatetime (year dt) (month dt) (day dt)
             (hour dt) (minute dt) (second dt) (microsecond dt) tz.

Definition usec_per_day : Z := 86400000000.

(** [dt + timedelta(microseconds=delta)], keeping [tzinfo]. *)
Definition add (dt : datetime) (delta : Z) : result datetime :=
  let t := _ymd2ord (year dt) (month dt) (day dt) * usec_per_day
           + usec_of (hour dt) (minute dt) (second dt) (microsecond dt)
           + delta in
  let days := t / usec_per_day in
  let rem := t mod usec_per_day in
  if (0 <? days) && (days <=? _MAXORDINAL) then
    let '(y, m, d) := _ord2ymd days in
    let secs := rem / 1000000 in
    Return (mkDatetime y m d (secs / 3600) (secs mod 3600 / 60) (secs mod 60)
                       (rem mod 1000000) (tzinfo dt))
  else raise OverflowError "date value out of range".

(** [dt.strftime("%H:%M (%Y-%m-%d)")].  [%Y] is the year in decimal as
    the C library of Linux writes it, without padding; other platforms
    and later Python versions pad a year below 1000 to four digits. *)
Definition strftime_HM_Ymd (dt : datetime) : string :=
  Str.zero_pad 2 (hour dt) ++ ":" ++ Str.zero_pad 2 (minute dt)
  ++ " (" ++ Str.of_Z (year dt) ++ "-" ++ Str.zero_pad 2 (month dt)
  ++ "-" ++ Str.zero_pad 2 (day dt) ++ ")".

End Datetime.

(* ================================================================== *)
(** * [pytz] *)

Module Pytz.

Import Datetime.

(** A time zone of [pytz]: what matters to [astimezone] is the offset
    from UTC, in seconds, that the zone's table gives for a UTC time. *)
Record timezone : Type := mkTimezone {
  utcoffset_at : datetime -> Z
}.

(** [pytz.utc] as a [tzinfo] value of an aware [datetime]. *)
Definition utc : option Z := Some 0.

(** [utc_dt.astimezone(tz)] for a [utc_dt] whose [tzinfo] is [pytz.utc]:
    [tz.fromutc] looks the offset up and adds it. *)
Definition astimezone (utc_dt : datetime) (tz : timezone) : result datetime :=
  let off := utcoffset_at tz (replace_tzinfo utc_dt None) in
  match add (replace_tzinfo utc_dt None) (off * 1000000) with
  | Return dt => Return (replace_tzinfo dt (Some (off * 1000000)))
  | Raise e => Raise e
  end.

End Pytz.

(* ================================================================== *)
(** * The world of a run *)

(** [mostrecentmatch.json]: absent, present with a text that is not
    JSON ([msg] is what the decoder reports), present with a JSON
    text, given by the value [json.load] decodes it to, or present and
    such that lines 52-53 raise [e] without the decoder rejecting a
    text: bytes that are not text in the encoding of [open]
    ([UnicodeDecodeError], raised by [f.read()] inside [json.load]),
    brackets nested deeper than the interpreter's recursion limit
    ([RecursionError]), a file the process may not read
    ([PermissionError], an [OSError]). *)
Inductive file_state : Type :=
| NoFile
| NotJSON (msg : string)
| JSONFile (v : pyval)
| Unreadable (e : exn).

(** A [requests.Response]: what [raise_for_status] looks at, and what
    [json()] does, return the decoded body or raise. *)
Record response : Type := mkResponse {
  status_code : Z;
  reason : string;
  url : string;
  json_result : result pyval
}.

(** What [client.login] followed by [client.send_post] does for one
    message. *)
Inductive post_outcome : Type :=
| LoginFails (e : exn)
| SendFails (e : exn)
| Posted (uri cid : string).

(** What a run does to the outside, in order.  [PrintStatusChanged] is
    the printed line
    [STATUS CHANGED: {status_message} (Previously: {previous_status})],
    kept with its two arguments since the previous status can be any
    decoded value; [FileWrite] is the attempt to write the file, with
    what it raised. *)
Inductive event : Type :=
| Print (line : string)
| HttpGet (api_url : string)
| PrintStatusChanged (status_message : string) (previous_status : pyval)
| FileWrite (content : pyval) (error : option exn)
| Login (identifier password : string)
| SendPost (text : string).

(** The part of the outside a run reads and cannot change: the module
    constants taken from the environment variables and from [pytz], the
    answer to the [n]-th [requests.get], what happens to the [n]-th
    [Client], what the write of the file (lines 126-127) raises, if
    anything, and where it raises it.  [write_leaves] is [None] when
    [open] itself raises, before it has touched the file.  It is
    [Some msg] when [open(..., 'w')] has created or truncated the file
    and the failure comes later, from a write of [json.dump] or from the
    close: the file is then left empty or with the beginning of the new
    text, which is not JSON, and [msg] is what the decoder will say of
    it. *)
Record env : Type := mkEnv {
  BLUESKY_IDENTIFIER : option string;
  BLUESKY_APP_PASSWORD : option string;
  BUENOS_AIRES_TZ : Pytz.timezone;
  http : nat -> string -> result response;
  bsky : nat -> string -> post_outcome;
  write_error : option exn;
  write_leaves : option string
}.

(** The part a run changes: the file, and how many requests and clients
    it has made. *)
Record world : Type := mkWorld {
  file : file_state;
  gets : nat;
  clients : nat
}.

(** A computation: from a world to a result, the world it leaves and the
    events it produced, oldest first. *)
Definition M (A : Type) : Type := world -> result A * world * list event.

Definition ret {A : Type} (a : A) : M A := fun w => (Return a, w, []).

Definition bind {A B : Type} (m : M A) (k : A -> M B) : M B :=
  fun w =>
    match m w with
    | (Return a, w1, ev1) =>
        let '(r, w2, ev2) := k a w1 in (r, w2, (ev1 ++ ev2)%list)
    | (Raise e, w1, ev1) => (Raise e, w1, ev1)
    end.

Definition lift {A : Type} (r : result A) : M A := fun w => (r, w, []).

Definition print (line : string) : M unit := fun w => (Return tt, w, [Print line]).

(** [try: body] followed by [except] clauses: [handler e] is the body of
    the first clause that accepts [e], or [None] when no clause does and
    the exception goes on to the caller. *)
Definition try_except {A : Type} (body : M A) (handler : exn -> option (M A))
  : M A :=
  fun w =>
    match body w with
    | (Return a, w1, ev1) => (Return a, w1, ev1)
    | (Raise e, w1, ev1) =>
        match handler e with
        | Some h => let '(r, w2, ev2) := h w1 in (r, w2, (ev1 ++ ev2)%list)
        | None => (Raise e, w1, ev1)
        end
    end.

Declare Scope py_scope.
Delimit Scope py_scope with py.
Notation "x <- c1 ;; c2" := (bind c1 (fun x => c2))
  (at level 61, c1 at next level, right associativity) : py_scope.
Notation "' pat <- c1 ;; c2" := (bind c1 (fun x => match x with pat => c2 end))
  (at level 61, pat pattern, c1 at next level, right associativity) : py_scope.
Notation "c1 ;; c2" := (bind c1 (fun _ => c2))
  (at level 61, right associativity) : py_scope.
Local Open Scope py_scope.

Definition newline : string := String (ascii_of_nat 10) EmptyString.

(* ================================================================== *)
(** * Operations on Python values the script uses *)

(** [obj[key]] for a [str] key. *)
Definition getitem_key (obj : pyval) (key : string) : result pyval :=
  match obj with
  | PyDict d =>
      match dict_get d key with
      | Some v => Return v
      | None => raise KeyError ("'" ++ key ++ "'")
      end
  | PyList _ => raise TypeError "list indices must be integers or slices, not str"
  | PyStr _ => raise TypeError "string indices must be integers, not 'str'"
  | _ => raise TypeError "object is not subscriptable"
  end.

(** [obj[0]]: the first item of a list, the first character of a string;
    a dict decoded from JSON has no key [0]. *)
Definition getitem_0 (obj : pyval) : result pyval :=
  match obj with
  | PyList (x :: _) => Return x
  | PyList [] => raise IndexError "list index out of range"
  | PyStr (String c _) => Return (PyStr (String c EmptyString))
  | PyStr EmptyString => raise IndexError "string index out of range"
  | PyDict _ => raise KeyError "0"
  | _ => raise TypeError "object is not subscriptable"
  end.

(** [obj.get(key)]: only a dict has the method. *)
Definition get_method (obj : pyval) (key : string) : result pyval :=
  match obj with
  | PyDict d =>
      match dict_get d key with
      | Some v => Return v
      | None => Return PyNone
      end
  | _ => raise AttributeError "object has no attribute 'get'"
  end.

(** [obj.replace('Z', new)]: only a [str] has the method. *)
Definition replace_method (obj : pyval) (old : ascii) (new : string)
  : result string :=
  match obj with
  | PyStr s => Return (Str.replace_char s old new)
  | _ => raise AttributeError "object has no attribute 'replace'"
  end.

(** [v != s] for a [str] [s]. *)
Definition ne_str (v : pyval) (s : string) : bool :=
  match v with
  | PyStr s' => negb (String.eqb s' s)
  | _ => true
  end.

(** [v is None] *)
Definition is_None (v : pyval) : bool :=
  match v with
  | PyNone => true
  | _ => false
  end.

(** A [dict] of strings as the value [json.dump] writes and [json.load]
    reads back. *)
Definition dict_to_py (d : list (string * string)) : pyval :=
  PyDict (map (fun kv => (fst kv, PyStr (snd kv))) d).

(* ================================================================== *)
(** * [requests] *)

Module Requests.

(** [requests.get(api_url)]: the next answer of the network. *)
Definition get (E : env) (api_url : string) : M response :=
  fun w =>
    (http E (gets w) api_url,
     mkWorld (file w) (S (gets w)) (clients w),
     [HttpGet api_url]).

(** [response.raise_for_status()] *)
Definition raise_for_status (r : response) : result unit :=
  if (400 <=? status_code r) && (status_code r <? 500) then
    raise HTTPError (Str.of_Z (status_code r) ++ " Client Error: "
                     ++ reason r ++ " for url: " ++ url r)
  else if (500 <=? status_code r) && (status_code r <? 600) then
    raise HTTPError (Str.of_Z (status_code r) ++ " Server Error: "
                     ++ reason r ++ " for url: " ++ url r)
  else Return tt.

(** [response.json()] *)
Definition json (r : response) : result pyval := json_result r.

End Requests.

(* ================================================================== *)
(** * [atproto] *)

Module Atproto.

(** [Client()]: clients are numbered as they are made. *)
Definition Client : M nat :=
  fun w => (Return (clients w), mkWorld (file w) (gets w) (S (clients w)), []).

(** [client.login(identifier, password)] *)
Definition login (E : env) (client : nat) (identifier password text : string)
  : M unit :=
  fun w =>
    match bsky E client text with
    | LoginFails e => (Raise e, w, [Login identifier password])
    | _ => (Return tt, w, [Login identifier password])
    end.

(** [client.send_post(text)], after a successful login: the [uri] and
    the [cid] of the post. *)
Definition send_post (E : env) (client : nat) (text : string)
  : M (string * string) :=
  fun w =>
    match bsky E client text with
    | LoginFails e | SendFails e => (Raise e, w, [SendPost text])
    | Posted uri cid => (Return (uri, cid), w, [SendPost text])
    end.

End Atproto.

(* ================================================================== *)
(** * The script *)

Record player : Type := mkPlayer { name : string; api_url : string }.

Definition PREVIOUS_STATUS_FILE : string := "mostrecentmatch.json".

(** [not x] for a value of [os.environ.get]: unset or empty. *)
Definition not_set (x : option string) : bool :=
  match x with
  | None => true
  | Some s => String.eqb s ""
  end.

(** The string of a variable that is set. *)
Definition env_value (x : option string) : string :=
  match x with
  | Some s => s
  | None => ""
  end.

Section Script.

Variable E : env.

(** ** [make_bluesky_post] (lines 17-40) *)
Definition make_bluesky_post (text_content : string)
  : M (option (string * string)) :=
  if not_set (BLUESKY_IDENTIFIER E) || not_set (BLUESKY_APP_PASSWORD E) then
    print "Bluesky credentials not configured. Skipping post.";;
    print "Please set BLUESKY_IDENTIFIER and BLUESKY_APP_PASSWORD in the script.";;
    ret None
  else
    client <- Atproto.Client;;
    try_except
      (Atproto.login E client (env_value (BLUESKY_IDENTIFIER E))
                     (env_value (BLUESKY_APP_PASSWORD E)) text_content;;
       print "Successfully logged into Bluesky!";;
       response <- Atproto.send_post E client text_content;;
       print "Post created successfully!";;
       print ("URI: " ++ fst response);;
       print ("CID: " ++ snd response);;
       ret (Some response))
      (fun e =>
         Some (print ("An error occurred while posting to Bluesky: "
                      ++ exn_msg e);;
               ret None)).

(** ** 1. Load previous player statuses (lines 48-59) *)

Definition os_path_exists : M bool :=
  fun w => (Return (match file w with NoFile => false | _ => true end), w, []).

(** [with open(PREVIOUS_STATUS_FILE, 'r') as f: json.load(f)] (lines
    52-53).  [json.load] is [loads(f.read())]: an exception of [open] or
    of the read comes out as it is, and only a text the decoder rejects
    gives a [JSONDecodeError]. *)
Definition json_load_file : M pyval :=
  fun w =>
    match file w with
    | JSONFile v => (Return v, w, [])
    | NotJSON msg => (raise JSONDecodeError msg, w, [])
    | Unreadable e => (Raise e, w, [])
    | NoFile => (raise OSError "No such file or directory", w, [])
    end.

Definition load_previous_results : M pyval :=
  found <- os_path_exists;;
  if found then
    try_except
      (previous_results <- json_load_file;;
       print ("Loaded previous statuses from " ++ PREVIOUS_STATUS_FILE);;
       ret previous_results)
      (fun e =>
         if is_JSONDecodeError (exn_cls e) then
           Some (print ("Error reading previous JSON file ("
                        ++ PREVIOUS_STATUS_FILE ++ "): " ++ exn_msg e
                        ++ ". Starting with empty previous data.");;
                 ret (PyDict []))
         else None)
  else
    print ("No previous status file found at " ++ PREVIOUS_STATUS_FILE
           ++ ". This might be the first run.");;
    ret (PyDict []).

(** ** 2. Fetch current player statuses (lines 70-103)

    The body of the [try] (lines 74-94): the outcome and the finished
    time of one player. *)
Definition fetch_match_status (playerdic : player) : M (string * string) :=
  response <- Requests.get E (api_url playerdic);;
  lift (Requests.raise_for_status response);;
  data <- lift (Requests.json response);;
  matches <- lift (getitem_key data "matches");;
  if truthy matches then
    last_match <- lift (getitem_0 matches);;
    finished_raw <- lift (get_method last_match "finished");;
    if truthy finished_raw then
      iso <- lift (replace_method finished_raw "Z" "+00:00");;
      dt <- lift (Datetime.fromisoformat iso);;
      let utc_dt := Datetime.replace_tzinfo dt Pytz.utc in
      buenos_aires_dt <- lift (Pytz.astimezone utc_dt (BUENOS_AIRES_TZ E));;
      ret ("finished playing at", Datetime.strftime_HM_Ymd buenos_aires_dt)
    else
      ret ("is playing now.", "")
  else
    print ("No recent matches found for player: " ++ name playerdic);;
    ret ("has no recent matches", "").

(** The two [except] clauses (lines 96-103), tried in the order written. *)
Definition fetch_handlers (playerdic : player) (e : exn)
  : option (M (string * string)) :=
  if is_RequestException (exn_cls e) then
    Some (print ("Error fetching data for player " ++ name playerdic ++ ": "
                 ++ exn_msg e);;
          ret ("encountered an API error: " ++ exn_msg e, ""))
  else if is_JSONDecodeError (exn_cls e) then
    Some (print ("Error decoding JSON for player " ++ name playerdic
                 ++ ". API might have returned invalid data.");;
          ret ("returned invalid data", ""))
  else None.

(** Lines 70-103.  The defaults of lines 70-71 ("status unknown" and the
    empty finished time) are overwritten on every path that reaches line
    106: each branch of the [try] body and each [except] clause assigns
    both variables, and any other exception leaves the function. *)
Definition fetch_player_status (playerdic : player) : M (string * string) :=
  try_except (fetch_match_status playerdic) (fetch_handlers playerdic).

(** Line 106: [f"{player_name} {outcome} {finished_info}".strip()] *)
Definition status_message_of (player_name outcome finished_info : string)
  : string :=
  Str.strip (player_name ++ " " ++ outcome ++ " " ++ finished_info).

(** ** 3. Compare current status with previous status (lines 110-122) *)
Definition compare_with_previous (previous_results : pyval)
    (player_name status_message : string) (changed_posts : list string)
  : M (list string) :=
  previous_status <- lift (get_method previous_results player_name);;
  if is_None previous_status then
    print ("NEW PLAYER STATUS: " ++ status_message);;
    ret (changed_posts ++ [status_message])%list
  else if ne_str previous_status status_message then
    (fun w => (Return tt, w, [PrintStatusChanged status_message previous_status]));;
    ret (changed_posts ++ [status_message])%list
  else
    print ("NO CHANGE: " ++ status_message);;
    ret changed_posts.

(** The [for playerdic in players] loop (lines 65-122), with the two
    variables it updates. *)
Fixpoint for_players (previous_results : pyval) (players : list player)
    (current_results : list (string * string)) (changed_posts : list string)
  : M (list (string * string) * list string) :=
  match players with
  | [] => ret (current_results, changed_posts)
  | playerdic :: rest =>
      let player_name := name playerdic in
      '(outcome, finished_info) <- fetch_player_status playerdic;;
      let status_message := status_message_of player_name outcome finished_info in
      let current_results := dict_set current_results player_name status_message in
      changed_posts <- compare_with_previous previous_results player_name
                         status_message changed_posts;;
      for_players previous_results rest current_results changed_posts
  end.

(** ** 4. Save the current results (lines 125-130) *)

(** What a write that raised [e] leaves of the file [f].  [open] and the
    writes raise [OSError]s only, and [json.dump] of a mapping from
    strings to strings raises nothing of its own: an exception of another
    class, which the [except IOError] clause lets through, is taken to
    come before the file is opened. *)
Definition after_failed_write (e : exn) (f : file_state) : file_state :=
  match write_leaves E with
  | Some msg => if is_IOError (exn_cls e) then NotJSON msg else f
  | None => f
  end.

(** [with open(PREVIOUS_STATUS_FILE, 'w') as f: json.dump(..., f, indent=4)]
    (lines 126-127).  [open(..., 'w')] truncates the file before
    [json.dump] writes to it. *)
Definition json_dump_file (current_results : list (string * string)) : M unit :=
  fun w =>
    match write_error E with
    | Some e =>
        (Raise e,
         mkWorld (after_failed_write e (file w)) (gets w) (clients w),
         [FileWrite (dict_to_py current_results) (Some e)])
    | None =>
        (Return tt,
         mkWorld (JSONFile (dict_to_py current_results)) (gets w) (clients w),
         [FileWrite (dict_to_py current_results) None])
    end.

Definition save_current_results (current_results : list (string * string))
  : M unit :=
  try_except
    (json_dump_file current_results;;
     print (newline ++ "Updated player statuses saved to "
            ++ PREVIOUS_STATUS_FILE))
    (fun e =>
       if is_IOError (exn_cls e) then
         Some (print ("Error writing to file " ++ PREVIOUS_STATUS_FILE ++ ": "
                      ++ exn_msg e))
       else None).

(** ** 5. Post all identified changes (lines 133-140) *)

Fixpoint post_each (changed_posts : list string) : M unit :=
  match changed_posts with
  | [] => ret tt
  | post_text :: rest =>
      print ("Attempting to post: '" ++ post_text ++ "'");;
      make_bluesky_post post_text;;
      post_each rest
  end.

Definition post_changes (changed_posts : list string) : M unit :=
  match changed_posts with
  | [] => print (newline ++ "No status changes detected. No new posts to Bluesky.")
  | _ =>
      print (newline ++ "--- Posting "
             ++ Str.of_Z (Z.of_nat (List.length changed_posts))
             ++ " changed statuses to Bluesky ---");;
      post_each changed_posts
  end.

(** ** [check_player_statuses_and_post_changes] (lines 42-140) *)
Definition check_player_statuses_and_post_changes (players : list player)
  : M unit :=
  previous_results <- load_previous_results;;
  '(current_results, changed_posts) <- for_players previous_results players [] [];;
  save_current_results current_results;;
  post_changes changed_posts.

End Script.

(** The players to monitor (lines 143-151). *)
Definition players : list player :=
  [ mkPlayer "Carpincho" "https://data.aoe2companion.com/api/matches?profile_ids=6446904&search=&page=1";
    mkPlayer "alanthekat" "https://data.aoe2companion.com/api/matches?profile_ids=1263162&search=&page=1";
    mkPlayer "thexcarpincho" "https://data.aoe2companion.com/api/matches?profile_ids=18660623&search=&page=1";
    mkPlayer "Dicopato" "https://data.aoe2companion.com/api/matches?profile_ids=255507&search=&page=1";
    mkPlayer "Dicopatito" "https://data.aoe2companion.com/api/matches?profile_ids=6237950&search=&page=1";
    mkPlayer "Nanox" "https://data.aoe2companion.com/api/matches?profile_ids=439001&search=&page=1";
    mkPlayer "Sir Monkey" "https://data.aoe2companion.com/api/matches?profile_ids=903496&search=&page=1" ].

(** [if __name__ == "__main__"] (line 155) *)
Definition main (E : env) : M unit :=
  check_player_statuses_and_post_changes E players.

(* ================================================================== *)
(** * Vocabulary of the statements *)

(** The request of player [p] made in world [w] is answered by [r], and
    [r.raise_for_status()] passes. *)
Definition answered (E : env) (w : world) (p : player) (r : response) : Prop :=
  http E (gets w) (api_url p) = Return r
  /\ Requests.raise_for_status r = Return tt.

(** The decoded body is an object whose ["matches"] is a list that starts
    with the object [m]: [m] is the most recent match entry. *)
Definition latest_match (data : pyval) (m : list (string * pyval)) : Prop :=
  exists d rest,
    data = PyDict d /\ dict_get d "matches" = Some (PyList (PyDict m :: rest)).

(** The world after one request. *)
Definition after_get (w : world) : world :=
  mkWorld (file w) (S (gets w)) (clients w).

(** The status line as the specification words it: the three parts
    joined by single spaces, trimmed of trailing white space only. *)
Definition spec_status (player_name outcome finished_info : string) : string :=
  Str.rstrip (player_name ++ " " ++ outcome ++ " " ++ finished_info).

(** 2024-03-10 18:30 UTC, as the naive value the zone table is asked
    about. *)
Definition instant_2024_03_10_1830 : Datetime.datetime :=
  Datetime.mkDatetime 2024 3 10 18 30 0 0 None.

(** The stored mapping has exactly the string [s] for [player_name]. *)
Definition prior_is (previous_results : list (string * pyval))
    (player_name s : string) : bool :=
  match dict_get previous_results player_name with
  | Some (PyStr s') => String.eqb s' s
  | _ => false
  end.

(** The statuses the loop stores for its players one after the other:
    [fetches E w players statuses w'] when, from world [w], the fetch step
    returns for each player in turn, the status lines are [statuses], and
    the world is [w'] after the last one. *)
Inductive fetches (E : env) : world -> list player -> list string -> world -> Prop :=
| fetches_nil (w : world) : fetches E w [] [] w
| fetches_cons (w w1 w' : world) (p : player) (rest : list player)
    (outcome finished_info : string) (ev : list event) (statuses : list string) :
    fetch_player_status E p w = (Return (outcome, finished_info), w1, ev) ->
    fetches E w1 rest statuses w' ->
    fetches E w (p :: rest)
            (status_message_of (name p) outcome finished_info :: statuses) w'.

(** [current_results] after the loop has stored the given statuses. *)
Definition store_all (current_results : list (string * string))
    (named : list (string * string)) : list (string * string) :=
  fold_left (fun d ns => dict_set d (fst ns) (snd ns)) named current_results.

(** The statuses of [named] that the stored mapping does not already
    have, in order. *)
Definition reported (previous_results : list (string * pyval))
    (named : list (string * string)) : list string :=
  map snd (filter (fun ns => negb (prior_is previous_results (fst ns) (snd ns)))
                  named).

(** A call to the posting API. *)
Definition is_post_event (e : event) : bool :=
  match e with
  | Login _ _ | SendPost _ => true
  | _ => false
  end.

(** A computation that never calls the posting API. *)
Definition quiet {A : Type} (m : M A) : Prop :=
  forall w, Forall (fun e => is_post_event e = false) (snd (m w)).

(** Two worlds that differ at most in the file. *)
Definition same_counters (w1 w2 : world) : Prop :=
  gets w1 = gets w2 /\ clients w1 = clients w2.

(** A computation that does not read the file: from worlds that differ
    only in the file it gives the same result and the same events, and
    either writes the same file in both or leaves both files as they
    were. *)
Definition blind {A : Type} (m : M A) : Prop :=
  forall w1 w2, same_counters w1 w2 ->
    fst (fst (m w1)) = fst (fst (m w2))
    /\ snd (m w1) = snd (m w2)
    /\ same_counters (snd (fst (m w1))) (snd (fst (m w2)))
    /\ (file (snd (fst (m w1))) = file (snd (fst (m w2)))
        \/ (file (snd (fst (m w1))) = file w1
            /\ file (snd (fst (m w2))) = file w2)).

(** Two environments that differ at most in the credentials and in what
    the posting API does. *)
Definition same_but_posting (E E' : env) : Prop :=
  BUENOS_AIRES_TZ E = BUENOS_AIRES_TZ E'
  /\ http E = http E'
  /\ write_error E = write_error E'
  /\ write_leaves E = write_leaves E'.

(** Number of [client.login] calls among the events. *)
Definition logins (evs : list event) : nat :=
  List.length (filter (fun e => match e with Login _ _ => true | _ => false end) evs).

(** The line the posting loop prints before it hands a text to
    [make_bluesky_post]. *)
Definition attempt_line (post_text : string) : event :=
  Print ("Attempting to post: '" ++ post_text ++ "'").

(** The exception that leaves step 1, for each state of the file: the
    one the read raises, unless the clause of line 55 takes it. *)
Definition load_raises (f : file_state) : option exn :=
  match f with
  | Unreadable e => if is_JSONDecodeError (exn_cls e) then None else Some e
  | _ => None
  end.

(** What step 1 takes as the previous results, and the line it prints,
    for each state of the file with which it returns. *)
Definition loaded (f : file_state) : pyval :=
  match f with
  | JSONFile v => v
  | _ => PyDict []
  end.

Definition load_line (f : file_state) : string :=
  match f with
  | NoFile =>
      "No previous status file found at " ++ PREVIOUS_STATUS_FILE
      ++ ". This might be the first run."
  | NotJSON msg =>
      "Error reading previous JSON file (" ++ PREVIOUS_STATUS_FILE ++ "): "
      ++ msg ++ ". Starting with empty previous data."
  | Unreadable e =>
      "Error reading previous JSON file (" ++ PREVIOUS_STATUS_FILE ++ "): "
      ++ exn_msg e ++ ". Starting with empty previous data."
  | JSONFile _ => "Loaded previous statuses from " ++ PREVIOUS_STATUS_FILE
  end.

(** The line step 5 prints when one message could not be posted. *)
Definition post_error_line (e : exn) : event :=
  Print ("An error occurred while posting to Bluesky: " ++ exn_msg e).

(** Steps 2 to 5, given the previous results step 1 produced. *)
Definition after_load (E : env) (players : list player)
    (previous_results : pyval) : M unit :=
  bind (for_players E previous_results players [] [])
       (fun x => match x with
                 | (current_results, changed_posts) =>
                     bind (save_current_results E current_results)
                          (fun _ => post_changes E changed_posts)
                 end).

(** ** Sample inputs *)

Module Sample.

Definition UTC_minus_3 : Pytz.timezone := Pytz.mkTimezone (fun _ => -10800).

(** A 200 answer whose body decodes to [v]. *)
Definition ok (v : pyval) : result response :=
  Return (mkResponse 200 "OK" "" (Return v)).

(** A 200 answer whose body is an HTML page: [response.json()] raises
    [requests.exceptions.JSONDecodeError]. *)
Definition html_page : result response :=
  Return (mkResponse 200 "OK" ""
            (raise RequestsJSONDecodeError
                   "Expecting value: line 1 column 1 (char 0)")).

(** The same body under a [requests] older than 2.27, where
    [response.json()] lets [json.JSONDecodeError] through. *)
Definition html_page_old : result response :=
  Return (mkResponse 200 "OK" ""
            (raise JSONDecodeError
                   "Expecting value: line 1 column 1 (char 0)")).

(** Credentials set, every post accepted, the file writable. *)
Definition env_of (answers : nat -> string -> result response) : env :=
  mkEnv (Some "bot.bsky.social") (Some "app-password") UTC_minus_3 answers
        (fun _ _ => Posted "at://post" "cid") None None.

Definition first_run : world := mkWorld NoFile 0 0.

Definition carpincho : player := mkPlayer "Carpincho" "https://example/1".

Definition matches_of (entry : list (string * pyval)) : pyval :=
  PyDict [("matches", PyList [PyDict entry])].

Definition nanox : player := mkPlayer "Nanox" "https://example/2".

(** Every answer is a 200 with an empty list of matches. *)
Definition no_matches : env :=
  env_of (fun _ _ => ok (PyDict [("matches", PyList [])])).

(** The answer depends on the address: no match at the first address,
    a match in progress at the second. *)
Definition by_url : env :=
  env_of (fun _ u =>
            if String.eqb u "https://example/1"
            then ok (PyDict [("matches", PyList [])])
            else ok (matches_of [("finished", PyNone)])).

(** Two entries of the roster under one name. *)
Definition same_name_twice : list player :=
  [mkPlayer "A" "https://example/1"; mkPlayer "A" "https://example/2"].

(** A player whose name starts with a space. *)
Definition bob : player := mkPlayer " Bob" "https://example/1".

(** The identifier is not set. *)
Definition no_identifier : env :=
  mkEnv None (Some "app-password") UTC_minus_3
        (fun _ _ => ok (PyDict [("matches", PyList [])]))
        (fun _ _ => Posted "at://post" "cid") None None.

Definition rate_limited : exn := mkExn OtherException "rate limit exceeded".

(** Credentials set; the post of the second client fails. *)
Definition second_post_fails : env :=
  mkEnv (Some "bot.bsky.social") (Some "app-password") UTC_minus_3
        (fun _ _ => ok (PyDict [("matches", PyList [])]))
        (fun n _ => match n with
                    | 1%nat => SendFails rate_limited
                    | _ => Posted "at://post" "cid"
                    end)
        None None.

End Sample.

(* ================================================================== *)
(** * Vocabulary of the further statements *)

(** The rest of the [try] body once [requests.get] has returned
    (lines 75-94). *)
Definition after_response (E : env) (playerdic : player) (response : response)
  : M (string * string) :=
  lift (Requests.raise_for_status response);;
  data <- lift (Requests.json response);;
  matches <- lift (getitem_key data "matches");;
  if truthy matches then
    last_match <- lift (getitem_0 matches);;
    finished_raw <- lift (get_method last_match "finished");;
    if truthy finished_raw then
      iso <- lift (replace_method finished_raw "Z" "+00:00");;
      dt <- lift (Datetime.fromisoformat iso);;
      let utc_dt := Datetime.replace_tzinfo dt Pytz.utc in
      buenos_aires_dt <- lift (Pytz.astimezone utc_dt (BUENOS_AIRES_TZ E));;
      ret ("finished playing at", Datetime.strftime_HM_Ymd buenos_aires_dt)
    else
      ret ("is playing now.", "")
  else
    print ("No recent matches found for player: " ++ name playerdic);;
    ret ("has no recent matches", "").

(** Lines 85-87 as a function of [finished_raw]: the rendered time, or
    the exception raised on the way. *)
Definition finished_time (tz : Pytz.timezone) (finished_raw : pyval)
  : result string :=
  match replace_method finished_raw "Z" "+00:00" with
  | Raise e => Raise e
  | Return iso =>
      match Datetime.fromisoformat iso with
      | Raise e => Raise e
      | Return dt =>
          match Pytz.astimezone (Datetime.replace_tzinfo dt Pytz.utc) tz with
          | Raise e => Raise e
          | Return buenos_aires_dt =>
              Return (Datetime.strftime_HM_Ymd buenos_aires_dt)
          end
      end
  end.

(** Lines 79-90 as a function of the first item of the list of matches. *)
Definition entry_outcome (tz : Pytz.timezone) (last_match : pyval)
  : result (string * string) :=
  match get_method last_match "finished" with
  | Raise e => Raise e
  | Return finished_raw =>
      if truthy finished_raw then
        match finished_time tz finished_raw with
        | Raise e => Raise e
        | Return t => Return ("finished playing at", t)
        end
      else Return ("is playing now.", "")
  end.

(** A line of the log. *)
Definition is_print (e : event) : bool :=
  match e with
  | Print _ | PrintStatusChanged _ _ => true
  | _ => false
  end.

(** A computation that only prints: it leaves the world as it is. *)
Definition prints_only {A : Type} (m : M A) : Prop :=
  forall w, snd (fst (m w)) = w
            /\ Forall (fun e => is_print e = true) (snd (m w)).

(** The addresses requested, in order. *)
Fixpoint requested (evs : list event) : list string :=
  match evs with
  | [] => []
  | HttpGet u :: rest => u :: requested rest
  | _ :: rest => requested rest
  end.

(** The texts handed to [client.send_post], in order. *)
Fixpoint sent (evs : list event) : list string :=
  match evs with
  | [] => []
  | SendPost t :: rest => t :: sent rest
  | _ :: rest => sent rest
  end.

(** The files written, in order: the content of every write that did not
    raise. *)
Fixpoint written (evs : list event) : list pyval :=
  match evs with
  | [] => []
  | FileWrite content None :: rest => content :: written rest
  | _ :: rest => written rest
  end.

(** The login of the client made for [text] succeeds. *)
Definition login_succeeds (E : env) (client : nat) (text : string) : bool :=
  match bsky E client text with
  | LoginFails _ => false
  | _ => true
  end.

(** Both credentials are set to something. *)
Definition credentials_set (E : env) : bool :=
  negb (not_set (BLUESKY_IDENTIFIER E) || not_set (BLUESKY_APP_PASSWORD E)).

(** The same environment with another fate for the write of the file. *)
Definition with_write_error (E : env) (x : option exn) : env :=
  mkEnv (BLUESKY_IDENTIFIER E) (BLUESKY_APP_PASSWORD E) (BUENOS_AIRES_TZ E)
        (http E) (bsky E) x (write_leaves E).

(** ** Further sample inputs *)

Module Cases.

(** The network is down: every request raises [ConnectionError]. *)
Definition network_down : env :=
  Sample.env_of (fun _ _ => raise ConnectionError "Connection refused").

(** Every answer is a 404 whose body would decode to a match. *)
Definition not_found : env :=
  Sample.env_of (fun _ u =>
    Return (mkResponse 404 "Not Found" u
              (Return (Sample.matches_of [("finished", PyNone)])))).

(** The first answer lists one finished match; the second lists the same
    match followed by an older one. *)
Definition longer_history : env :=
  Sample.env_of (fun n _ =>
    match n with
    | O => Sample.ok (Sample.matches_of
                        [("finished", PyStr "2024-03-10T18:30:00Z")])
    | _ => Sample.ok
             (PyDict [("matches",
                       PyList [PyDict [("finished", PyStr "2024-03-10T18:30:00Z")];
                               PyDict [("finished", PyNone)]])])
    end).

(** The first answer gives the finished time with the offset +05:00, the
    second the same wall-clock time in UTC. *)
Definition other_offset : env :=
  Sample.env_of (fun n _ =>
    match n with
    | O => Sample.ok (Sample.matches_of
                        [("finished", PyStr "2024-03-10T18:30:00+05:00")])
    | _ => Sample.ok (Sample.matches_of
                        [("finished", PyStr "2024-03-10T18:30:00Z")])
    end).

(** ["matches"] is null. *)
Definition null_matches : env :=
  Sample.env_of (fun _ _ => Sample.ok (PyDict [("matches", PyNone)])).

Definition disk_full : exn := mkExn OSError "No space left on device".

(** The text of an empty file, as the decoder reports it. *)
Definition empty_text : string := "Expecting value: line 1 column 1 (char 0)".

(** The file is opened, and so emptied, and the first write to it finds
    the disk full. *)
Definition disk_fills_up : env :=
  mkEnv (Some "bot.bsky.social") (Some "app-password") Sample.UTC_minus_3
        (fun _ _ => Sample.ok (PyDict [("matches", PyList [])]))
        (fun _ _ => Posted "at://post" "cid")
        (Some disk_full) (Some empty_text).

(** The file may not be opened for writing. *)
Definition no_permission : exn :=
  mkExn OSError "[Errno 13] Permission denied: 'mostrecentmatch.json'".

(** A file that starts with the bytes FF FE, read as UTF-8. *)
Definition not_utf8 : exn :=
  mkExn UnicodeDecodeError
        "'utf-8' codec can't decode byte 0xff in position 0: invalid start byte".

(** A file of a hundred thousand opening brackets. *)
Definition too_deep : exn :=
  mkExn RecursionError
        "maximum recursion depth exceeded while decoding a JSON array from a unicode string".

(** Credentials set; the login of the second client fails. *)
Definition second_login_fails : env :=
  mkEnv (Some "bot.bsky.social") (Some "app-password") Sample.UTC_minus_3
        (fun _ _ => Sample.ok (PyDict [("matches", PyList [])]))
        (fun n _ => match n with
                    | 1%nat => LoginFails (mkExn OtherException "bad password")
                    | _ => Posted "at://post" "cid"
                    end)
        None None.

End Cases.

(* ================================================================== *)
(** * The fetch step *)

(** The first [except] clause takes every [RequestException], and
    [requests.exceptions.JSONDecodeError] is one: the second clause never
    sees it. *)
Lemma fetch_handlers_requests_json_error (p : player) (msg : string) :
  fetch_handlers p (mkExn RequestsJSONDecodeError msg)
  = Some (bind (print ("Error fetching data for player " ++ name p ++ ": " ++ msg))
               (fun _ => ret ("encountered an API error: " ++ msg, ""))).
Proof. reflexivity. Qed.

(** The second clause is reached by a [json.JSONDecodeError] that is not
    a [RequestException]. *)
Lemma fetch_handlers_plain_json_error (p : player) (msg : string) :
  fetch_handlers p (mkExn JSONDecodeError msg)
  = Some (bind (print ("Error decoding JSON for player " ++ name p
                       ++ ". API might have returned invalid data."))
               (fun _ => ret ("returned invalid data", ""))).
Proof. reflexivity. Qed.

(** With such an exception the fetch step returns the outcome the second
    clause sets. *)
Lemma fetch_plain_json_error_returns (E : env) (w : world) (p : player)
    (r : response) (msg : string) :
  answered E w p r ->
  json_result r = raise JSONDecodeError msg ->
  fetch_player_status E p w
  = (Return ("returned invalid data", ""), after_get w,
     [HttpGet (api_url p);
      Print ("Error decoding JSON for player " ++ name p
             ++ ". API might have returned invalid data.")]).
Proof.
  intros [Hget Hst] Hjson.
  unfold fetch_player_status, try_except, fetch_match_status, bind,
    Requests.get, Requests.json, lift.
  rewrite Hget, Hst, Hjson. reflexivity.
Qed.

(** With the exception [requests] raises for a body that is not JSON the
    fetch step returns the outcome the first clause sets. *)
Lemma fetch_requests_json_error_returns (E : env) (w : world) (p : player)
    (r : response) (msg : string) :
  answered E w p r ->
  json_result r = raise RequestsJSONDecodeError msg ->
  fetch_player_status E p w
  = (Return ("encountered an API error: " ++ msg, ""), after_get w,
     [HttpGet (api_url p);
      Print ("Error fetching data for player " ++ name p ++ ": " ++ msg)]).
Proof.
  intros [Hget Hst] Hjson.
  unfold fetch_player_status, try_except, fetch_match_status, bind,
    Requests.get, Requests.json, lift.
  rewrite Hget, Hst, Hjson. reflexivity.
Qed.

(** C1, at a body that is not JSON: with [requests] 2.27 or later
    [response.json()] raises [requests.exceptions.JSONDecodeError], the
    first [except] clause catches it, and the status of the player is
    "Carpincho encountered an API error: ..." and not
    "Carpincho returned invalid data".  The loop does go on to the next
    player. *)
Theorem C1_invalid_body_takes_the_api_error_clause :
  for_players (Sample.env_of (fun _ _ => Sample.html_page)) (PyDict [])
              [Sample.carpincho; mkPlayer "Nanox" "https://example/2"] [] []
              Sample.first_run
  = (Return
       ([("Carpincho",
          "Carpincho encountered an API error: Expecting value: line 1 column 1 (char 0)");
         ("Nanox",
          "Nanox encountered an API error: Expecting value: line 1 column 1 (char 0)")],
        ["Carpincho encountered an API error: Expecting value: line 1 column 1 (char 0)";
         "Nanox encountered an API error: Expecting value: line 1 column 1 (char 0)"]),
     mkWorld NoFile 2 0,
     [HttpGet "https://example/1";
      Print "Error fetching data for player Carpincho: Expecting value: line 1 column 1 (char 0)";
      Print "NEW PLAYER STATUS: Carpincho encountered an API error: Expecting value: line 1 column 1 (char 0)";
      HttpGet "https://example/2";
      Print "Error fetching data for player Nanox: Expecting value: line 1 column 1 (char 0)";
      Print "NEW PLAYER STATUS: Nanox encountered an API error: Expecting value: line 1 column 1 (char 0)"]).
Proof. vm_compute. reflexivity. Qed.

(** C2, at three inputs: a JSON object without ["matches"] makes
    [data['matches']] raise [KeyError]; a ["finished"] that is not a
    timestamp makes [fromisoformat] raise [ValueError]; a state file that
    holds a JSON list makes [previous_results.get] raise
    [AttributeError].  No [except] clause accepts any of them: the
    exception leaves [main], nothing is written and nothing is posted. *)
Theorem C2_uncaught_exceptions_end_the_run :
  main (Sample.env_of (fun _ _ => Sample.ok (PyDict []))) Sample.first_run
  = (Raise (mkExn KeyError "'matches'"), mkWorld NoFile 1 0,
     [Print "No previous status file found at mostrecentmatch.json. This might be the first run.";
      HttpGet "https://data.aoe2companion.com/api/matches?profile_ids=6446904&search=&page=1"])
  /\ main (Sample.env_of (fun _ _ =>
             Sample.ok (Sample.matches_of [("finished", PyStr "yesterday")])))
          Sample.first_run
  = (Raise (mkExn ValueError "Invalid isoformat string: 'yesterday'"),
     mkWorld NoFile 1 0,
     [Print "No previous status file found at mostrecentmatch.json. This might be the first run.";
      HttpGet "https://data.aoe2companion.com/api/matches?profile_ids=6446904&search=&page=1"])
  /\ main Sample.no_matches (mkWorld (JSONFile (PyList [])) 0 0)
  = (Raise (mkExn AttributeError "object has no attribute 'get'"),
     mkWorld (JSONFile (PyList [])) 1 0,
     [Print "Loaded previous statuses from mostrecentmatch.json";
      HttpGet "https://data.aoe2companion.com/api/matches?profile_ids=6446904&search=&page=1";
      Print "No recent matches found for player: Carpincho"]).
Proof. repeat split; vm_compute; reflexivity. Qed.

(** The [else] branch of line 88 is taken on the truth value of
    [finished_raw]. *)
Lemma fetch_is_playing_now (E : env) (w : world) (p : player)
    (r : response) (data : pyval) (m : list (string * pyval)) :
  answered E w p r ->
  json_result r = Return data ->
  latest_match data m ->
  match dict_get m "finished" with
  | Some v => truthy v = false
  | None => True
  end ->
  fetch_player_status E p w
  = (Return ("is playing now.", ""), after_get w, [HttpGet (api_url p)]).
Proof.
  intros [Hget Hst] Hjson (d & rest & -> & Hm) Hfin.
  unfold fetch_player_status, try_except, fetch_match_status, bind,
    Requests.get, Requests.json, lift.
  rewrite Hget, Hst, Hjson. cbn [getitem_key]. rewrite Hm.
  cbn [truthy getitem_0 get_method].
  destruct (dict_get m "finished") as [v|]; [rewrite Hfin|]; reflexivity.
Qed.

(** C10: when the most recent match entry has a ["finished"] that is
    absent or has a false truth value (null, the empty string, 0, false,
    0.0, an empty list or object), the fetch step returns the outcome
    "is playing now." with no finished time, one and the same result in
    all these cases. *)
Theorem C10_falsy_finished_is_playing_now (E : env) (w : world) (p : player)
    (r : response) (data : pyval) (m : list (string * pyval)) :
  answered E w p r ->
  json_result r = Return data ->
  latest_match data m ->
  match dict_get m "finished" with
  | Some v => truthy v = false
  | None => True
  end ->
  fetch_player_status E p w
  = (Return ("is playing now.", ""), after_get w, [HttpGet (api_url p)]).
Proof. exact (fetch_is_playing_now E w p r data m). Qed.

Lemma C10_witness :
  let E := Sample.env_of (fun _ _ =>
             Sample.ok (Sample.matches_of [("finished", PyStr "")])) in
  fetch_player_status E Sample.carpincho Sample.first_run
  = (Return ("is playing now.", ""), mkWorld NoFile 1 0,
     [HttpGet "https://example/1"]).
Proof.
  intro E.
  apply (C10_falsy_finished_is_playing_now E Sample.first_run Sample.carpincho
           (mkResponse 200 "OK" "" (Return (Sample.matches_of [("finished", PyStr "")])))
           (Sample.matches_of [("finished", PyStr "")])
           [("finished", PyStr "")]).
  - split; reflexivity.
  - reflexivity.
  - exists [("matches", PyList [PyDict [("finished", PyStr "")]])], [].
    split; reflexivity.
  - reflexivity.
Defined.

(* ================================================================== *)
(** * White space *)

Lemma lstrip_app_nonspace (a : string) (c : ascii) (b : string) :
  Str.isspace c = false ->
  Str.lstrip (a ++ String c b) = Str.lstrip a ++ String c b.
Proof.
  intros Hc. induction a as [|x a IH]; cbn.
  - now rewrite Hc.
  - destruct (Str.isspace x); [exact IH | reflexivity].
Qed.

Lemma rstrip_app (a b : string) :
  Str.rstrip b <> "" -> Str.rstrip (a ++ b) = a ++ Str.rstrip b.
Proof.
  intros Hb. induction a as [|x a IH]; cbn; [reflexivity|].
  rewrite IH. destruct (a ++ Str.rstrip b) eqn:Heq; [|reflexivity].
  destruct a; cbn in Heq; [contradiction | discriminate].
Qed.

Lemma rstrip_nonspace_head (c : ascii) (s : string) :
  Str.isspace c = false -> Str.rstrip (String c s) <> "".
Proof.
  intros Hc. cbn. destruct (Str.rstrip s); [rewrite Hc|]; discriminate.
Qed.

(** A line made of a name, a space and a text that starts with something
    else than white space: [strip] can only shorten the name at the left
    and the text at the right. *)
Lemma strip_line (n : string) (c : ascii) (t : string) :
  Str.isspace c = false ->
  Str.strip (n ++ " " ++ String c t)
  = Str.lstrip (n ++ " ") ++ Str.rstrip (String c t).
Proof.
  intros Hc. unfold Str.strip.
  replace (n ++ " " ++ String c t) with ((n ++ " ") ++ String c t).
  - rewrite (lstrip_app_nonspace _ _ _ Hc).
    apply rstrip_app, rstrip_nonspace_head, Hc.
  - induction n as [|x n IH]; cbn; [reflexivity | now rewrite IH].
Qed.

Lemma lstrip_nonspace_head (c : ascii) (s : string) :
  Str.isspace c = false -> Str.lstrip (String c s) = String c s.
Proof. intros Hc. cbn. now rewrite Hc. Qed.

Lemma append_assoc (a b c : string) : (a ++ b) ++ c = a ++ b ++ c.
Proof. induction a as [|x a IH]; cbn; [reflexivity | now rewrite IH]. Qed.

(** The status lines of the two outcomes without a finished time. *)
Lemma status_no_recent_matches (n : string) :
  status_message_of n "has no recent matches" ""
  = Str.lstrip (n ++ " ") ++ "has no recent matches".
Proof.
  unfold status_message_of.
  change ("has no recent matches" ++ " " ++ "") with "has no recent matches ".
  now rewrite strip_line.
Qed.

Lemma status_is_playing_now (n : string) :
  status_message_of n "is playing now." ""
  = Str.lstrip (n ++ " ") ++ "is playing now.".
Proof.
  unfold status_message_of.
  change ("is playing now." ++ " " ++ "") with "is playing now. ".
  now rewrite strip_line.
Qed.

(** [s.replace('Z', '+00:00')] sends the suffix ["Z"] and the suffix
    ["+00:00"] of any one prefix to the same string. *)
Lemma replace_Z_suffix (s : string) :
  Str.replace_char (s ++ "Z") "Z" "+00:00"
  = Str.replace_char (s ++ "+00:00") "Z" "+00:00".
Proof.
  induction s as [|c s IH]; cbn; [reflexivity|].
  rewrite IH. reflexivity.
Qed.

(* ================================================================== *)
(** * The finished time *)

Lemma fromisoformat_2024_03_10_1830 :
  Datetime.fromisoformat "2024-03-10T18:30:00+00:00"
  = Return (Datetime.mkDatetime 2024 3 10 18 30 0 0 (Some 0)).
Proof. vm_compute. reflexivity. Qed.

Lemma astimezone_minus_3 (tz : Pytz.timezone) :
  Pytz.utcoffset_at tz instant_2024_03_10_1830 = -10800 ->
  Pytz.astimezone
    (Datetime.replace_tzinfo (Datetime.mkDatetime 2024 3 10 18 30 0 0 (Some 0))
                             Pytz.utc) tz
  = Return (Datetime.mkDatetime 2024 3 10 15 30 0 0 (Some (-10800000000))).
Proof.
  intros Htz. unfold Pytz.astimezone.
  change (Datetime.replace_tzinfo
            (Datetime.replace_tzinfo _ Pytz.utc) None)
    with instant_2024_03_10_1830.
  rewrite Htz. vm_compute. reflexivity.
Qed.

(** C3: the most recent match finished at ["2024-03-10T18:30:00Z"], or
    at the same instant written ["2024-03-10T18:30:00+00:00"], and the
    zone is three hours behind UTC at that instant: both spellings are
    accepted, the fetch step returns the finished time
    "15:30 (2024-03-10)" for both, and the status line ends with
    "finished playing at 15:30 (2024-03-10)".  For any timestamp the two
    spellings of UTC are one string once line 85 has replaced the "Z". *)
Theorem C3_finished_time_2024_03_10 (E : env) (w : world) (p : player)
    (r : response) (data : pyval) (m : list (string * pyval))
    (finished : string) :
  Pytz.utcoffset_at (BUENOS_AIRES_TZ E) instant_2024_03_10_1830 = -10800 ->
  finished = "2024-03-10T18:30:00Z" \/ finished = "2024-03-10T18:30:00+00:00" ->
  answered E w p r ->
  json_result r = Return data ->
  latest_match data m ->
  dict_get m "finished" = Some (PyStr finished) ->
  fetch_player_status E p w
  = (Return ("finished playing at", "15:30 (2024-03-10)"), after_get w,
     [HttpGet (api_url p)])
  /\ (exists pre,
       status_message_of (name p) "finished playing at" "15:30 (2024-03-10)"
       = pre ++ "finished playing at 15:30 (2024-03-10)")
  /\ forall s,
       replace_method (PyStr (s ++ "Z")) "Z" "+00:00"
       = replace_method (PyStr (s ++ "+00:00")) "Z" "+00:00".
Proof.
  intros Htz Hf [Hget Hst] Hjson (d & rest & -> & Hm) Hfin.
  split; [|split; [|intros s; cbn [replace_method]; now rewrite replace_Z_suffix]].
  - unfold fetch_player_status, try_except, fetch_match_status, bind,
      Requests.get, Requests.json, lift.
    rewrite Hget, Hst, Hjson. cbn [getitem_key]. rewrite Hm.
    cbn [truthy getitem_0 get_method]. rewrite Hfin.
    assert (Hiso : replace_method (PyStr finished) "Z" "+00:00"
                   = Return "2024-03-10T18:30:00+00:00")
      by (destruct Hf as [-> | ->]; reflexivity).
    assert (Ht : truthy (PyStr finished) = true)
      by (destruct Hf as [-> | ->]; reflexivity).
    rewrite Ht, Hiso, fromisoformat_2024_03_10_1830.
    rewrite (astimezone_minus_3 _ Htz). reflexivity.
  - exists (Str.lstrip (name p ++ " ")). unfold status_message_of.
    change ("finished playing at" ++ " " ++ "15:30 (2024-03-10)")
      with "finished playing at 15:30 (2024-03-10)".
    now rewrite strip_line.
Qed.

Lemma C3_witness :
  let E := Sample.env_of (fun _ _ =>
             Sample.ok (Sample.matches_of
                          [("finished", PyStr "2024-03-10T18:30:00Z")])) in
  fetch_player_status E Sample.carpincho Sample.first_run
  = (Return ("finished playing at", "15:30 (2024-03-10)"),
     mkWorld NoFile 1 0, [HttpGet "https://example/1"])
  /\ (exists pre,
       status_message_of "Carpincho" "finished playing at" "15:30 (2024-03-10)"
       = pre ++ "finished playing at 15:30 (2024-03-10)")
  /\ forall s,
       replace_method (PyStr (s ++ "Z")) "Z" "+00:00"
       = replace_method (PyStr (s ++ "+00:00")) "Z" "+00:00".
Proof.
  intro E.
  apply (C3_finished_time_2024_03_10 E Sample.first_run Sample.carpincho
           (mkResponse 200 "OK" ""
              (Return (Sample.matches_of
                         [("finished", PyStr "2024-03-10T18:30:00Z")])))
           (Sample.matches_of [("finished", PyStr "2024-03-10T18:30:00Z")])
           [("finished", PyStr "2024-03-10T18:30:00Z")]
           "2024-03-10T18:30:00Z").
  - reflexivity.
  - left; reflexivity.
  - split; reflexivity.
  - reflexivity.
  - exists [("matches",
             PyList [PyDict [("finished", PyStr "2024-03-10T18:30:00Z")]])], [].
    split; reflexivity.
  - reflexivity.
Defined.

(* ================================================================== *)
(** * Running computations *)

Lemma bind_return {A B : Type} (m : M A) (k : A -> M B) (w w1 : world)
    (a : A) (ev1 : list event) :
  m w = (Return a, w1, ev1) ->
  bind m k w = (let '(r, w2, ev2) := k a w1 in (r, w2, (ev1 ++ ev2)%list)).
Proof. intros H. unfold bind. now rewrite H. Qed.

Lemma bind_raise {A B : Type} (m : M A) (k : A -> M B) (w w1 : world)
    (e : exn) (ev1 : list event) :
  m w = (Raise e, w1, ev1) -> bind m k w = (Raise e, w1, ev1).
Proof. intros H. unfold bind. now rewrite H. Qed.

(** What [bind] returned, taken apart. *)
Lemma bind_inv {A B : Type} (m : M A) (k : A -> M B) (w w2 : world)
    (b : B) (ev : list event) :
  bind m k w = (Return b, w2, ev) ->
  exists a w1 ev1 ev2,
    m w = (Return a, w1, ev1) /\ k a w1 = (Return b, w2, ev2)
    /\ ev = (ev1 ++ ev2)%list.
Proof.
  unfold bind. destruct (m w) as [[[a|e] w1] ev1]; [|discriminate].
  destruct (k a w1) as [[r w2'] ev2] eqn:Hk. intros H. inversion H; subst.
  now exists a, w1, ev1, ev2.
Qed.

(* ================================================================== *)
(** * Computations that never call the posting API *)

Section Quiet.

Context {A B : Type}.

Lemma quiet_ret (a : A) : quiet (ret a).
Proof. intros w; constructor. Qed.

Lemma quiet_lift (r : result A) : quiet (lift r).
Proof. intros w; constructor. Qed.

Lemma quiet_print (line : string) : quiet (print line).
Proof. intros w; repeat constructor. Qed.

Lemma quiet_bind (m : M A) (k : A -> M B) :
  quiet m -> (forall a, quiet (k a)) -> quiet (bind m k).
Proof.
  intros Hm Hk w. unfold bind. specialize (Hm w).
  destruct (m w) as [[[a|e] w1] ev1]; cbn in *; [|assumption].
  specialize (Hk a w1). destruct (k a w1) as [[r w2] ev2]; cbn in *.
  apply Forall_app; now split.
Qed.

Lemma quiet_try (body : M A) (handler : exn -> option (M A)) :
  quiet body -> (forall e h, handler e = Some h -> quiet h) ->
  quiet (try_except body handler).
Proof.
  intros Hb Hh w. unfold try_except. specialize (Hb w).
  destruct (body w) as [[[a|e] w1] ev1]; cbn in *; [assumption|].
  destruct (handler e) as [h|] eqn:He; cbn; [|assumption].
  specialize (Hh e h He w1). destruct (h w1) as [[r w2] ev2]; cbn in *.
  apply Forall_app; now split.
Qed.

End Quiet.

Lemma quiet_get (E : env) (api_url : string) : quiet (Requests.get E api_url).
Proof. intros w; repeat constructor. Qed.

Create HintDb quiet.
#[local] Hint Resolve quiet_ret quiet_lift quiet_print quiet_get : quiet.

Ltac quiet_step :=
  match goal with
  | |- quiet (bind _ _) => apply quiet_bind; [|intros]
  | |- quiet (try_except _ _) => apply quiet_try; [|intros ? ? ?]
  | |- quiet (if ?b then _ else _) => destruct b
  | |- quiet (match ?x with _ => _ end) => destruct x
  | |- quiet _ => solve [auto with quiet]
  end.

Lemma quiet_fetch_player_status (E : env) (p : player) :
  quiet (fetch_player_status E p).
Proof.
  unfold fetch_player_status. apply quiet_try.
  - unfold fetch_match_status. repeat quiet_step.
  - intros e h. unfold fetch_handlers.
    destruct (is_RequestException (exn_cls e));
      [|destruct (is_JSONDecodeError (exn_cls e))];
      intros H; inversion H; subst; repeat quiet_step.
Qed.

Lemma quiet_compare (prev : pyval) (n s : string) (ch : list string) :
  quiet (compare_with_previous prev n s ch).
Proof.
  unfold compare_with_previous. repeat quiet_step.
  intros w; repeat constructor.
Qed.

Lemma quiet_for_players (E : env) (prev : pyval) (ps : list player) :
  forall cur ch, quiet (for_players E prev ps cur ch).
Proof.
  induction ps as [|p ps IH]; intros cur ch; cbn [for_players].
  - apply quiet_ret.
  - apply quiet_bind; [apply quiet_fetch_player_status|].
    intros [o f]. apply quiet_bind; [apply quiet_compare|]. intros; apply IH.
Qed.

Lemma quiet_load : quiet load_previous_results.
Proof.
  unfold load_previous_results. apply quiet_bind.
  - intros w; constructor.
  - intros found. destruct found; repeat quiet_step.
    + intros w. unfold json_load_file. destruct (file w); constructor.
    + destruct (is_JSONDecodeError (exn_cls e)); inversion H; subst.
      repeat quiet_step.
Qed.

Lemma quiet_save (E : env) (cur : list (string * string)) :
  quiet (save_current_results E cur).
Proof.
  unfold save_current_results. repeat quiet_step.
  - intros w. unfold json_dump_file.
    destruct (write_error E); repeat constructor.
  - destruct (is_IOError (exn_cls e)); inversion H; subst. repeat quiet_step.
Qed.

(* ================================================================== *)
(** * Computations that do not read the file *)

Section Blind.

Context {A B : Type}.

Lemma blind_ret (a : A) : blind (ret a).
Proof. intros w1 w2 Hs. cbn. repeat split; auto; apply Hs. Qed.

Lemma blind_lift (r : result A) : blind (lift r).
Proof. intros w1 w2 Hs. cbn. repeat split; auto; apply Hs. Qed.

Lemma blind_print (line : string) : blind (print line).
Proof. intros w1 w2 Hs. cbn. repeat split; auto; apply Hs. Qed.

Lemma blind_bind (m : M A) (k : A -> M B) :
  blind m -> (forall a, blind (k a)) -> blind (bind m k).
Proof.
  intros Hm Hk w1 w2 Hs. unfold bind.
  destruct (Hm w1 w2 Hs) as (Hr & Hev & Hs1 & Hf).
  destruct (m w1) as [[r1 w1'] ev1], (m w2) as [[r2 w2'] ev2]; cbn in *.
  subst r2 ev2. destruct r1 as [a|e]; cbn; [|repeat split; auto; apply Hs1].
  destruct (Hk a w1' w2' Hs1) as (Hr' & Hev' & Hs2 & Hf').
  destruct (k a w1') as [[r1' w1''] ev1'], (k a w2') as [[r2' w2''] ev2'];
    cbn in *.
  subst r2' ev2'. repeat split; try apply Hs2.
  destruct Hf' as [Hf' | [Ha Hb]]; [now left|].
  destruct Hf as [Hf | [Hc Hd]]; [left | right; split]; congruence.
Qed.

Lemma blind_try (body : M A) (handler : exn -> option (M A)) :
  blind body -> (forall e h, handler e = Some h -> blind h) ->
  blind (try_except body handler).
Proof.
  intros Hm Hk w1 w2 Hs. unfold try_except.
  destruct (Hm w1 w2 Hs) as (Hr & Hev & Hs1 & Hf).
  destruct (body w1) as [[r1 w1'] ev1], (body w2) as [[r2 w2'] ev2]; cbn in *.
  subst r2 ev2. destruct r1 as [a|e]; cbn; [repeat split; auto; apply Hs1|].
  destruct (handler e) as [h|] eqn:He; cbn; [|repeat split; auto; apply Hs1].
  destruct (Hk e h He w1' w2' Hs1) as (Hr' & Hev' & Hs2 & Hf').
  destruct (h w1') as [[r1' w1''] ev1'], (h w2') as [[r2' w2''] ev2'];
    cbn in *.
  subst r2' ev2'. repeat split; try apply Hs2.
  destruct Hf' as [Hf' | [Ha Hb]]; [now left|].
  destruct Hf as [Hf | [Hc Hd]]; [left | right; split]; congruence.
Qed.

End Blind.

Lemma blind_get (E : env) (api_url : string) : blind (Requests.get E api_url).
Proof.
  intros w1 w2 [Hg Hc]. unfold Requests.get, same_counters. cbn.
  rewrite Hg, Hc. repeat split; auto.
Qed.

Lemma blind_Client : blind Atproto.Client.
Proof.
  intros w1 w2 [Hg Hc]. unfold Atproto.Client, same_counters. cbn.
  rewrite Hg, Hc. repeat split; auto.
Qed.

Lemma blind_login (E : env) (c : nat) (i pw t : string) :
  blind (Atproto.login E c i pw t).
Proof.
  intros w1 w2 Hs. unfold Atproto.login. destruct (bsky E c t); cbn; repeat split; auto; apply Hs.
Qed.

Lemma blind_send_post (E : env) (c : nat) (t : string) :
  blind (Atproto.send_post E c t).
Proof.
  intros w1 w2 Hs. unfold Atproto.send_post. destruct (bsky E c t); cbn; repeat split; auto; apply Hs.
Qed.

Lemma blind_dump (E : env) (cur : list (string * string)) :
  blind (json_dump_file E cur).
Proof.
  intros w1 w2 [Hg Hc]. unfold json_dump_file, after_failed_write, same_counters.
  destruct (write_error E) as [e|]; cbn; [|repeat split; auto].
  destruct (write_leaves E); [destruct (is_IOError (exn_cls e))|];
    repeat split; auto.
Qed.

Create HintDb blind.
#[local] Hint Resolve blind_ret blind_lift blind_print blind_get blind_Client
  blind_login blind_send_post blind_dump : blind.

Ltac blind_step :=
  match goal with
  | |- blind (bind _ _) => apply blind_bind; [|intros]
  | |- blind (try_except _ _) => apply blind_try; [|intros ? ? ?]
  | |- blind (if ?b then _ else _) => destruct b
  | |- blind (match ?x with _ => _ end) => destruct x
  | |- blind _ => solve [auto with blind]
  end.

Lemma blind_fetch_player_status (E : env) (p : player) :
  blind (fetch_player_status E p).
Proof.
  unfold fetch_player_status. apply blind_try.
  - unfold fetch_match_status. repeat blind_step.
  - intros e h. unfold fetch_handlers.
    destruct (is_RequestException (exn_cls e));
      [|destruct (is_JSONDecodeError (exn_cls e))];
      intros H; inversion H; subst; repeat blind_step.
Qed.

Lemma blind_compare (prev : pyval) (n s : string) (ch : list string) :
  blind (compare_with_previous prev n s ch).
Proof.
  unfold compare_with_previous. repeat blind_step.
  intros w1 w2 Hs. cbn. repeat split; auto; apply Hs.
Qed.

Lemma blind_for_players (E : env) (prev : pyval) (ps : list player) :
  forall cur ch, blind (for_players E prev ps cur ch).
Proof.
  induction ps as [|p ps IH]; intros cur ch; cbn [for_players].
  - apply blind_ret.
  - apply blind_bind; [apply blind_fetch_player_status|].
    intros [o f]. apply blind_bind; [apply blind_compare|]. intros; apply IH.
Qed.

Lemma blind_save (E : env) (cur : list (string * string)) :
  blind (save_current_results E cur).
Proof.
  unfold save_current_results. repeat blind_step.
  destruct (is_IOError (exn_cls e)); inversion H; subst. repeat blind_step.
Qed.

Lemma blind_make_bluesky_post (E : env) (t : string) :
  blind (make_bluesky_post E t).
Proof.
  unfold make_bluesky_post. repeat blind_step.
  inversion H; subst. repeat blind_step.
Qed.

Lemma blind_post_each (E : env) (ts : list string) : blind (post_each E ts).
Proof.
  induction ts as [|t ts IH]; cbn [post_each]; [apply blind_ret|].
  repeat blind_step. apply blind_make_bluesky_post.
Qed.

Lemma blind_post_changes (E : env) (ts : list string) :
  blind (post_changes E ts).
Proof.
  unfold post_changes. destruct ts; repeat blind_step. apply blind_post_each.
Qed.

(* ================================================================== *)
(** * Dictionaries *)

Lemma dict_set_fresh {V : Type} (d : list (string * V)) (k : string) (v : V) :
  dict_get d k = None -> dict_set d k v = (d ++ [(k, v)])%list.
Proof.
  induction d as [|[k0 v0] d IH]; cbn; [reflexivity|].
  destruct (String.eqb k0 k); [discriminate|]. intros H. now rewrite IH.
Qed.

Lemma dict_get_not_in {V : Type} (d : list (string * V)) (k : string) :
  ~ In k (map fst d) -> dict_get d k = None.
Proof.
  induction d as [|[k0 v0] d IH]; cbn; [reflexivity|]. intros H.
  destruct (String.eqb_spec k0 k) as [->|Hne]; [tauto|]. apply IH. tauto.
Qed.

Lemma dict_get_in {V : Type} (d : list (string * V)) (k : string) (v : V) :
  NoDup (map fst d) -> In (k, v) d -> dict_get d k = Some v.
Proof.
  induction d as [|[k0 v0] d IH]; cbn; [contradiction|].
  intros Hnd [Heq | Hin].
  - inversion Heq; subst. now rewrite String.eqb_refl.
  - inversion Hnd as [|? ? Hk0 Hnd']; subst.
    destruct (String.eqb_spec k0 k) as [->|Hne]; [|now apply IH].
    exfalso. apply Hk0. change k with (fst (k, v)). now apply in_map.
Qed.

Lemma dict_set_keys {V : Type} (d : list (string * V)) (k k' : string) (v : V) :
  In k' (map fst (dict_set d k v)) <-> k' = k \/ In k' (map fst d).
Proof.
  induction d as [|[k0 v0] d IH]; cbn; [intuition congruence|].
  destruct (String.eqb_spec k0 k) as [->|Hne]; cbn; [intuition congruence|].
  rewrite IH. intuition congruence.
Qed.

Lemma store_all_keys (named cur : list (string * string)) (k : string) :
  In k (map fst (store_all cur named))
  <-> In k (map fst cur) \/ In k (map fst named).
Proof.
  revert cur. induction named as [|[n s] named IH]; intros cur; cbn.
  - tauto.
  - unfold store_all in *. cbn. rewrite IH, dict_set_keys. intuition congruence.
Qed.

(** With distinct names the loop stores the statuses in the order of the
    players. *)
Lemma store_all_distinct (named cur : list (string * string)) :
  NoDup (map fst (cur ++ named)) -> store_all cur named = (cur ++ named)%list.
Proof.
  revert cur. induction named as [|[n s] named IH]; intros cur Hnd; cbn.
  - now rewrite app_nil_r.
  - unfold store_all in *. cbn. rewrite dict_set_fresh.
    + rewrite IH; rewrite <- app_assoc; [reflexivity | exact Hnd].
    + apply dict_get_not_in. rewrite map_app in Hnd. cbn in Hnd.
      apply NoDup_remove_2 in Hnd. intros Hin. apply Hnd.
      apply in_or_app. now left.
Qed.

Lemma dict_get_to_py (d : list (string * string)) (k : string) :
  dict_get (map (fun kv => (fst kv, PyStr (snd kv))) d) k
  = option_map PyStr (dict_get d k).
Proof.
  induction d as [|[k0 v0] d IH]; cbn; [reflexivity|].
  destruct (String.eqb k0 k); [reflexivity | exact IH].
Qed.

Lemma prior_is_spec (prev : list (string * pyval)) (n s : string) :
  prior_is prev n s = true <-> dict_get prev n = Some (PyStr s).
Proof.
  unfold prior_is. destruct (dict_get prev n) as [[| | | |s'| |]|];
    try (split; [discriminate | intros H; inversion H]).
  - destruct (String.eqb_spec s' s) as [->|Hne]; split; try reflexivity;
      try discriminate. intros H; inversion H; contradiction.
Qed.

(** Nothing is reported against a mapping that already holds every
    status, when the names are distinct. *)
Lemma reported_against_itself (cur : list (string * string)) :
  NoDup (map fst cur) ->
  reported (map (fun kv => (fst kv, PyStr (snd kv))) cur) cur = [].
Proof.
  intros Hnd. unfold reported.
  assert (H : forall l, incl l cur ->
            filter (fun ns => negb (prior_is
                      (map (fun kv => (fst kv, PyStr (snd kv))) cur)
                      (fst ns) (snd ns))) l = []).
  { induction l as [|[n s] l IH]; intros Hl; cbn; [reflexivity|].
    assert (Hp : prior_is (map (fun kv => (fst kv, PyStr (snd kv))) cur) n s
                 = true).
    { apply prior_is_spec. rewrite dict_get_to_py.
      rewrite (dict_get_in cur n s Hnd); [reflexivity|]. apply Hl. now left. }
    rewrite Hp. cbn. apply IH. intros x Hx. apply Hl. now right. }
  rewrite (H cur (incl_refl cur)). reflexivity.
Qed.

(* ================================================================== *)
(** * The steps of a run *)

(** Step 1 leaves the world as it is.  It returns and prints one line,
    unless the read raises an exception that is not a
    [json.JSONDecodeError]: that one leaves the step, and nothing is
    printed. *)
Lemma load_previous_results_eq (w : world) :
  load_previous_results w
  = match load_raises (file w) with
    | Some e => (Raise e, w, [])
    | None => (Return (loaded (file w)), w, [Print (load_line (file w))])
    end.
Proof.
  destruct w as [[|msg|v|[c m]] g cl]; try reflexivity.
  unfold load_previous_results, load_raises, try_except, bind, json_load_file,
    os_path_exists, print, ret. cbn.
  destruct (is_JSONDecodeError c); reflexivity.
Qed.

Lemma load_previous_results_returns (w w0 : world) (prev : pyval)
    (ev0 : list event) :
  load_previous_results w = (Return prev, w0, ev0) ->
  load_raises (file w) = None /\ prev = loaded (file w) /\ w0 = w
  /\ ev0 = [Print (load_line (file w))].
Proof.
  rewrite load_previous_results_eq.
  destruct (load_raises (file w)); intros H; inversion H; auto.
Qed.

(** Step 3 leaves the world as it is. *)
Lemma compare_world (prev : pyval) (n s : string) (ch : list string)
    (w w' : world) (r : result (list string)) (ev : list event) :
  compare_with_previous prev n s ch w = (r, w', ev) -> w' = w.
Proof.
  unfold compare_with_previous, bind, lift, print, ret.
  destruct (get_method prev n) as [v|e]; [|intros H; now inversion H].
  destruct (is_None v); [|destruct (ne_str v s)]; intros H; now inversion H.
Qed.

(** Step 3 against a mapping: the status is appended unless the mapping
    has that very string for the player. *)
Lemma compare_with_mapping (d : list (string * pyval)) (n s : string)
    (ch : list string) (w : world) :
  exists e,
    compare_with_previous (PyDict d) n s ch w
    = (Return (ch ++ (if prior_is d n s then [] else [s]))%list, w, [e]).
Proof.
  unfold compare_with_previous, bind, lift, print, ret, prior_is.
  cbn [get_method].
  destruct (dict_get d n) as [[| | | |s'| |]|]; cbn; try (eexists; reflexivity).
  destruct (String.eqb s' s); cbn; [rewrite app_nil_r|]; eexists; reflexivity.
Qed.

Lemma fetches_length (E : env) (w w' : world) (ps : list player)
    (sts : list string) :
  fetches E w ps sts w' -> List.length sts = List.length ps.
Proof. induction 1; cbn; congruence. Qed.

(** The loop, when it returns: every fetch returned, the statuses are
    stored under the names, and those a mapping does not already have
    are appended to [changed_posts] in order. *)
Lemma for_players_returns (E : env) (prev : pyval) (ps : list player) :
  forall cur ch w cur' ch' w' ev,
    for_players E prev ps cur ch w = (Return (cur', ch'), w', ev) ->
    exists sts,
      fetches E w ps sts w'
      /\ cur' = store_all cur (combine (map name ps) sts)
      /\ (forall d, prev = PyDict d ->
            ch' = (ch ++ reported d (combine (map name ps) sts))%list).
Proof.
  induction ps as [|p ps IH]; intros cur ch w cur' ch' w' ev H.
  - cbn in H. inversion H; subst. exists []. repeat split.
    + constructor.
    + intros d _. cbn. now rewrite app_nil_r.
  - cbn [for_players] in H.
    apply bind_inv in H as ([o f] & w1 & ev1 & ev2 & Hfetch & H & ->).
    apply bind_inv in H as (ch1 & w2 & ev3 & ev4 & Hcmp & H & ->).
    pose proof (compare_world _ _ _ _ _ _ _ _ Hcmp) as ->.
    apply IH in H as (sts & Hf & Hcur & Hch).
    exists (status_message_of (name p) o f :: sts). repeat split.
    + econstructor; eassumption.
    + exact Hcur.
    + intros d ->. rewrite (Hch d eq_refl).
      destruct (compare_with_mapping d (name p) (status_message_of (name p) o f)
                  ch w1) as [e He].
      rewrite He in Hcmp. inversion Hcmp; subst. unfold reported. cbn.
      destruct (prior_is d (name p) (status_message_of (name p) o f)); cbn;
        now rewrite <- app_assoc.
Qed.

(** Step 4: the write is attempted first; it succeeds when nothing is
    raised, and then the file holds the current results and nothing
    else. *)
Lemma save_current_results_eq (E : env) (cur : list (string * string))
    (w : world) :
  exists r w' ev,
    save_current_results E cur w
    = (r, w', FileWrite (dict_to_py cur) (write_error E) :: ev)
    /\ same_counters w' w
    /\ Forall (fun e => is_post_event e = false) ev
    /\ (write_error E = None ->
        r = Return tt /\ file w' = JSONFile (dict_to_py cur))
    /\ (forall e, write_error E = Some e ->
        file w' = after_failed_write E e (file w)).
Proof.
  unfold save_current_results, try_except, bind, json_dump_file, print.
  destruct (write_error E) as [e|]; cbn.
  - destruct (is_IOError (exn_cls e)); cbn; do 3 eexists;
      (split; [reflexivity|]); repeat split; auto; try discriminate;
      try (intros e' He'; now inversion He'); repeat constructor.
  - do 3 eexists; (split; [reflexivity|]); repeat split; auto;
      try congruence; repeat constructor.
Qed.

(** A run that returns went through the five steps; the events are
    theirs, in order. *)
Lemma check_returns_inv (E : env) (ps : list player) (w w' : world)
    (ev : list event) :
  check_player_statuses_and_post_changes E ps w = (Return tt, w', ev) ->
  exists cur ch w1 ev1 w2 ev2 ev3,
    for_players E (loaded (file w)) ps [] [] w = (Return (cur, ch), w1, ev1)
    /\ save_current_results E cur w1 = (Return tt, w2, ev2)
    /\ post_changes E ch w2 = (Return tt, w', ev3)
    /\ ev = (Print (load_line (file w)) :: ev1 ++ ev2 ++ ev3)%list.
Proof.
  unfold check_player_statuses_and_post_changes. intros H.
  apply bind_inv in H as (prev & w0 & ev0 & evr & Hload & H & ->).
  apply load_previous_results_returns in Hload as (_ & -> & -> & ->).
  apply bind_inv in H as ([cur ch] & w1 & ev1 & evr1 & Hloop & H & ->).
  apply bind_inv in H as ([] & w2 & ev2 & ev3 & Hsave & Hpost & ->).
  now exists cur, ch, w1, ev1, w2, ev2, ev3.
Qed.

(* ================================================================== *)
(** * Posting *)

(** Without both credentials [make_bluesky_post] prints two lines and
    does nothing else. *)
Lemma make_bluesky_post_skips (E : env) (t : string) (w : world) :
  not_set (BLUESKY_IDENTIFIER E) || not_set (BLUESKY_APP_PASSWORD E) = true ->
  make_bluesky_post E t w
  = (Return None, w,
     [Print "Bluesky credentials not configured. Skipping post.";
      Print "Please set BLUESKY_IDENTIFIER and BLUESKY_APP_PASSWORD in the script."]).
Proof. intros H. unfold make_bluesky_post. rewrite H. reflexivity. Qed.

(** With both it makes a client, logs in once and returns whatever the
    API does; a failure leaves its line in the log. *)
Lemma make_bluesky_post_attempts (E : env) (t : string) (w : world) :
  not_set (BLUESKY_IDENTIFIER E) || not_set (BLUESKY_APP_PASSWORD E) = false ->
  exists r ev,
    make_bluesky_post E t w
    = (Return r, mkWorld (file w) (gets w) (S (clients w)),
       Login (env_value (BLUESKY_IDENTIFIER E))
             (env_value (BLUESKY_APP_PASSWORD E)) :: ev)
    /\ logins ev = 0%nat
    /\ (forall e, bsky E (clients w) t = LoginFails e
                  \/ bsky E (clients w) t = SendFails e ->
                  In (post_error_line e) ev)
    /\ (forall uri cid, bsky E (clients w) t = Posted uri cid ->
                        In (SendPost t) ev /\ r = Some (uri, cid)).
Proof.
  intros H. unfold make_bluesky_post. rewrite H.
  unfold bind, try_except, Atproto.Client, Atproto.login, Atproto.send_post,
    print, ret, post_error_line.
  cbn. destruct (bsky E (clients w) t) as [e|e|uri cid]; cbn;
    do 2 eexists; (split; [reflexivity|]); (split; [reflexivity|]);
    (split;
     [ intros e' [He | He]; try discriminate He; inversion He; subst; cbn; tauto
     | intros u c He; try discriminate He; inversion He; subst; cbn; tauto ]).
Qed.

(** The posting loop always returns, and touches neither the file nor
    the count of requests. *)
Lemma post_each_returns (E : env) (ts : list string) :
  forall w, exists w' ev,
    post_each E ts w = (Return tt, w', ev)
    /\ file w' = file w /\ gets w' = gets w.
Proof.
  induction ts as [|t ts IH]; intros w; cbn [post_each].
  - now exists w, [].
  - unfold bind at 1. cbn [print].
    destruct (not_set (BLUESKY_IDENTIFIER E) || not_set (BLUESKY_APP_PASSWORD E))
      eqn:Hc.
    + unfold bind at 1. rewrite (make_bluesky_post_skips E t w Hc).
      destruct (IH w) as (w' & ev & -> & Hf & Hg). now do 2 eexists.
    + unfold bind at 1.
      destruct (make_bluesky_post_attempts E t w Hc) as (r & ev & -> & _).
      destruct (IH (mkWorld (file w) (gets w) (S (clients w))))
        as (w' & ev' & -> & Hf & Hg).
      now do 2 eexists.
Qed.

Lemma post_changes_returns (E : env) (ts : list string) (w : world) :
  exists w' ev,
    post_changes E ts w = (Return tt, w', ev)
    /\ file w' = file w /\ gets w' = gets w.
Proof.
  unfold post_changes. destruct ts as [|t ts].
  - now exists w, [Print (newline ++ "No status changes detected. No new posts to Bluesky.")].
  - unfold bind, print.
    destruct (post_each_returns E (t :: ts) w) as (w' & ev & -> & Hf & Hg).
    now do 2 eexists.
Qed.

(** A run that returns with a writable file leaves the current results
    in the file. *)
Lemma check_persists (E : env) (ps : list player) (w w' w1 : world)
    (ev ev1 : list event) (cur : list (string * string)) (ch : list string) :
  write_error E = None ->
  check_player_statuses_and_post_changes E ps w = (Return tt, w', ev) ->
  for_players E (loaded (file w)) ps [] [] w = (Return (cur, ch), w1, ev1) ->
  file w' = JSONFile (dict_to_py cur).
Proof.
  intros Hw Hrun Hloop.
  apply check_returns_inv in Hrun
    as (cur' & ch' & w1' & ev1' & w2 & ev2 & ev3 & Hloop' & Hsave & Hpost & _).
  rewrite Hloop in Hloop'. inversion Hloop'; subst.
  destruct (save_current_results_eq E cur' w1')
    as (r & w2' & ev' & Heq & _ & _ & Hok & _).
  rewrite Hsave in Heq. inversion Heq; subst.
  destruct (post_changes_returns E ch' w2') as (w3 & ev3' & Hp & Hf & _).
  rewrite Hpost in Hp. inversion Hp; subst. rewrite Hf. now apply Hok.
Qed.

(* ================================================================== *)
(** * Change detection *)

(** C4: when the loop returns against a stored mapping, [changed_posts]
    holds, in the order of the players, the status of every player for
    whom the mapping does not have that very string; this is so for a
    player without an entry and for a player whose entry is anything
    else, and is not so for a player whose entry is the same string.
    Equal texts of different players are all kept. *)
Theorem C4_changed_posts_are_the_new_and_changed (E : env)
    (prev : list (string * pyval)) (ps : list player) (w w' : world)
    (cur : list (string * string)) (ch : list string) (ev : list event) :
  for_players E (PyDict prev) ps [] [] w = (Return (cur, ch), w', ev) ->
  exists sts,
    fetches E w ps sts w'
    /\ ch = map snd
              (filter (fun ns => negb (prior_is prev (fst ns) (snd ns)))
                      (combine (map name ps) sts))
    /\ forall n s,
         (dict_get prev n = None -> prior_is prev n s = false)
         /\ (forall v, dict_get prev n = Some v -> v <> PyStr s ->
                       prior_is prev n s = false)
         /\ (dict_get prev n = Some (PyStr s) -> prior_is prev n s = true).
Proof.
  intros H. apply for_players_returns in H as (sts & Hf & _ & Hch).
  exists sts. split; [exact Hf|]. split; [exact (Hch prev eq_refl)|].
  intros n s. repeat split.
  - intros Hn. unfold prior_is. now rewrite Hn.
  - intros v Hv Hne. destruct (prior_is prev n s) eqn:Hp; [|reflexivity].
    apply prior_is_spec in Hp. congruence.
  - apply prior_is_spec.
Qed.

Lemma C4_witness :
  let prev := [("Carpincho", PyStr "Carpincho has no recent matches")] in
  let ps := [Sample.carpincho; Sample.nanox] in
  exists sts,
    fetches Sample.no_matches Sample.first_run ps sts (mkWorld NoFile 2 0)
    /\ ["Nanox has no recent matches"]
       = map snd
           (filter (fun ns => negb (prior_is prev (fst ns) (snd ns)))
                   (combine (map name ps) sts))
    /\ forall n s,
         (dict_get prev n = None -> prior_is prev n s = false)
         /\ (forall v, dict_get prev n = Some v -> v <> PyStr s ->
                       prior_is prev n s = false)
         /\ (dict_get prev n = Some (PyStr s) -> prior_is prev n s = true).
Proof.
  intros prev ps.
  apply (C4_changed_posts_are_the_new_and_changed Sample.no_matches prev ps
           Sample.first_run (mkWorld NoFile 2 0)
           [("Carpincho", "Carpincho has no recent matches");
            ("Nanox", "Nanox has no recent matches")]
           ["Nanox has no recent matches"]
           [HttpGet "https://example/1";
            Print "No recent matches found for player: Carpincho";
            Print "NO CHANGE: Carpincho has no recent matches";
            HttpGet "https://example/2";
            Print "No recent matches found for player: Nanox";
            Print "NEW PLAYER STATUS: Nanox has no recent matches"]).
  vm_compute. reflexivity.
Defined.

(* ================================================================== *)
(** * Two runs in a row *)

Lemma combine_names_keys (ps : list player) (sts : list string) :
  List.length sts = List.length ps ->
  map fst (combine (map name ps) sts) = map name ps.
Proof.
  revert sts. induction ps as [|p ps IH]; intros [|s sts] Hl; cbn in *;
    try discriminate; [reflexivity|].
  f_equal. apply IH. congruence.
Qed.

(** C5, as amended: the players have distinct names.  Run N returns and
    its write succeeds; run N+1 loads what run N left in the file and
    its loop stores the same status for every player: then run N+1 has
    nothing to post. *)
Theorem C5_second_run_reports_nothing (E1 E2 : env) (ps : list player)
    (w0 w0' w1 w1' w2 : world) (ev1 ev0 evl ev2 : list event)
    (cur1 cur2 : list (string * string)) (ch1 ch2 : list string)
    (prev2 : pyval) :
  NoDup (map name ps) ->
  write_error E1 = None ->
  check_player_statuses_and_post_changes E1 ps w0 = (Return tt, w1, ev1) ->
  for_players E1 (loaded (file w0)) ps [] [] w0 = (Return (cur1, ch1), w0', ev0) ->
  load_previous_results w1 = (Return prev2, w1', evl) ->
  for_players E2 prev2 ps [] [] w1' = (Return (cur2, ch2), w2, ev2) ->
  cur2 = cur1 ->
  ch2 = [].
Proof.
  intros Hnd Hw Hrun Hloop1 Hload Hloop2 ->.
  pose proof (check_persists _ _ _ _ _ _ _ _ _ Hw Hrun Hloop1) as Hfile.
  apply load_previous_results_returns in Hload as (_ & -> & -> & ->).
  rewrite Hfile in Hloop2. cbn [loaded dict_to_py] in Hloop2.
  apply for_players_returns in Hloop2 as (sts & Hf & Hcur & Hch).
  rewrite (Hch _ eq_refl). cbn [app].
  pose proof (combine_names_keys ps sts (fetches_length _ _ _ _ _ Hf)) as Hk.
  assert (Hsame : cur1 = combine (map name ps) sts).
  { rewrite Hcur. rewrite store_all_distinct; [reflexivity|].
    cbn [app]. now rewrite Hk. }
  rewrite <- Hsame. apply reported_against_itself.
  rewrite Hsame, Hk. exact Hnd.
Qed.

Lemma C5_witness :
  let ps := [Sample.carpincho; Sample.nanox] in
  let cur := [("Carpincho", "Carpincho has no recent matches");
              ("Nanox", "Nanox has no recent matches")] in
  let run1 := check_player_statuses_and_post_changes Sample.no_matches ps
                Sample.first_run in
  let loop2 := for_players Sample.no_matches (dict_to_py cur) ps [] []
                 (mkWorld (JSONFile (dict_to_py cur)) 2 2) in
  fst run1 = (Return tt, mkWorld (JSONFile (dict_to_py cur)) 2 2)
  /\ NoDup (map name ps)
  /\ exists ch2, fst (fst loop2) = Return (cur, ch2) /\ ch2 = [].
Proof.
  intros ps cur run1 loop2.
  assert (Hnd : NoDup (map name ps))
    by (repeat constructor; cbn; intuition discriminate).
  split; [vm_compute; reflexivity|]. split; [exact Hnd|].
  exists []. split; [vm_compute; reflexivity|].
  apply (C5_second_run_reports_nothing Sample.no_matches Sample.no_matches
           ps Sample.first_run (mkWorld NoFile 2 0)
           (snd (fst run1)) (snd (fst run1)) (snd (fst loop2))
           (snd run1)
           (snd (for_players Sample.no_matches
                   (loaded (file Sample.first_run)) ps [] []
                   Sample.first_run))
           [Print "Loaded previous statuses from mostrecentmatch.json"]
           (snd loop2) cur cur
           ["Carpincho has no recent matches"; "Nanox has no recent matches"]
           [] (dict_to_py cur) Hnd).
  - reflexivity.
  - vm_compute. reflexivity.
  - vm_compute. reflexivity.
  - vm_compute. reflexivity.
  - vm_compute. reflexivity.
  - reflexivity.
Defined.

(** C5 as stated, for every player list, fails when two entries of the
    list have one name: the file keeps the status of the second entry,
    and the next run, with the same answers and the same stored mapping,
    reports the first entry again. *)
Lemma C5_counterexample :
  exists (w0' w1 w1' w2 : world) (ev1 ev0 evl ev2 : list event)
         (cur1 cur2 : list (string * string)) (ch1 ch2 : list string)
         (prev2 : pyval),
    write_error Sample.by_url = None
    /\ check_player_statuses_and_post_changes Sample.by_url
         Sample.same_name_twice Sample.first_run = (Return tt, w1, ev1)
    /\ for_players Sample.by_url (loaded (file Sample.first_run))
         Sample.same_name_twice [] [] Sample.first_run
       = (Return (cur1, ch1), w0', ev0)
    /\ load_previous_results w1 = (Return prev2, w1', evl)
    /\ for_players Sample.by_url prev2 Sample.same_name_twice [] [] w1'
       = (Return (cur2, ch2), w2, ev2)
    /\ cur2 = cur1
    /\ ch2 = ["A has no recent matches"]
    /\ ch2 <> [].
Proof.
  do 13 eexists. split; [reflexivity|].
  split; [vm_compute; reflexivity|].
  split; [vm_compute; reflexivity|].
  split; [vm_compute; reflexivity|].
  split; [vm_compute; reflexivity|].
  split; [reflexivity|]. split; [reflexivity | discriminate].
Qed.

(* ================================================================== *)
(** * The order of the steps *)

(** A run is step 1 and then the other four, unless step 1 raises. *)
Lemma check_eq (E : env) (ps : list player) (w : world) :
  check_player_statuses_and_post_changes E ps w
  = match load_raises (file w) with
    | Some e => (Raise e, w, [])
    | None =>
        let '(r, w', ev) := after_load E ps (loaded (file w)) w in
        (r, w', Print (load_line (file w)) :: ev)
    end.
Proof.
  unfold check_player_statuses_and_post_changes.
  pose proof (load_previous_results_eq w) as Hl.
  destruct (load_raises (file w)) as [e|].
  - unfold bind at 1. now rewrite Hl.
  - rewrite (bind_return _ _ _ _ _ _ Hl). reflexivity.
Qed.

(** Steps 2 to 5 by cases: the loop raises; the loop returns and the
    write raises something that is not an [IOError]; or the write step
    returns and the posting step ends the run. *)
Lemma after_load_eq (E : env) (ps : list player) (prev : pyval) (w : world) :
  after_load E ps prev w
  = match for_players E prev ps [] [] w with
    | (Raise e, w1, ev1) => (Raise e, w1, ev1)
    | (Return (cur, ch), w1, ev1) =>
        match save_current_results E cur w1 with
        | (Raise e, w2, ev2) => (Raise e, w2, (ev1 ++ ev2)%list)
        | (Return _, w2, ev2) =>
            let '(r, w3, ev3) := post_changes E ch w2 in
            (r, w3, (ev1 ++ ev2 ++ ev3)%list)
        end
    end.
Proof.
  unfold after_load, bind.
  destruct (for_players E prev ps [] [] w) as [[[[cur ch]|e] w1] ev1];
    [|reflexivity].
  destruct (save_current_results E cur w1) as [[[u|e] w2] ev2]; [|reflexivity].
  destruct (post_changes E ch w2) as [[r w3] ev3]. reflexivity.
Qed.

Lemma blind_after_load (E : env) (ps : list player) (prev : pyval) :
  blind (after_load E ps prev).
Proof.
  unfold after_load. apply blind_bind; [apply blind_for_players|].
  intros [cur ch]. apply blind_bind; [apply blind_save|].
  intros _. apply blind_post_changes.
Qed.

(** Events that come before a call to the posting API include every
    event of a prefix without such calls. *)
Lemma before_first_post (quiet_part rest pre post : list event) (e : event) :
  Forall (fun x => is_post_event x = false) quiet_part ->
  (quiet_part ++ rest)%list = (pre ++ e :: post)%list ->
  is_post_event e = true ->
  exists pre', pre = (quiet_part ++ pre')%list.
Proof.
  intros Hq. revert pre. induction Hq as [|q qs Hq1 Hq IH]; intros pre Heq He.
  - now exists pre.
  - destruct pre as [|x pre]; cbn in Heq; inversion Heq; subst.
    + congruence.
    + destruct (IH pre H1 He) as [pre' ->]. now exists pre'.
Qed.

Lemma not_in_quiet (evs : list event) (pre post : list event) (e : event) :
  Forall (fun x => is_post_event x = false) evs ->
  evs = (pre ++ e :: post)%list -> is_post_event e = true -> False.
Proof.
  intros Hq -> He. apply Forall_app in Hq as [_ Hq]. inversion Hq; congruence.
Qed.

(** Steps 2 to 4 do not depend on the credentials nor on the posting
    API. *)
Lemma for_players_same (E E' : env) (prev : pyval) (ps : list player)
    (cur : list (string * string)) (ch : list string) :
  same_but_posting E E' ->
  for_players E prev ps cur ch = for_players E' prev ps cur ch.
Proof.
  destruct E, E'. unfold same_but_posting. cbn. intros (-> & -> & -> & ->).
  reflexivity.
Qed.

Lemma save_same (E E' : env) (cur : list (string * string)) :
  same_but_posting E E' ->
  save_current_results E cur = save_current_results E' cur.
Proof.
  destruct E, E'. unfold same_but_posting. cbn. intros (-> & -> & -> & ->).
  reflexivity.
Qed.

Lemma for_players_keys (E : env) (prev : pyval) (ps : list player)
    (w w' : world) (cur : list (string * string)) (ch : list string)
    (ev : list event) :
  for_players E prev ps [] [] w = (Return (cur, ch), w', ev) ->
  forall k, In k (map fst cur) <-> In k (map name ps).
Proof.
  intros H k. apply for_players_returns in H as (sts & Hf & -> & _).
  rewrite store_all_keys, (combine_names_keys _ _ (fetches_length _ _ _ _ _ Hf)).
  cbn. tauto.
Qed.

(* ================================================================== *)
(** * A missing or corrupt state file *)

(** X15: with no file, and with a file whose text the decoder rejects
    with a [json.JSONDecodeError], step 1 returns the empty mapping and
    raises nothing; the run on the rejected text then ends as the run
    without a file does, with the same events after the first line; and
    when it returns it has attempted the write of the results its loop
    built, which are in the file if the write succeeded. *)
Theorem X15_rejected_text_is_read_as_no_file (E : env) (ps : list player)
    (g c : nat) (msg : string) :
  let absent := mkWorld NoFile g c in
  let corrupt := mkWorld (NotJSON msg) g c in
  load_previous_results absent
  = (Return (PyDict []), absent, [Print (load_line NoFile)])
  /\ load_previous_results corrupt
     = (Return (PyDict []), corrupt, [Print (load_line (NotJSON msg))])
  /\ exists r wa wc evs,
       check_player_statuses_and_post_changes E ps absent
       = (r, wa, Print (load_line NoFile) :: evs)
       /\ check_player_statuses_and_post_changes E ps corrupt
          = (r, wc, Print (load_line (NotJSON msg)) :: evs)
       /\ same_counters wa wc
       /\ (r = Return tt ->
           exists cur ch w1 ev1,
             for_players E (PyDict []) ps [] [] corrupt
             = (Return (cur, ch), w1, ev1)
             /\ In (FileWrite (dict_to_py cur) (write_error E)) evs
             /\ (write_error E = None ->
                 file wc = JSONFile (dict_to_py cur) /\ file wa = file wc)).
Proof.
  intros absent corrupt.
  split; [reflexivity|]. split; [reflexivity|].
  assert (Hs : same_counters absent corrupt) by (split; reflexivity).
  destruct (blind_after_load E ps (PyDict []) absent corrupt Hs)
    as (Hr & Hev & Hs' & Hf).
  pose proof (check_eq E ps absent) as Ha.
  pose proof (check_eq E ps corrupt) as Hc.
  cbn [file absent corrupt loaded load_raises] in Ha, Hc.
  destruct (after_load E ps (PyDict []) absent) as [[ra wa] eva] eqn:Hra.
  destruct (after_load E ps (PyDict []) corrupt) as [[rc wc] evc] eqn:Hrc.
  cbn in Hr, Hev, Hs', Hf. subst rc evc.
  exists ra, wa, wc, eva. repeat split; try assumption; try apply Hs'.
  intros ->.
  destruct (check_returns_inv _ _ _ _ _ Hc)
    as (cur & ch & w1 & ev1 & w2 & ev2 & ev3 & Hloop & Hsave & _ & Hevs).
  destruct (check_returns_inv _ _ _ _ _ Ha)
    as (cur' & ch' & w1' & ev1' & _ & _ & _ & Hloop' & _).
  exists cur, ch, w1, ev1. split; [exact Hloop|]. split.
  - destruct (save_current_results_eq E cur w1) as (r' & w2' & ev' & Heq & _).
    rewrite Hsave in Heq. inversion Heq; subst. inversion Hevs; subst.
    apply in_or_app. right. now left.
  - intros Hw.
    pose proof (check_persists _ _ _ _ _ _ _ _ _ Hw Hc Hloop) as Hfc.
    pose proof (check_persists _ _ _ _ _ _ _ _ _ Hw Ha Hloop') as Hfa.
    split; [exact Hfc|].
    destruct Hf as [Hf | [Hf1 Hf2]]; [exact Hf|].
    cbn in Hf2. rewrite Hfc in Hf2. discriminate.
Qed.

(** C7, at a state file that is there and cannot be read: its bytes are
    not text in the encoding of [open], or its brackets are nested
    deeper than the recursion limit.  The exception [json.load] raises
    is then not a [json.JSONDecodeError], the clause of line 55 does not
    take it, and it leaves the run from line 53: no line is printed, no
    request is made, the file is not rewritten and nothing is posted. *)
Theorem C7_unreadable_state_file_ends_the_run (E : env) (ps : list player)
    (g c : nat) (e : exn) :
  is_JSONDecodeError (exn_cls e) = false ->
  let bad := mkWorld (Unreadable e) g c in
  load_previous_results bad = (Raise e, bad, [])
  /\ check_player_statuses_and_post_changes E ps bad = (Raise e, bad, []).
Proof.
  intros He bad. subst bad.
  rewrite check_eq, load_previous_results_eq. cbn [file load_raises].
  rewrite He. split; reflexivity.
Qed.

(* ================================================================== *)
(** * The posting step *)

Lemma logins_app (a b : list event) :
  logins (a ++ b) = (logins a + logins b)%nat.
Proof. unfold logins. now rewrite filter_app, length_app. Qed.

(** Without both credentials the posting loop only prints. *)
Lemma quiet_post_changes_without_credentials (E : env) (ts : list string) :
  not_set (BLUESKY_IDENTIFIER E) || not_set (BLUESKY_APP_PASSWORD E) = true ->
  quiet (post_changes E ts).
Proof.
  intros Hc.
  assert (Hm : forall t, quiet (make_bluesky_post E t)).
  { intros t w. rewrite (make_bluesky_post_skips E t w Hc). repeat constructor. }
  assert (He : forall l, quiet (post_each E l)).
  { induction l as [|t l IH]; cbn [post_each]; [apply quiet_ret|].
    apply quiet_bind; [apply quiet_print|]. intros _.
    apply quiet_bind; [apply Hm|]. intros _. exact IH. }
  unfold post_changes. destruct ts; [apply quiet_print|].
  apply quiet_bind; [apply quiet_print | intros _; apply He].
Qed.

(** With both credentials the posting loop logs in once per message,
    announces every message, and leaves a line for every failure. *)
Lemma post_each_attempts_all (E : env) (ts : list string) :
  not_set (BLUESKY_IDENTIFIER E) || not_set (BLUESKY_APP_PASSWORD E) = false ->
  forall w, exists w' evs,
    post_each E ts w = (Return tt, w', evs)
    /\ logins evs = List.length ts
    /\ (forall t, In t ts -> In (attempt_line t) evs)
    /\ (forall i t e, nth_error ts i = Some t ->
          bsky E (clients w + i) t = LoginFails e
          \/ bsky E (clients w + i) t = SendFails e ->
          In (post_error_line e) evs).
Proof.
  intros Hc. induction ts as [|t ts IH]; intros w; cbn [post_each].
  - exists w, []. repeat split; try contradiction.
    intros [|i] ? ? Hn; discriminate Hn.
  - destruct (make_bluesky_post_attempts E t w Hc)
      as (r & ev & Hpost & Hl & Hfail & _).
    destruct (IH (mkWorld (file w) (gets w) (S (clients w))))
      as (w' & evs & Hrest & Hl' & Hatt & Hfail').
    unfold bind, print. rewrite Hpost, Hrest.
    do 2 eexists. split; [reflexivity|]. repeat split.
    + cbn [app]. change (Print ?x :: Login ?a ?b :: ?l)%list
        with ([Print x; Login a b] ++ l)%list.
      rewrite logins_app, logins_app, Hl, Hl'. reflexivity.
    + cbn [app]. intros t' [<- | Hin]; [now left|].
      right. right. apply in_or_app. right. now apply Hatt.
    + cbn [app]. intros [|i] t' e Hn Hb; cbn in Hn.
      * inversion Hn; subst. rewrite Nat.add_0_r in Hb.
        right. right. apply in_or_app. left. now apply Hfail.
      * right. right. apply in_or_app. right. apply (Hfail' i t' e Hn).
        cbn [clients]. now rewrite Nat.add_succ_comm.
Qed.

(** C9: without both credentials a run makes no call to the posting
    API, and the results its loop built, from what step 1 returned, are
    written all the same; with both, the posting step returns after one
    login per message of [changed_posts], every message announced, and a
    line in the log for every message whose login or post failed. *)
Theorem C9_credentials_and_posting_failures (E : env) :
  (not_set (BLUESKY_IDENTIFIER E) || not_set (BLUESKY_APP_PASSWORD E) = true ->
   forall ps w,
     let run := check_player_statuses_and_post_changes E ps w in
     Forall (fun e => is_post_event e = false) (snd run)
     /\ forall prev w0 ev0 cur ch w1 ev1,
          load_previous_results w = (Return prev, w0, ev0) ->
          for_players E prev ps [] [] w0 = (Return (cur, ch), w1, ev1) ->
          In (FileWrite (dict_to_py cur) (write_error E)) (snd run)
          /\ (write_error E = None ->
              fst (fst run) = Return tt
              /\ file (snd (fst run)) = JSONFile (dict_to_py cur)))
  /\ (not_set (BLUESKY_IDENTIFIER E) || not_set (BLUESKY_APP_PASSWORD E) = false ->
      forall ch w, exists w' evs,
        post_changes E ch w = (Return tt, w', evs)
        /\ logins evs = List.length ch
        /\ (forall t, In t ch -> In (attempt_line t) evs)
        /\ (forall i t e, nth_error ch i = Some t ->
              bsky E (clients w + i) t = LoginFails e
              \/ bsky E (clients w + i) t = SendFails e ->
              In (post_error_line e) evs)).
Proof.
  split.
  - intros Hc ps w run. subst run. split.
    + rewrite check_eq. destruct (load_raises (file w)); [constructor|].
      rewrite after_load_eq.
      pose proof (quiet_for_players E (loaded (file w)) ps [] [] w) as Hq1.
      destruct (for_players E (loaded (file w)) ps [] [] w)
        as [[[[cur ch]|x] w1] ev1]; cbn in Hq1;
        [|cbn; constructor; [reflexivity | exact Hq1]].
      pose proof (quiet_save E cur w1) as Hq2.
      destruct (save_current_results E cur w1) as [[[u|x] w2] ev2];
        cbn in Hq2.
      * pose proof (quiet_post_changes_without_credentials E ch Hc w2) as Hq3.
        destruct (post_changes E ch w2) as [[r3 w3] ev3]. cbn in *.
        constructor; [reflexivity|]. rewrite !Forall_app. auto.
      * cbn. constructor; [reflexivity|]. rewrite Forall_app. auto.
    + intros prev w0 ev0 cur ch w1 ev1 Hload Hloop.
      apply load_previous_results_returns in Hload as (Hl & -> & -> & ->).
      rewrite check_eq, Hl, after_load_eq, Hloop.
      destruct (save_current_results_eq E cur w1)
        as (r & w2 & ev2 & Hsave & _ & _ & Hok & _).
      rewrite Hsave.
      destruct (post_changes_returns E ch w2) as (w3 & ev3 & Hpost & Hf & _).
      split.
      * destruct r; [rewrite Hpost|]; cbn; right; apply in_or_app; right;
          now left.
      * intros Hw. destruct (Hok Hw) as [-> Hfile]. rewrite Hpost. cbn.
        split; [reflexivity | congruence].
  - intros Hc ch w. unfold post_changes. destruct ch as [|t ch].
    + exists w. eexists. split; [reflexivity|]. repeat split; try contradiction.
      intros [|i] ? ? Hn; discriminate Hn.
    + destruct (post_each_attempts_all E (t :: ch) Hc w)
        as (w' & evs & Hrun & Hl & Hatt & Hfail).
      unfold bind, print. rewrite Hrun. do 2 eexists.
      split; [reflexivity|]. repeat split.
      * cbn [app]. change (Print ?x :: evs)%list with ([Print x] ++ evs)%list.
        rewrite logins_app, Hl. reflexivity.
      * intros t' Hin. right. now apply Hatt.
      * intros i t' e Hn Hb. right. exact (Hfail i t' e Hn Hb).
Qed.

(* ================================================================== *)
(** * The status line *)

Lemma strip_no_recent_matches (n : string) :
  Str.strip (n ++ " has no recent matches")
  = Str.lstrip (n ++ " ") ++ "has no recent matches".
Proof.
  change (n ++ " has no recent matches")
    with (n ++ " " ++ "has no recent matches").
  now rewrite strip_line.
Qed.

Lemma strip_is_playing_now (n : string) :
  Str.strip (n ++ " is playing now.")
  = Str.lstrip (n ++ " ") ++ "is playing now.".
Proof.
  change (n ++ " is playing now.") with (n ++ " " ++ "is playing now.").
  now rewrite strip_line.
Qed.

(** One turn of the loop against a mapping, when the fetch step
    returns. *)
Lemma for_players_one (E : env) (prev : list (string * pyval)) (p : player)
    (w w1 : world) (o f : string) (ev1 : list event) :
  fetch_player_status E p w = (Return (o, f), w1, ev1) ->
  exists ch ev,
    for_players E (PyDict prev) [p] [] [] w
    = (Return ([(name p, status_message_of (name p) o f)], ch), w1, ev).
Proof.
  intros Hfetch. cbn [for_players]. unfold bind at 1. rewrite Hfetch.
  destruct (compare_with_mapping prev (name p) (status_message_of (name p) o f)
              [] w1) as [e He].
  unfold bind, ret. rewrite He. cbn. do 2 eexists. reflexivity.
Qed.

Lemma fetch_no_matches (E : env) (w : world) (p : player) (r : response)
    (d : list (string * pyval)) :
  answered E w p r ->
  json_result r = Return (PyDict d) ->
  dict_get d "matches" = Some (PyList []) ->
  fetch_player_status E p w
  = (Return ("has no recent matches", ""), after_get w,
     [HttpGet (api_url p);
      Print ("No recent matches found for player: " ++ name p)]).
Proof.
  intros [Hget Hst] Hjson Hm.
  unfold fetch_player_status, try_except, fetch_match_status, bind,
    Requests.get, Requests.json, lift.
  rewrite Hget, Hst, Hjson. cbn [getitem_key]. rewrite Hm. reflexivity.
Qed.

(** C8 as stated fails for a name that starts with white space:
    [strip] removes it, so the stored status of the player " Bob" is
    "Bob has no recent matches", which is not the line trimmed at its end
    only. *)
Lemma C8_counterexample :
  exists ch w ev,
    for_players Sample.no_matches (PyDict []) [Sample.bob] [] []
                Sample.first_run
    = (Return ([(" Bob", "Bob has no recent matches")], ch), w, ev)
    /\ spec_status " Bob" "has no recent matches" ""
       = " Bob has no recent matches"
    /\ "Bob has no recent matches"
       <> spec_status " Bob" "has no recent matches" "".
Proof.
  do 3 eexists. split; [vm_compute; reflexivity|].
  split; [reflexivity | discriminate].
Qed.

(** C8, as amended: whenever the fetch step returns an outcome and a
    finished time, the status the loop stores for the player is the line
    "<name> <outcome> <finished time>" with the white space removed at
    both ends; after an answer with an empty list of matches it is
    "<name> has no recent matches" so stripped, and after one whose most
    recent match has no "finished" or a null one it is
    "<name> is playing now." so stripped; stripping changes neither line
    when the name starts with a character that is not white space. *)
Theorem C8_status_is_the_stripped_line (E : env)
    (prev : list (string * pyval)) (p : player) (w : world) :
  (forall o f w1 ev1,
      fetch_player_status E p w = (Return (o, f), w1, ev1) ->
      exists ch ev,
        for_players E (PyDict prev) [p] [] [] w
        = (Return ([(name p, Str.strip (name p ++ " " ++ o ++ " " ++ f))], ch),
           w1, ev))
  /\ (forall r d,
         answered E w p r -> json_result r = Return (PyDict d) ->
         dict_get d "matches" = Some (PyList []) ->
         exists ch ev,
           for_players E (PyDict prev) [p] [] [] w
           = (Return ([(name p, Str.strip (name p ++ " has no recent matches"))],
                      ch), after_get w, ev))
  /\ (forall r data m,
         answered E w p r -> json_result r = Return data ->
         latest_match data m ->
         dict_get m "finished" = None \/ dict_get m "finished" = Some PyNone ->
         exists ch ev,
           for_players E (PyDict prev) [p] [] [] w
           = (Return ([(name p, Str.strip (name p ++ " is playing now."))], ch),
              after_get w, ev))
  /\ (forall c n,
         name p = String c n -> Str.isspace c = false ->
         Str.strip (name p ++ " has no recent matches")
         = name p ++ " has no recent matches"
         /\ Str.strip (name p ++ " is playing now.")
            = name p ++ " is playing now.").
Proof.
  repeat split.
  - intros o f w1 ev1 Hfetch. exact (for_players_one E prev p w w1 o f ev1 Hfetch).
  - intros r d Ha Hj Hm.
    rewrite strip_no_recent_matches, <- status_no_recent_matches.
    exact (for_players_one E prev p w _ _ _ _ (fetch_no_matches E w p r d Ha Hj Hm)).
  - intros r data m Ha Hj Hl Hfin.
    rewrite strip_is_playing_now, <- status_is_playing_now.
    apply (for_players_one E prev p w _ _ _ [HttpGet (api_url p)]).
    apply (fetch_is_playing_now E w p r data m Ha Hj Hl).
    destruct Hfin as [-> | ->]; reflexivity.
  - rewrite strip_no_recent_matches, H. cbn [append].
    rewrite (lstrip_nonspace_head _ _ H0). cbn [append].
    now rewrite append_assoc.
  - rewrite strip_is_playing_now, H. cbn [append].
    rewrite (lstrip_nonspace_head _ _ H0). cbn [append].
    now rewrite append_assoc.
Qed.

(* ================================================================== *)
(** * The statements at sample inputs *)

Lemma C8_witness :
  (exists ch ev,
      for_players Sample.no_matches (PyDict []) [Sample.carpincho] [] []
                  Sample.first_run
      = (Return ([("Carpincho", Str.strip "Carpincho has no recent matches")],
                 ch), mkWorld NoFile 1 0, ev))
  /\ Str.strip "Carpincho has no recent matches"
     = "Carpincho has no recent matches".
Proof.
  destruct (C8_status_is_the_stripped_line Sample.no_matches [] Sample.carpincho
              Sample.first_run) as (_ & Hempty & _ & Hname).
  split.
  - apply (Hempty (mkResponse 200 "OK" ""
                     (Return (PyDict [("matches", PyList [])])))
                  [("matches", PyList [])]).
    + split; reflexivity.
    + reflexivity.
    + reflexivity.
  - apply (Hname "C"%char "arpincho"); reflexivity.
Defined.

Lemma C7_witness :
  let bad := mkWorld (Unreadable Cases.not_utf8) 0 0 in
  main Sample.no_matches bad = (Raise Cases.not_utf8, bad, [])
  /\ main Sample.no_matches (mkWorld (Unreadable Cases.too_deep) 0 0)
     = (Raise Cases.too_deep, mkWorld (Unreadable Cases.too_deep) 0 0, [])
  /\ fst (fst (main Sample.no_matches Sample.first_run)) = Return tt.
Proof.
  intros bad. split; [|split].
  - exact (proj2 (C7_unreadable_state_file_ends_the_run Sample.no_matches
                    players 0 0 Cases.not_utf8 eq_refl)).
  - exact (proj2 (C7_unreadable_state_file_ends_the_run Sample.no_matches
                    players 0 0 Cases.too_deep eq_refl)).
  - vm_compute. reflexivity.
Defined.

Lemma X15_witness :
  let corrupt := mkWorld (NotJSON Cases.empty_text) 0 0 in
  let run := check_player_statuses_and_post_changes Sample.no_matches
               [Sample.carpincho] corrupt in
  fst (fst run) = Return tt
  /\ sent (snd run) = ["Carpincho has no recent matches"]
  /\ exists cur ch w1 ev1,
       for_players Sample.no_matches (PyDict []) [Sample.carpincho] [] [] corrupt
       = (Return (cur, ch), w1, ev1)
       /\ file (snd (fst run)) = JSONFile (dict_to_py cur).
Proof.
  intros corrupt run. split; [vm_compute; reflexivity|].
  split; [vm_compute; reflexivity|].
  destruct (X15_rejected_text_is_read_as_no_file Sample.no_matches
              [Sample.carpincho] 0 0 Cases.empty_text)
    as (_ & _ & r & wa & wc & evs & _ & Hc & _ & Hdone).
  assert (Hr : r = Return tt).
  { assert (H : fst (fst run) = r) by (unfold run, corrupt; now rewrite Hc).
    rewrite <- H. vm_compute. reflexivity. }
  destruct (Hdone Hr) as (cur & ch & w1 & ev1 & Hloop & _ & Hfile).
  exists cur, ch, w1, ev1. split; [exact Hloop|].
  unfold run, corrupt. rewrite Hc. cbn. apply Hfile. reflexivity.
Defined.

Lemma C9_witness :
  Forall (fun e => is_post_event e = false)
         (snd (check_player_statuses_and_post_changes Sample.no_identifier
                 [Sample.carpincho] Sample.first_run))
  /\ exists w' evs,
       post_changes Sample.second_post_fails ["first"; "second"; "third"]
                    Sample.first_run = (Return tt, w', evs)
       /\ logins evs = 3%nat
       /\ In (post_error_line Sample.rate_limited) evs.
Proof.
  destruct (C9_credentials_and_posting_failures Sample.no_identifier)
    as [Hmissing _].
  destruct (C9_credentials_and_posting_failures Sample.second_post_fails)
    as [_ Hset].
  split.
  - apply (Hmissing eq_refl [Sample.carpincho] Sample.first_run).
  - destruct (Hset eq_refl ["first"; "second"; "third"] Sample.first_run)
      as (w' & evs & Hrun & Hl & _ & Hfail).
    exists w', evs. split; [exact Hrun|]. split; [exact Hl|].
    apply (Hfail 1%nat "second" Sample.rate_limited); [reflexivity|].
    right. reflexivity.
Defined.

(* ================================================================== *)
(** * Computations that only print *)

Section PrintsOnly.

Context {A B : Type}.

Lemma prints_ret (a : A) : prints_only (ret a).
Proof. intros w; split; [reflexivity | constructor]. Qed.

Lemma prints_lift (r : result A) : prints_only (lift r).
Proof. intros w; split; [reflexivity | constructor]. Qed.

Lemma prints_print (line : string) : prints_only (print line).
Proof. intros w; split; [reflexivity | repeat constructor]. Qed.

Lemma prints_bind (m : M A) (k : A -> M B) :
  prints_only m -> (forall a, prints_only (k a)) -> prints_only (bind m k).
Proof.
  intros Hm Hk w. unfold bind. destruct (Hm w) as [Hw Hev].
  destruct (m w) as [[[a|e] w1] ev1]; cbn in *; subst w1; [|now split].
  destruct (Hk a w) as [Hw' Hev'].
  destruct (k a w) as [[r w2] ev2]; cbn in *. split; [exact Hw'|].
  apply Forall_app; now split.
Qed.

Lemma prints_try (body : M A) (handler : exn -> option (M A)) :
  prints_only body -> (forall e h, handler e = Some h -> prints_only h) ->
  prints_only (try_except body handler).
Proof.
  intros Hb Hh w. unfold try_except. destruct (Hb w) as [Hw Hev].
  destruct (body w) as [[[a|e] w1] ev1]; cbn in *; subst w1; [now split|].
  destruct (handler e) as [h|] eqn:He; cbn; [|now split].
  destruct (Hh e h He w) as [Hw' Hev'].
  destruct (h w) as [[r w2] ev2]; cbn in *. split; [exact Hw'|].
  apply Forall_app; now split.
Qed.

End PrintsOnly.

Create HintDb prints.
#[local] Hint Resolve prints_ret prints_lift prints_print : prints.

Ltac prints_step :=
  match goal with
  | |- prints_only (bind _ _) => apply prints_bind; [|intros]
  | |- prints_only (try_except _ _) => apply prints_try; [|intros ? ? ?]
  | |- prints_only (if ?b then _ else _) => destruct b
  | |- prints_only (match ?x with _ => _ end) => destruct x
  | |- prints_only _ => solve [auto with prints]
  end.

Lemma prints_after_response (E : env) (p : player) (r : response) :
  prints_only (after_response E p r).
Proof. unfold after_response. repeat prints_step. Qed.

Lemma prints_fetch_handlers (p : player) (e : exn) (h : M (string * string)) :
  fetch_handlers p e = Some h -> prints_only h.
Proof.
  unfold fetch_handlers.
  destruct (is_RequestException (exn_cls e));
    [|destruct (is_JSONDecodeError (exn_cls e))];
    intros H; inversion H; subst; repeat prints_step.
Qed.

Lemma prints_compare (prev : pyval) (n s : string) (ch : list string) :
  prints_only (compare_with_previous prev n s ch).
Proof.
  unfold compare_with_previous. repeat prints_step.
  intros w; split; [reflexivity | repeat constructor].
Qed.

Lemma fetch_match_status_eq (E : env) (p : player) :
  fetch_match_status E p = bind (Requests.get E (api_url p)) (after_response E p).
Proof. reflexivity. Qed.

(** The fetch step makes one request, the first thing it does, and
    otherwise only prints; the world after it is the world after one
    request, whether it returns or raises. *)
Lemma fetch_player_status_shape (E : env) (p : player) (w : world) :
  exists r evs,
    fetch_player_status E p w = (r, after_get w, HttpGet (api_url p) :: evs)
    /\ Forall (fun e => is_print e = true) evs.
Proof.
  unfold fetch_player_status, try_except. rewrite fetch_match_status_eq.
  unfold bind, Requests.get. fold (after_get w).
  destruct (http E (gets w) (api_url p)) as [resp|e].
  - destruct (prints_after_response E p resp (after_get w)) as [Hw Hev].
    destruct (after_response E p resp (after_get w)) as [[[a|e] w1] ev1];
      cbn in Hw, Hev; subst w1.
    + do 2 eexists. split; [reflexivity | exact Hev].
    + cbn [app]. destruct (fetch_handlers p e) as [h|] eqn:Hh.
      * destruct (prints_fetch_handlers p e h Hh (after_get w)) as [Hw' Hev'].
        destruct (h (after_get w)) as [[r w2] ev2]; cbn in Hw', Hev'; subst w2.
        do 2 eexists. split; [reflexivity|]. apply Forall_app; now split.
      * do 2 eexists. split; [reflexivity | exact Hev].
  - destruct (fetch_handlers p e) as [h|] eqn:Hh.
    + destruct (prints_fetch_handlers p e h Hh (after_get w)) as [Hw' Hev'].
      destruct (h (after_get w)) as [[r w2] ev2]; cbn in Hw', Hev'; subst w2.
      do 2 eexists. split; [reflexivity | exact Hev'].
    + do 2 eexists. split; [reflexivity | constructor].
Qed.

Lemma requested_app (a b : list event) :
  requested (a ++ b) = (requested a ++ requested b)%list.
Proof.
  induction a as [|[] a IH]; cbn; try exact IH; [reflexivity|].
  now rewrite IH.
Qed.

Lemma requested_prints (evs : list event) :
  Forall (fun e => is_print e = true) evs -> requested evs = [].
Proof.
  induction 1 as [|e evs He _ IH]; [reflexivity|].
  destruct e; cbn in *; try discriminate; exact IH.
Qed.

Lemma written_app (a b : list event) :
  written (a ++ b) = (written a ++ written b)%list.
Proof.
  induction a as [|[| | |c [x|]| |] a IH]; cbn; try exact IH; [reflexivity|].
  now rewrite IH.
Qed.

Lemma written_prints (evs : list event) :
  Forall (fun e => is_print e = true) evs -> written evs = [].
Proof.
  induction 1 as [|e evs He _ IH]; [reflexivity|].
  destruct e; cbn in *; try discriminate; exact IH.
Qed.

Lemma sent_app (a b : list event) :
  sent (a ++ b) = (sent a ++ sent b)%list.
Proof.
  induction a as [|[] a IH]; cbn; try exact IH; [reflexivity|].
  now rewrite IH.
Qed.

Lemma sent_quiet (evs : list event) :
  Forall (fun e => is_post_event e = false) evs -> sent evs = [].
Proof.
  induction 1 as [|e evs He _ IH]; [reflexivity|].
  destruct e; cbn in *; try discriminate; exact IH.
Qed.

(* ================================================================== *)
(** * Errors of the request *)

(** X1: when [requests.get] itself raises a [RequestException] (no
    connection, time-out, ...), the fetch step raises nothing: it prints
    one line and returns the outcome "encountered an API error: " followed
    by the text of the exception, with no finished time. *)
Theorem X1_transport_error_becomes_an_outcome (E : env) (w : world)
    (p : player) (e : exn) :
  http E (gets w) (api_url p) = Raise e ->
  is_RequestException (exn_cls e) = true ->
  fetch_player_status E p w
  = (Return ("encountered an API error: " ++ exn_msg e, ""), after_get w,
     [HttpGet (api_url p);
      Print ("Error fetching data for player " ++ name p ++ ": " ++ exn_msg e)]).
Proof.
  intros Hget Hcls.
  unfold fetch_player_status, try_except, fetch_match_status, bind,
    Requests.get, fetch_handlers.
  rewrite Hget, Hcls. reflexivity.
Qed.

Lemma X1_witness :
  fetch_player_status Cases.network_down Sample.carpincho Sample.first_run
  = (Return ("encountered an API error: Connection refused", ""),
     mkWorld NoFile 1 0,
     [HttpGet "https://example/1";
      Print "Error fetching data for player Carpincho: Connection refused"]).
Proof.
  apply (X1_transport_error_becomes_an_outcome Cases.network_down
           Sample.first_run Sample.carpincho
           (mkExn ConnectionError "Connection refused")); reflexivity.
Defined.

(** X2: an answer with a status from 400 to 599 is turned into the
    outcome "encountered an API error: <status> Client Error: <reason>
    for url: <url>" ("Server Error" from 500 on), whatever its body:
    [raise_for_status] comes before [json()], so the body is not looked
    at. *)
Theorem X2_http_error_status_becomes_an_outcome (E : env) (w : world)
    (p : player) (r : response) :
  http E (gets w) (api_url p) = Return r ->
  400 <= status_code r < 600 ->
  let msg := Str.of_Z (status_code r)
             ++ (if status_code r <? 500 then " Client Error: "
                 else " Server Error: ")
             ++ reason r ++ " for url: " ++ url r in
  fetch_player_status E p w
  = (Return ("encountered an API error: " ++ msg, ""), after_get w,
     [HttpGet (api_url p);
      Print ("Error fetching data for player " ++ name p ++ ": " ++ msg)]).
Proof.
  intros Hget [Hlo Hhi] msg. subst msg.
  unfold fetch_player_status, try_except, fetch_match_status, bind,
    Requests.get, lift, Requests.raise_for_status.
  rewrite Hget.
  destruct (status_code r <? 500) eqn:H5.
  - apply Z.ltb_lt in H5.
    replace (400 <=? status_code r) with true by (symmetry; now apply Z.leb_le).
    cbn [andb]. reflexivity.
  - apply Z.ltb_ge in H5.
    replace (400 <=? status_code r) with true by (symmetry; now apply Z.leb_le).
    replace (500 <=? status_code r) with true by (symmetry; now apply Z.leb_le).
    replace (status_code r <? 600) with true by (symmetry; now apply Z.ltb_lt).
    cbn [andb]. reflexivity.
Qed.

Lemma X2_witness :
  fetch_player_status Cases.not_found Sample.carpincho Sample.first_run
  = (Return ("encountered an API error: 404 Client Error: Not Found for url: https://example/1",
             ""),
     mkWorld NoFile 1 0,
     [HttpGet "https://example/1";
      Print "Error fetching data for player Carpincho: 404 Client Error: Not Found for url: https://example/1"]).
Proof.
  apply (X2_http_error_status_becomes_an_outcome Cases.not_found
           Sample.first_run Sample.carpincho
           (mkResponse 404 "Not Found" "https://example/1"
              (Return (Sample.matches_of [("finished", PyNone)])))).
  - reflexivity.
  - cbn. lia.
Defined.

(* ================================================================== *)
(** * The list of matches *)

(** X3: ["matches"] is tested for its truth value: an empty list, and
    also null, false, 0, the empty string or an empty object under that
    key, all give the outcome "has no recent matches" and one line in the
    log. *)
Theorem X3_falsy_matches_is_no_recent_matches (E : env) (w : world)
    (p : player) (r : response) (d : list (string * pyval)) (v : pyval) :
  answered E w p r ->
  json_result r = Return (PyDict d) ->
  dict_get d "matches" = Some v ->
  truthy v = false ->
  fetch_player_status E p w
  = (Return ("has no recent matches", ""), after_get w,
     [HttpGet (api_url p);
      Print ("No recent matches found for player: " ++ name p)]).
Proof.
  intros [Hget Hst] Hjson Hm Hv.
  unfold fetch_player_status, try_except, fetch_match_status, bind,
    Requests.get, Requests.json, lift.
  rewrite Hget, Hst, Hjson. cbn [getitem_key]. rewrite Hm, Hv. reflexivity.
Qed.

Lemma X3_witness :
  fetch_player_status Cases.null_matches Sample.carpincho Sample.first_run
  = (Return ("has no recent matches", ""), mkWorld NoFile 1 0,
     [HttpGet "https://example/1";
      Print "No recent matches found for player: Carpincho"]).
Proof.
  apply (X3_falsy_matches_is_no_recent_matches Cases.null_matches
           Sample.first_run Sample.carpincho
           (mkResponse 200 "OK" "" (Return (PyDict [("matches", PyNone)])))
           [("matches", PyNone)] PyNone).
  - split; reflexivity.
  - reflexivity.
  - reflexivity.
  - reflexivity.
Defined.

(** What lines 79-90 can raise: nothing an [except] clause accepts. *)
Lemma fromisoformat_raises (s : string) (e : exn) :
  Datetime.fromisoformat s = Raise e -> exn_cls e = ValueError.
Proof.
  unfold Datetime.fromisoformat, raise.
  destruct (Datetime._parse_isoformat_date (Str.take 10 s)) as [[[y m] d]|];
    [|intros H; now inversion H].
  destruct (if (String.length s <=? 10)%nat then _ else _)
    as [[[[[hh mm] ss] us] tz]|]; [|intros H; now inversion H].
  destruct (Datetime.check_fields y m d hh mm ss us); intros H; now inversion H.
Qed.

Lemma astimezone_raises (dt : Datetime.datetime) (tz : Pytz.timezone) (e : exn) :
  Pytz.astimezone dt tz = Raise e -> exn_cls e = OverflowError.
Proof.
  unfold Pytz.astimezone, Datetime.add, raise.
  destruct (_ && _).
  - destruct (Datetime._ord2ymd _) as [[y m] d]. discriminate.
  - intros H; now inversion H.
Qed.

Lemma finished_time_raises (tz : Pytz.timezone) (v : pyval) (e : exn) :
  finished_time tz v = Raise e ->
  exn_cls e = AttributeError \/ exn_cls e = ValueError
  \/ exn_cls e = OverflowError.
Proof.
  unfold finished_time.
  destruct (replace_method v "Z" "+00:00") as [iso|e0] eqn:Hr.
  - destruct (Datetime.fromisoformat iso) as [dt|e1] eqn:Hf.
    + destruct (Pytz.astimezone _ tz) as [ba|e2] eqn:Ha; [discriminate|].
      intros H; inversion H; subst. right; right.
      exact (astimezone_raises _ _ _ Ha).
    + intros H; inversion H; subst. right; left.
      exact (fromisoformat_raises _ _ Hf).
  - intros H; inversion H; subst. left.
    destruct v; cbn in Hr; inversion Hr; reflexivity.
Qed.

Lemma entry_outcome_raises (tz : Pytz.timezone) (x : pyval) (e : exn) :
  entry_outcome tz x = Raise e ->
  exn_cls e = AttributeError \/ exn_cls e = ValueError
  \/ exn_cls e = OverflowError.
Proof.
  unfold entry_outcome.
  destruct (get_method x "finished") as [v|e0] eqn:Hg.
  - destruct (truthy v); [|discriminate].
    destruct (finished_time tz v) as [t|e1] eqn:Hf; [discriminate|].
    intros H; inversion H; subst. exact (finished_time_raises _ _ _ Hf).
  - intros H; inversion H; subst. left.
    destruct x; cbn in Hg; inversion Hg; try reflexivity.
    destruct (dict_get d "finished"); discriminate.
Qed.

Lemma after_response_first_match (E : env) (p : player) (r : response)
    (d : list (string * pyval)) (x : pyval) (rest : list pyval) (w : world) :
  Requests.raise_for_status r = Return tt ->
  json_result r = Return (PyDict d) ->
  dict_get d "matches" = Some (PyList (x :: rest)) ->
  after_response E p r w = (entry_outcome (BUENOS_AIRES_TZ E) x, w, []).
Proof.
  intros Hst Hjson Hm.
  unfold after_response, bind, lift, Requests.json, entry_outcome, finished_time.
  rewrite Hst, Hjson. cbn [getitem_key]. rewrite Hm. cbn [truthy getitem_0].
  destruct (get_method x "finished") as [v|e]; [|reflexivity].
  destruct (truthy v); [|reflexivity].
  destruct (replace_method v "Z" "+00:00") as [iso|e]; [|reflexivity].
  destruct (Datetime.fromisoformat iso) as [dt|e]; [|reflexivity].
  destruct (Pytz.astimezone _ _) as [ba|e]; reflexivity.
Qed.

(** With a non-empty list of matches the fetch step is lines 79-90
    applied to the first item. *)
Lemma fetch_first_match (E : env) (w : world) (p : player) (r : response)
    (d : list (string * pyval)) (x : pyval) (rest : list pyval) :
  answered E w p r ->
  json_result r = Return (PyDict d) ->
  dict_get d "matches" = Some (PyList (x :: rest)) ->
  fetch_player_status E p w
  = (entry_outcome (BUENOS_AIRES_TZ E) x, after_get w, [HttpGet (api_url p)]).
Proof.
  intros [Hget Hst] Hjson Hm.
  unfold fetch_player_status, try_except. rewrite fetch_match_status_eq.
  unfold bind at 1. unfold Requests.get. rewrite Hget. fold (after_get w).
  rewrite (after_response_first_match E p r d x rest _ Hst Hjson Hm).
  destruct (entry_outcome (BUENOS_AIRES_TZ E) x) as [a|e] eqn:Ho; [reflexivity|].
  unfold fetch_handlers.
  destruct (entry_outcome_raises _ _ _ Ho) as [-> | [-> | ->]]; reflexivity.
Qed.

(** X4: only the first item of the list of matches is looked at: two
    answers whose lists start with the same item give the same outcome
    and finished time, or raise the same exception, whatever follows in
    the lists and whatever else the objects hold. *)
Theorem X4_only_the_first_match_counts (E : env) (p : player) (w w' : world)
    (r r' : response) (d d' : list (string * pyval)) (x : pyval)
    (rest rest' : list pyval) :
  answered E w p r -> answered E w' p r' ->
  json_result r = Return (PyDict d) -> json_result r' = Return (PyDict d') ->
  dict_get d "matches" = Some (PyList (x :: rest)) ->
  dict_get d' "matches" = Some (PyList (x :: rest')) ->
  fst (fst (fetch_player_status E p w)) = fst (fst (fetch_player_status E p w'))
  /\ snd (fetch_player_status E p w) = snd (fetch_player_status E p w').
Proof.
  intros Ha Ha' Hj Hj' Hm Hm'.
  rewrite (fetch_first_match E w p r d x rest Ha Hj Hm).
  rewrite (fetch_first_match E w' p r' d' x rest' Ha' Hj' Hm').
  split; reflexivity.
Qed.

Lemma X4_witness :
  fst (fst (fetch_player_status Cases.longer_history Sample.carpincho
              (mkWorld NoFile 0 0)))
  = fst (fst (fetch_player_status Cases.longer_history Sample.carpincho
                (mkWorld NoFile 1 0)))
  /\ snd (fetch_player_status Cases.longer_history Sample.carpincho
            (mkWorld NoFile 0 0))
     = snd (fetch_player_status Cases.longer_history Sample.carpincho
              (mkWorld NoFile 1 0)).
Proof.
  apply (X4_only_the_first_match_counts Cases.longer_history Sample.carpincho
           (mkWorld NoFile 0 0) (mkWorld NoFile 1 0)
           (mkResponse 200 "OK" ""
              (Return (Sample.matches_of
                         [("finished", PyStr "2024-03-10T18:30:00Z")])))
           (mkResponse 200 "OK" ""
              (Return (PyDict [("matches",
                 PyList [PyDict [("finished", PyStr "2024-03-10T18:30:00Z")];
                         PyDict [("finished", PyNone)]])])))
           [("matches", PyList [PyDict [("finished", PyStr "2024-03-10T18:30:00Z")]])]
           [("matches",
             PyList [PyDict [("finished", PyStr "2024-03-10T18:30:00Z")];
                     PyDict [("finished", PyNone)]])]
           (PyDict [("finished", PyStr "2024-03-10T18:30:00Z")])
           [] [PyDict [("finished", PyNone)]]).
  - split; reflexivity.
  - split; reflexivity.
  - reflexivity.
  - reflexivity.
  - reflexivity.
  - reflexivity.
Defined.

(* ================================================================== *)
(** * The offset of the finished time *)

Lemma replace_tzinfo_twice (dt : Datetime.datetime) (a b : option Z) :
  Datetime.replace_tzinfo (Datetime.replace_tzinfo dt a) b
  = Datetime.replace_tzinfo dt b.
Proof. reflexivity. Qed.

Lemma fromisoformat_nonempty (s : string) (dt : Datetime.datetime) :
  Datetime.fromisoformat (Str.replace_char s "Z" "+00:00") = Return dt ->
  truthy (PyStr s) = true.
Proof. destruct s; [discriminate | reflexivity]. Qed.

(** X5: the offset written in the finished time is dropped, not
    applied: [.replace(tzinfo=pytz.utc)] relabels the parsed date and
    time as UTC.  Two timestamps that parse to the same date and time of
    day with different offsets (say "+05:00" and "Z") are rendered as the
    same local time. *)
Theorem X5_offset_of_the_timestamp_is_dropped (E : env) (p : player)
    (w w' : world) (r r' : response) (data data' : pyval)
    (m m' : list (string * pyval)) (s s' : string)
    (dt dt' : Datetime.datetime) :
  answered E w p r -> answered E w' p r' ->
  json_result r = Return data -> json_result r' = Return data' ->
  latest_match data m -> latest_match data' m' ->
  dict_get m "finished" = Some (PyStr s) ->
  dict_get m' "finished" = Some (PyStr s') ->
  Datetime.fromisoformat (Str.replace_char s "Z" "+00:00") = Return dt ->
  Datetime.fromisoformat (Str.replace_char s' "Z" "+00:00") = Return dt' ->
  Datetime.replace_tzinfo dt None = Datetime.replace_tzinfo dt' None ->
  fst (fst (fetch_player_status E p w)) = fst (fst (fetch_player_status E p w')).
Proof.
  intros Ha Ha' Hj Hj' (d & rest & -> & Hm) (d' & rest' & -> & Hm')
    Hf Hf' Hp Hp' Hsame.
  rewrite (fetch_first_match E w p r d _ rest Ha Hj Hm).
  rewrite (fetch_first_match E w' p r' d' _ rest' Ha' Hj' Hm').
  cbn [fst]. unfold entry_outcome. cbn [get_method]. rewrite Hf, Hf'.
  rewrite (fromisoformat_nonempty s dt Hp), (fromisoformat_nonempty s' dt' Hp').
  unfold finished_time. cbn [replace_method]. rewrite Hp, Hp'.
  rewrite <- (replace_tzinfo_twice dt None Pytz.utc).
  rewrite <- (replace_tzinfo_twice dt' None Pytz.utc).
  now rewrite Hsame.
Qed.

Lemma X5_witness :
  fst (fst (fetch_player_status Cases.other_offset Sample.carpincho
              (mkWorld NoFile 0 0)))
  = fst (fst (fetch_player_status Cases.other_offset Sample.carpincho
                (mkWorld NoFile 1 0)))
  /\ fst (fst (fetch_player_status Cases.other_offset Sample.carpincho
                 (mkWorld NoFile 0 0)))
     = Return ("finished playing at", "15:30 (2024-03-10)").
Proof.
  split; [|vm_compute; reflexivity].
  apply (X5_offset_of_the_timestamp_is_dropped Cases.other_offset
           Sample.carpincho (mkWorld NoFile 0 0) (mkWorld NoFile 1 0)
           (mkResponse 200 "OK" ""
              (Return (Sample.matches_of
                         [("finished", PyStr "2024-03-10T18:30:00+05:00")])))
           (mkResponse 200 "OK" ""
              (Return (Sample.matches_of
                         [("finished", PyStr "2024-03-10T18:30:00Z")])))
           (Sample.matches_of [("finished", PyStr "2024-03-10T18:30:00+05:00")])
           (Sample.matches_of [("finished", PyStr "2024-03-10T18:30:00Z")])
           [("finished", PyStr "2024-03-10T18:30:00+05:00")]
           [("finished", PyStr "2024-03-10T18:30:00Z")]
           "2024-03-10T18:30:00+05:00" "2024-03-10T18:30:00Z"
           (Datetime.mkDatetime 2024 3 10 18 30 0 0 (Some 18000000000))
           (Datetime.mkDatetime 2024 3 10 18 30 0 0 (Some 0))).
  - split; reflexivity.
  - split; reflexivity.
  - reflexivity.
  - reflexivity.
  - exists [("matches", PyList [PyDict [("finished", PyStr "2024-03-10T18:30:00+05:00")]])], [].
    split; reflexivity.
  - exists [("matches", PyList [PyDict [("finished", PyStr "2024-03-10T18:30:00Z")]])], [].
    split; reflexivity.
  - reflexivity.
  - reflexivity.
  - vm_compute. reflexivity.
  - vm_compute. reflexivity.
  - reflexivity.
Defined.

(* ================================================================== *)
(** * The requests of the loop *)

(** The loop makes its requests in the order of the players and does
    nothing else to the outside but print. *)
Lemma for_players_shape (E : env) (prev : pyval) (ps : list player) :
  forall cur ch w, exists r w' ev,
    for_players E prev ps cur ch w = (r, w', ev)
    /\ file w' = file w /\ clients w' = clients w
    /\ (gets w <= gets w' <= gets w + List.length ps)%nat
    /\ requested ev = firstn (gets w' - gets w) (map api_url ps)
    /\ written ev = []
    /\ (forall x, r = Return x -> gets w' = (gets w + List.length ps)%nat).
Proof.
  induction ps as [|p ps IH]; intros cur ch w; cbn [for_players].
  - exists (Return (cur, ch)), w, []. cbn. rewrite Nat.sub_diag.
    repeat split; auto; lia.
  - destruct (fetch_player_status_shape E p w) as (r1 & evs & Hfetch & Hpr).
    unfold bind at 1. rewrite Hfetch.
    destruct r1 as [[o f]|e].
    + destruct (prints_compare prev (name p) (status_message_of (name p) o f)
                  ch (after_get w)) as [Hw2 Hpr2].
      unfold bind at 1.
      destruct (compare_with_previous prev (name p)
                  (status_message_of (name p) o f) ch (after_get w))
        as [[[ch'|e] w2] ev2]; cbn in Hw2, Hpr2; subst w2.
      * destruct (IH (dict_set cur (name p) (status_message_of (name p) o f))
                     ch' (after_get w))
          as (r3 & w3 & ev3 & -> & Hf & Hc & Hg & Hreq & Hwr & Hret).
        cbn [gets file clients after_get] in *.
        do 3 eexists. split; [reflexivity|]. repeat split; cbn [List.length]; auto; try lia.
        -- cbn [app requested]. rewrite requested_app, requested_app.
           rewrite (requested_prints _ Hpr), (requested_prints _ Hpr2), Hreq.
           cbn [app]. replace (gets w3 - gets w)%nat
             with (S (gets w3 - S (gets w))) by lia. reflexivity.
        -- cbn [app written]. rewrite written_app, written_app.
           now rewrite (written_prints _ Hpr), (written_prints _ Hpr2), Hwr.
        -- intros x Hx. rewrite (Hret x Hx). cbn. lia.
      * do 3 eexists. split; [reflexivity|].
        cbn [gets file clients after_get]. repeat split; cbn [List.length]; auto; try lia.
        -- cbn [app requested]. rewrite requested_app.
           rewrite (requested_prints _ Hpr), (requested_prints _ Hpr2).
           replace (S (gets w) - gets w)%nat with 1%nat by lia. reflexivity.
        -- cbn [app written]. rewrite written_app.
           now rewrite (written_prints _ Hpr), (written_prints _ Hpr2).
        -- discriminate.
    + do 3 eexists. split; [reflexivity|].
      cbn [gets file clients after_get]. repeat split; cbn [List.length]; auto; try lia.
      * cbn [requested]. rewrite (requested_prints _ Hpr).
        replace (S (gets w) - gets w)%nat with 1%nat by lia. reflexivity.
      * cbn [written]. exact (written_prints _ Hpr).
      * discriminate.
Qed.

Lemma logins_quiet (evs : list event) :
  Forall (fun e => is_post_event e = false) evs -> logins evs = 0%nat.
Proof.
  unfold logins. induction 1 as [|e l He _ IH]; [reflexivity|].
  destruct e; cbn in *; try discriminate; exact IH.
Qed.

(** X6: the loop sends one GET per player, to the player's own address
    and in the order of the list; when it stops on an exception the
    requests made are those of the players up to the failing one.  It
    never writes the file and never calls the posting API. *)
Theorem X6_one_request_per_player_in_order (E : env) (prev : pyval)
    (ps : list player) (cur : list (string * string)) (ch : list string)
    (w : world) :
  let run := for_players E prev ps cur ch w in
  let made := (gets (snd (fst run)) - gets w)%nat in
  requested (snd run) = firstn made (map api_url ps)
  /\ (made <= List.length ps)%nat
  /\ (forall x, fst (fst run) = Return x -> requested (snd run) = map api_url ps)
  /\ file (snd (fst run)) = file w
  /\ written (snd run) = []
  /\ sent (snd run) = []
  /\ logins (snd run) = 0%nat.
Proof.
  intros run made. subst made run.
  pose proof (quiet_for_players E prev ps cur ch w) as Hq.
  destruct (for_players_shape E prev ps cur ch w)
    as (r & w' & ev & Heq & Hf & Hc & Hg & Hreq & Hwr & Hret).
  rewrite Heq in *. cbn [fst snd] in *. repeat split; auto; try lia.
  - intros x Hx. rewrite Hreq, (Hret x Hx).
    replace (gets w + List.length ps - gets w)%nat
      with (List.length (map api_url ps)) by (rewrite length_map; lia).
    apply firstn_all.
  - exact (sent_quiet _ Hq).
  - exact (logins_quiet _ Hq).
Qed.

(* ================================================================== *)
(** * The mapping the loop builds *)

Lemma dict_get_set_same {V : Type} (d : list (string * V)) (k : string) (v : V) :
  dict_get (dict_set d k v) k = Some v.
Proof.
  induction d as [|[k0 v0] d IH]; cbn.
  - now rewrite String.eqb_refl.
  - destruct (String.eqb k0 k) eqn:Hk; cbn; rewrite Hk; [reflexivity | exact IH].
Qed.

Lemma dict_get_set_other {V : Type} (d : list (string * V)) (k k' : string)
    (v : V) :
  k <> k' -> dict_get (dict_set d k v) k' = dict_get d k'.
Proof.
  intros Hne. induction d as [|[k0 v0] d IH]; cbn.
  - destruct (String.eqb_spec k k'); [contradiction | reflexivity].
  - destruct (String.eqb_spec k0 k) as [->|Hk]; cbn.
    + destruct (String.eqb_spec k k'); [contradiction | reflexivity].
    + destruct (String.eqb k0 k'); [reflexivity | exact IH].
Qed.

Lemma dict_set_nodup {V : Type} (d : list (string * V)) (k : string) (v : V) :
  NoDup (map fst d) -> NoDup (map fst (dict_set d k v)).
Proof.
  induction d as [|[k0 v0] d IH]; cbn; intros Hnd.
  - constructor; [intros [] | constructor].
  - inversion Hnd as [|? ? Hk0 Hnd']; subst.
    destruct (String.eqb_spec k0 k) as [->|Hne]; cbn.
    + now constructor.
    + constructor; [|now apply IH].
      rewrite dict_set_keys. intros [-> | Hin]; [now apply Hne | now apply Hk0].
Qed.

Lemma store_all_nodup (named cur : list (string * string)) :
  NoDup (map fst cur) -> NoDup (map fst (store_all cur named)).
Proof.
  revert cur. induction named as [|[n s] named IH]; intros cur Hnd; cbn.
  - exact Hnd.
  - unfold store_all in *. cbn. apply IH. now apply dict_set_nodup.
Qed.

Lemma dict_get_app {V : Type} (a b : list (string * V)) (k : string) :
  dict_get (a ++ b) k
  = match dict_get a k with
    | Some v => Some v
    | None => dict_get b k
    end.
Proof.
  induction a as [|[k0 v0] a IH]; cbn; [reflexivity|].
  destruct (String.eqb k0 k); [reflexivity | exact IH].
Qed.

(** A later status of a name replaces the earlier one. *)
Lemma store_all_get (named cur : list (string * string)) (k : string) :
  dict_get (store_all cur named) k
  = match dict_get (rev named) k with
    | Some v => Some v
    | None => dict_get cur k
    end.
Proof.
  revert cur. induction named as [|[n s] named IH]; intros cur; cbn.
  - reflexivity.
  - unfold store_all in *. cbn [fold_left fst snd]. rewrite IH, dict_get_app.
    destruct (dict_get (rev named) k); [reflexivity|]. cbn.
    destruct (String.eqb_spec n k) as [->|Hne].
    + apply dict_get_set_same.
    + now apply dict_get_set_other.
Qed.

Lemma store_all_values (named cur : list (string * string)) (k v : string) :
  In (k, v) (store_all cur named) -> In (k, v) cur \/ In v (map snd named).
Proof.
  revert cur. induction named as [|[n s] named IH]; intros cur; cbn.
  - now left.
  - unfold store_all in *. cbn [fold_left fst snd]. intros H.
    apply IH in H as [H | H]; [|now right; right].
    assert (Hset : forall d, In (k, v) (dict_set d n s) ->
                             In (k, v) d \/ v = s).
    { induction d as [|[k0 v0] d IHd]; cbn.
      - intros [Heq | []]. inversion Heq. now right.
      - destruct (String.eqb k0 n); cbn.
        + intros [Heq | Hin]; [inversion Heq; now right | left; now right].
        + intros [Heq | Hin]; [left; now left|].
          destruct (IHd Hin); [left; now right | now right]. }
    destruct (Hset cur H) as [Hc | ->]; [now left | right; now left].
Qed.

Lemma combine_names_values (ps : list player) (sts : list string) :
  List.length sts = List.length ps ->
  map snd (combine (map name ps) sts) = sts.
Proof.
  revert sts. induction ps as [|p ps IH]; intros [|s sts] Hl; cbn in *;
    try discriminate; [reflexivity|].
  f_equal. apply IH. congruence.
Qed.

(** X7: the mapping the loop hands to [json.dump] has each name once,
    whatever the list of players; when a name occurs more than once in
    the list, the status kept for it is the one of its last occurrence. *)
Theorem X7_current_results_keeps_the_last_status (E : env) (prev : pyval)
    (ps : list player) (w w' : world) (cur : list (string * string))
    (ch : list string) (ev : list event) :
  for_players E prev ps [] [] w = (Return (cur, ch), w', ev) ->
  NoDup (map fst cur)
  /\ exists sts,
       fetches E w ps sts w'
       /\ forall n, dict_get cur n
                    = dict_get (rev (combine (map name ps) sts)) n.
Proof.
  intros H. apply for_players_returns in H as (sts & Hf & -> & _). split.
  - apply store_all_nodup. constructor.
  - exists sts. split; [exact Hf|]. intros n. rewrite store_all_get.
    now destruct (dict_get (rev (combine (map name ps) sts)) n).
Qed.

Lemma X7_witness :
  NoDup (map fst [("A", "A is playing now.")])
  /\ exists sts,
       fetches Sample.by_url Sample.first_run Sample.same_name_twice sts
               (mkWorld NoFile 2 0)
       /\ forall n, dict_get [("A", "A is playing now.")] n
                    = dict_get (rev (combine (map name Sample.same_name_twice)
                                             sts)) n.
Proof.
  apply (X7_current_results_keeps_the_last_status Sample.by_url (PyDict [])
           Sample.same_name_twice Sample.first_run (mkWorld NoFile 2 0)
           [("A", "A is playing now.")]
           ["A has no recent matches"; "A is playing now."]
           [HttpGet "https://example/1";
            Print "No recent matches found for player: A";
            Print "NEW PLAYER STATUS: A has no recent matches";
            HttpGet "https://example/2";
            Print "NEW PLAYER STATUS: A is playing now."]).
  vm_compute. reflexivity.
Defined.

(* ================================================================== *)
(** * A first run *)

Lemma reported_against_nothing (named : list (string * string)) :
  reported [] named = map snd named.
Proof.
  unfold reported. induction named as [|[n s] named IH]; cbn in *;
    [reflexivity | now f_equal].
Qed.

(** X8: without a state file, or with one that is not JSON, every player
    counts as new: when the loop returns, [changed_posts] is the list of
    all the statuses fetched, one per player, in the order of the
    players. *)
Theorem X8_first_run_reports_every_player (E : env) (ps : list player)
    (w w' : world) (cur : list (string * string)) (ch : list string)
    (ev : list event) :
  file w = NoFile \/ (exists msg, file w = NotJSON msg) ->
  for_players E (loaded (file w)) ps [] [] w = (Return (cur, ch), w', ev) ->
  fetches E w ps ch w' /\ List.length ch = List.length ps.
Proof.
  intros Hfile H.
  assert (Hl : loaded (file w) = PyDict [])
    by (destruct Hfile as [-> | [msg ->]]; reflexivity).
  rewrite Hl in H. apply for_players_returns in H as (sts & Hf & _ & Hch).
  rewrite (Hch [] eq_refl), reported_against_nothing. cbn [app].
  rewrite (combine_names_values _ _ (fetches_length _ _ _ _ _ Hf)).
  split; [exact Hf | exact (fetches_length _ _ _ _ _ Hf)].
Qed.

Lemma X8_witness :
  fetches Sample.no_matches Sample.first_run [Sample.carpincho; Sample.nanox]
          ["Carpincho has no recent matches"; "Nanox has no recent matches"]
          (mkWorld NoFile 2 0)
  /\ List.length ["Carpincho has no recent matches"; "Nanox has no recent matches"]
     = List.length [Sample.carpincho; Sample.nanox].
Proof.
  apply (X8_first_run_reports_every_player Sample.no_matches
           [Sample.carpincho; Sample.nanox] Sample.first_run
           (mkWorld NoFile 2 0)
           [("Carpincho", "Carpincho has no recent matches");
            ("Nanox", "Nanox has no recent matches")]
           ["Carpincho has no recent matches"; "Nanox has no recent matches"]
           [HttpGet "https://example/1";
            Print "No recent matches found for player: Carpincho";
            Print "NEW PLAYER STATUS: Carpincho has no recent matches";
            HttpGet "https://example/2";
            Print "No recent matches found for player: Nanox";
            Print "NEW PLAYER STATUS: Nanox has no recent matches"]).
  - left. reflexivity.
  - vm_compute. reflexivity.
Defined.

(* ================================================================== *)
(** * What is sent *)

(** [make_bluesky_post] by cases on the credentials and on what the API
    does. *)
Lemma make_bluesky_post_cases (E : env) (t : string) (w : world) :
  make_bluesky_post E t w
  = if credentials_set E then
      let w' := mkWorld (file w) (gets w) (S (clients w)) in
      let lg := Login (env_value (BLUESKY_IDENTIFIER E))
                      (env_value (BLUESKY_APP_PASSWORD E)) in
      match bsky E (clients w) t with
      | LoginFails e => (Return None, w', [lg; post_error_line e])
      | SendFails e =>
          (Return None, w',
           [lg; Print "Successfully logged into Bluesky!"; SendPost t;
            post_error_line e])
      | Posted uri cid =>
          (Return (Some (uri, cid)), w',
           [lg; Print "Successfully logged into Bluesky!"; SendPost t;
            Print "Post created successfully!"; Print ("URI: " ++ uri);
            Print ("CID: " ++ cid)])
      end
    else
      (Return None, w,
       [Print "Bluesky credentials not configured. Skipping post.";
        Print "Please set BLUESKY_IDENTIFIER and BLUESKY_APP_PASSWORD in the script."]).
Proof.
  unfold make_bluesky_post, credentials_set.
  destruct (not_set (BLUESKY_IDENTIFIER E) || not_set (BLUESKY_APP_PASSWORD E));
    cbn [negb]; [reflexivity|].
  unfold bind, try_except, Atproto.Client, Atproto.login, Atproto.send_post,
    print, ret, post_error_line.
  cbn. destruct (bsky E (clients w) t); reflexivity.
Qed.

(** X9: [make_bluesky_post] never raises and touches neither the file
    nor the count of requests; it returns the reference of the post
    exactly when both credentials are set and the API accepted the login
    and the post, and [None] in every other case; without both
    credentials it makes no client and no call. *)
Theorem X9_make_bluesky_post_returns_the_post_or_None (E : env) (t : string)
    (w : world) :
  exists r w' ev,
    make_bluesky_post E t w = (Return r, w', ev)
    /\ file w' = file w /\ gets w' = gets w
    /\ (forall uri cid,
          r = Some (uri, cid)
          <-> credentials_set E = true /\ bsky E (clients w) t = Posted uri cid)
    /\ (credentials_set E = false -> w' = w /\ sent ev = [] /\ logins ev = 0%nat)
    /\ (logins ev <= 1)%nat /\ (forall x, In x (sent ev) -> x = t).
Proof.
  rewrite make_bluesky_post_cases.
  destruct (credentials_set E); cbn zeta.
  - destruct (bsky E (clients w) t) as [e|e|uri cid] eqn:Hb;
      do 3 eexists; (split; [reflexivity|]); cbn;
      (split; [reflexivity|]); (split; [reflexivity|]);
      (split; [intros u c; split;
                 [intros H; try discriminate H; inversion H; now split
                 |intros [_ H]; try discriminate H; now inversion H]|]);
      (split; [discriminate|]); (split; [lia|]);
      intros x Hx; try contradiction; destruct Hx as [<- | []]; reflexivity.
  - do 3 eexists. split; [reflexivity|]. cbn.
    split; [reflexivity|]. split; [reflexivity|].
    split; [intros u c; split; [discriminate | intros [H _]; discriminate H]|].
    split; [now intros _|]. split; [lia | contradiction].
Qed.

(** The posting loop: one client per message when the credentials are
    set, and the texts handed to [send_post] are those whose client
    logged in. *)
Lemma post_each_facts (E : env) (ts : list string) :
  forall w, exists w' ev,
    post_each E ts w = (Return tt, w', ev)
    /\ file w' = file w /\ gets w' = gets w
    /\ written ev = [] /\ requested ev = []
    /\ sent ev
       = (if credentials_set E then
            map fst (filter (fun ti => login_succeeds E (snd ti) (fst ti))
                            (combine ts (seq (clients w) (List.length ts))))
          else [])
    /\ (logins ev <= List.length ts)%nat.
Proof.
  induction ts as [|t ts IH]; intros w; cbn [post_each].
  - exists w, []. cbn. repeat split; auto. now destruct (credentials_set E).
  - unfold bind at 1. cbn [print]. unfold bind at 1.
    rewrite make_bluesky_post_cases. unfold login_succeeds in *.
    destruct (credentials_set E) eqn:Hc; cbn zeta.
    + destruct (IH (mkWorld (file w) (gets w) (S (clients w))))
        as (w' & ev & Hrun & Hf & Hg & Hwr & Hrq & Hs & Hl).
      cbn [file gets clients] in *.
      destruct (bsky E (clients w) t) as [e|e|uri cid] eqn:Hb; rewrite Hrun;
        do 2 eexists; (split; [reflexivity|]);
        cbn [app written requested sent post_error_line List.length seq
             combine filter fst snd map];
        rewrite ?Hb; cbn [map fst];
        rewrite ?written_app, ?requested_app, ?sent_app, ?Hwr, ?Hrq, ?Hs;
        (repeat split; auto);
        unfold logins, post_error_line in *; cbn [filter List.length]; lia.
    + destruct (IH w) as (w' & ev & Hrun & Hf & Hg & Hwr & Hrq & Hs & Hl).
      rewrite Hrun. do 2 eexists. split; [reflexivity|].
      cbn [app written requested sent].
      repeat split; auto. unfold logins in *. cbn [filter List.length]. lia.
Qed.

Lemma post_changes_facts (E : env) (ch : list string) (w : world) :
  exists w' ev,
    post_changes E ch w = (Return tt, w', ev)
    /\ file w' = file w /\ gets w' = gets w
    /\ written ev = [] /\ requested ev = []
    /\ sent ev
       = (if credentials_set E then
            map fst (filter (fun ti => login_succeeds E (snd ti) (fst ti))
                            (combine ch (seq (clients w) (List.length ch))))
          else [])
    /\ (logins ev <= List.length ch)%nat.
Proof.
  unfold post_changes. destruct ch as [|t ch].
  - exists w. eexists. split; [reflexivity|]. cbn. repeat split; auto.
    now destruct (credentials_set E).
  - destruct (post_each_facts E (t :: ch) w)
      as (w' & ev & Hrun & Hf & Hg & Hwr & Hrq & Hs & Hl).
    unfold bind, print. rewrite Hrun. do 2 eexists. split; [reflexivity|].
    cbn [app written requested sent]. repeat split; auto.
Qed.

Lemma filter_all {A : Type} (f : A -> bool) (l : list A) :
  (forall x, In x l -> f x = true) -> filter f l = l.
Proof.
  induction l as [|a l IH]; cbn; intros H; [reflexivity|].
  rewrite (H a (or_introl eq_refl)). f_equal. apply IH. intros x Hx.
  apply H. now right.
Qed.

Lemma map_fst_combine_seq {A : Type} (l : list A) (n : nat) :
  map fst (combine l (seq n (List.length l))) = l.
Proof.
  revert n. induction l as [|a l IH]; intros n; cbn; [reflexivity|].
  now rewrite IH.
Qed.

(** X10: with both credentials set, the texts handed to [send_post] are
    the changed statuses whose client could log in, each once and in the
    order of [changed_posts]; a message is never retried, and when every
    login succeeds the texts are exactly [changed_posts]. *)
Theorem X10_posts_are_sent_once_in_order (E : env) (ch : list string)
    (w : world) :
  credentials_set E = true ->
  sent (snd (post_changes E ch w))
  = map fst (filter (fun ti => login_succeeds E (snd ti) (fst ti))
                    (combine ch (seq (clients w) (List.length ch))))
  /\ ((forall n t, login_succeeds E n t = true) ->
      sent (snd (post_changes E ch w)) = ch).
Proof.
  intros Hc.
  destruct (post_changes_facts E ch w) as (w' & ev & Hrun & _ & _ & _ & _ & Hs & _).
  rewrite Hrun, Hc in *. cbn [snd]. split; [exact Hs|].
  intros Hall. rewrite Hs, filter_all; [apply map_fst_combine_seq|].
  intros [t n] _. apply Hall.
Qed.

Lemma X10_witness :
  sent (snd (post_changes Cases.second_login_fails ["first"; "second"; "third"]
               Sample.first_run))
  = ["first"; "third"].
Proof.
  destruct (X10_posts_are_sent_once_in_order Cases.second_login_fails
              ["first"; "second"; "third"] Sample.first_run eq_refl)
    as [Hsent _].
  rewrite Hsent. reflexivity.
Defined.

(* ================================================================== *)
(** * A write that fails *)

(** Step 4 by cases on what the write raises. *)
Lemma save_current_results_cases (E : env) (cur : list (string * string))
    (w : world) :
  save_current_results E cur w
  = match write_error E with
    | None =>
        (Return tt, mkWorld (JSONFile (dict_to_py cur)) (gets w) (clients w),
         [FileWrite (dict_to_py cur) None;
          Print (newline ++ "Updated player statuses saved to "
                 ++ PREVIOUS_STATUS_FILE)])
    | Some e =>
        if is_IOError (exn_cls e) then
          (Return tt,
           mkWorld (match write_leaves E with
                    | Some msg => NotJSON msg
                    | None => file w
                    end) (gets w) (clients w),
           [FileWrite (dict_to_py cur) (Some e);
            Print ("Error writing to file " ++ PREVIOUS_STATUS_FILE ++ ": "
                   ++ exn_msg e)])
        else (Raise e, w, [FileWrite (dict_to_py cur) (Some e)])
    end.
Proof.
  unfold save_current_results, try_except, bind, json_dump_file,
    after_failed_write, print.
  destruct (write_error E) as [e|]; [|reflexivity].
  cbn. destruct (is_IOError (exn_cls e)), (write_leaves E), w; reflexivity.
Qed.

Lemma for_players_with_write_error (E : env) (x : option exn) (prev : pyval)
    (ps : list player) (cur : list (string * string)) (ch : list string) :
  for_players (with_write_error E x) prev ps cur ch = for_players E prev ps cur ch.
Proof. destruct E. reflexivity. Qed.

Lemma post_changes_with_write_error (E : env) (x : option exn)
    (ch : list string) :
  post_changes (with_write_error E x) ch = post_changes E ch.
Proof. destruct E. reflexivity. Qed.

(** A run whose write raises an [IOError], beside the run in which the
    write succeeds: the same result, the same requests, the same texts
    handed to [send_post]; no write has succeeded; and when the run
    returns, the error is in the log and the file is as it was if
    [open] raised, and is what the failed write left of it otherwise. *)
Lemma run_with_failed_write (E : env) (ps : list player) (w : world)
    (e : exn) :
  write_error E = Some e ->
  is_IOError (exn_cls e) = true ->
  let run := check_player_statuses_and_post_changes E ps w in
  let run' := check_player_statuses_and_post_changes
                (with_write_error E None) ps w in
  fst (fst run) = fst (fst run')
  /\ requested (snd run) = requested (snd run')
  /\ sent (snd run) = sent (snd run')
  /\ written (snd run) = []
  /\ (fst (fst run) = Return tt ->
      file (snd (fst run))
      = match write_leaves E with
        | None => file w
        | Some msg => NotJSON msg
        end
      /\ In (Print ("Error writing to file " ++ PREVIOUS_STATUS_FILE ++ ": "
                    ++ exn_msg e)) (snd run)).
Proof.
  intros Hw He run run'. subst run run'.
  rewrite !check_eq.
  destruct (load_raises (file w)) as [x|];
    [cbn; repeat split; auto; discriminate|].
  rewrite !after_load_eq, for_players_with_write_error.
  destruct (for_players_shape E (loaded (file w)) ps [] [] w)
    as (r & w1 & ev1 & Hloop & Hf1 & _ & _ & _ & Hwr1 & _).
  rewrite Hloop in *.
  destruct r as [[cur ch]|x].
  - rewrite !save_current_results_cases. cbn [write_error with_write_error].
    rewrite Hw, He, post_changes_with_write_error.
    destruct (post_changes_facts E ch
                (mkWorld (match write_leaves E with
                          | Some msg => NotJSON msg
                          | None => file w1
                          end) (gets w1) (clients w1)))
      as (w3 & ev3 & -> & Hf3 & _ & Hwr3 & Hrq3 & Hs3 & _).
    destruct (post_changes_facts E ch
                (mkWorld (JSONFile (dict_to_py cur)) (gets w1) (clients w1)))
      as (w3' & ev3' & -> & _ & _ & _ & Hrq3' & Hs3' & _).
    cbn [clients] in Hs3, Hs3'. cbn [file] in Hf3.
    cbn [fst snd requested sent written].
    rewrite !requested_app, !sent_app, !written_app.
    cbn [requested sent written app].
    rewrite Hrq3, Hrq3', Hs3, Hs3', Hwr1, Hwr3.
    split; [reflexivity|]. split; [reflexivity|]. split; [reflexivity|].
    split; [reflexivity|]. intros _. split.
    + rewrite Hf3, Hf1. reflexivity.
    + right. apply in_or_app. right. right. now left.
  - cbn [fst snd requested sent written]. repeat split; auto; discriminate.
Qed.

(** X11: when the write of the file raises an [IOError], the run goes
    on: it logs "Error writing to file ...", makes the same requests,
    hands the same texts to [send_post] and ends the same way as the run
    in which the write succeeds.  No write has succeeded.  The file is
    as it was when [open] itself raised (no permission); when the
    failure came after [open] had truncated the file (disk full), the
    file is left empty or partial, a text that is not JSON. *)
Theorem X11_failed_write_does_not_stop_the_run (E : env) (ps : list player)
    (w : world) (e : exn) :
  write_error E = Some e ->
  is_IOError (exn_cls e) = true ->
  let run := check_player_statuses_and_post_changes E ps w in
  let run' := check_player_statuses_and_post_changes
                (with_write_error E None) ps w in
  fst (fst run) = fst (fst run')
  /\ requested (snd run) = requested (snd run')
  /\ sent (snd run) = sent (snd run')
  /\ written (snd run) = []
  /\ (fst (fst run) = Return tt ->
      file (snd (fst run))
      = match write_leaves E with
        | None => file w
        | Some msg => NotJSON msg
        end
      /\ In (Print ("Error writing to file " ++ PREVIOUS_STATUS_FILE ++ ": "
                    ++ exn_msg e)) (snd run)).
Proof. exact (run_with_failed_write E ps w e). Qed.

Lemma X11_witness :
  let denied := with_write_error Sample.no_matches (Some Cases.no_permission) in
  let run := check_player_statuses_and_post_changes denied
               [Sample.carpincho] (mkWorld (JSONFile (PyDict [])) 0 0) in
  let run' := check_player_statuses_and_post_changes Cases.disk_fills_up
                [Sample.carpincho] (mkWorld (JSONFile (PyDict [])) 0 0) in
  (fst (fst run) = Return tt
   /\ sent (snd run) = ["Carpincho has no recent matches"]
   /\ file (snd (fst run)) = JSONFile (PyDict []))
  /\ (fst (fst run') = Return tt
      /\ sent (snd run') = ["Carpincho has no recent matches"]
      /\ file (snd (fst run')) = NotJSON Cases.empty_text).
Proof.
  intros denied run run'. split.
  - destruct (X11_failed_write_does_not_stop_the_run denied [Sample.carpincho]
                (mkWorld (JSONFile (PyDict [])) 0 0) Cases.no_permission
                eq_refl eq_refl)
      as (Hr & _ & Hs & _ & Hf).
    assert (Hret : fst (fst run) = Return tt)
      by (unfold run; rewrite Hr; vm_compute; reflexivity).
    split; [exact Hret|]. split.
    + unfold run. rewrite Hs. vm_compute. reflexivity.
    + exact (proj1 (Hf Hret)).
  - destruct (X11_failed_write_does_not_stop_the_run Cases.disk_fills_up
                [Sample.carpincho] (mkWorld (JSONFile (PyDict [])) 0 0)
                Cases.disk_full eq_refl eq_refl)
      as (Hr & _ & Hs & _ & Hf).
    assert (Hret : fst (fst run') = Return tt)
      by (unfold run'; rewrite Hr; vm_compute; reflexivity).
    split; [exact Hret|]. split.
    + unfold run'. rewrite Hs. vm_compute. reflexivity.
    + exact (proj1 (Hf Hret)).
Defined.

(* ================================================================== *)
(** * The write and the posts *)

(** C6, as amended.  In every run, whatever call to the posting API
    occurs comes after the attempt to write the current results, the
    mapping the loop has just built; when that write does not raise, it
    is the one write that has succeeded by then.  When the write
    succeeds and the run returns, the file holds that mapping, which is
    made of the statuses fetched in this run under the names of this
    run's players, with nothing of the previous file.  With other
    credentials or another behaviour of the posting API the run ends the
    same way and leaves the same file.  When the write raises an
    [IOError], the clause of line 129 logs it and the run goes on to the
    posts of the run whose write succeeds: no write has succeeded, and
    the file is as it was, or is what the failed write left of it. *)
Theorem C6_write_is_attempted_before_any_post (E : env) (ps : list player)
    (w : world) :
  let run := check_player_statuses_and_post_changes E ps w in
  (forall pre e post,
      snd run = (pre ++ e :: post)%list -> is_post_event e = true ->
      exists cur ch w1 ev1,
        for_players E (loaded (file w)) ps [] [] w = (Return (cur, ch), w1, ev1)
        /\ In (FileWrite (dict_to_py cur) (write_error E)) pre
        /\ (write_error E = None -> written pre = [dict_to_py cur]))
  /\ (fst (fst run) = Return tt -> write_error E = None ->
      exists cur ch w1 ev1 sts,
        for_players E (loaded (file w)) ps [] [] w = (Return (cur, ch), w1, ev1)
        /\ file (snd (fst run)) = JSONFile (dict_to_py cur)
        /\ fetches E w ps sts w1
        /\ cur = store_all [] (combine (map name ps) sts)
        /\ forall k, In k (map fst cur) <-> In k (map name ps))
  /\ (forall E', same_but_posting E E' ->
      let run' := check_player_statuses_and_post_changes E' ps w in
      fst (fst run') = fst (fst run)
      /\ file (snd (fst run')) = file (snd (fst run)))
  /\ (forall x, write_error E = Some x -> is_IOError (exn_cls x) = true ->
      fst (fst run) = Return tt ->
      written (snd run) = []
      /\ sent (snd run)
         = sent (snd (check_player_statuses_and_post_changes
                        (with_write_error E None) ps w))
      /\ file (snd (fst run))
         = match write_leaves E with
           | None => file w
           | Some msg => NotJSON msg
           end
      /\ In (Print ("Error writing to file " ++ PREVIOUS_STATUS_FILE ++ ": "
                    ++ exn_msg x)) (snd run)).
Proof.
  intros run. subst run. split; [|split; [|split]].
  - intros pre e post Hev He. rewrite check_eq in Hev.
    destruct (load_raises (file w)); [destruct pre; discriminate Hev|].
    rewrite after_load_eq in Hev.
    pose proof (quiet_for_players E (loaded (file w)) ps [] [] w) as Hq1.
    destruct (for_players_shape E (loaded (file w)) ps [] [] w)
      as (r & w1 & ev1 & Hloop & _ & _ & _ & _ & Hwr1 & _).
    rewrite Hloop in *. cbn [snd] in Hq1.
    destruct r as [[cur ch]|x].
    + destruct (save_current_results_eq E cur w1)
        as (r & w2 & ev2 & Hsave & _ & Hq2 & _).
      pose proof (save_current_results_cases E cur w1) as Hcases.
      rewrite Hsave in Hev, Hcases. exists cur, ch, w1, ev1.
      split; [reflexivity|].
      assert (Hq : Forall (fun x => is_post_event x = false)
                     (Print (load_line (file w)) :: ev1
                      ++ FileWrite (dict_to_py cur) (write_error E) :: ev2)).
      { constructor; [reflexivity|]. apply Forall_app. split; [exact Hq1|].
        constructor; [reflexivity | exact Hq2]. }
      destruct r as [u|x].
      * destruct (post_changes_facts E ch w2)
          as (w3 & ev3 & Hp & _ & _ & Hwr3 & _).
        rewrite Hp in Hev. cbn in Hev.
        assert (Hev' : ((Print (load_line (file w)) :: ev1
                         ++ FileWrite (dict_to_py cur) (write_error E) :: ev2)
                        ++ ev3)%list = (pre ++ e :: post)%list).
        { rewrite <- Hev. cbn. f_equal. now rewrite <- !app_assoc. }
        destruct (before_first_post _ ev3 pre post e Hq Hev' He) as [pre' ->].
        rewrite <- app_assoc in Hev'. apply app_inv_head in Hev'.
        split.
        -- right. apply in_or_app. left. apply in_or_app. right. now left.
        -- intros Hw. rewrite Hw in Hcases. inversion Hcases; subst ev2.
           rewrite Hev', written_app in Hwr3.
           apply app_eq_nil in Hwr3 as [Hwr3 _].
           cbn [written app]. rewrite !written_app, Hwr1, Hwr3, Hw.
           reflexivity.
      * cbn in Hev. exfalso. eapply not_in_quiet; [exact Hq | | exact He].
        rewrite <- Hev. reflexivity.
    + cbn in Hev. exfalso.
      eapply (not_in_quiet (Print (load_line (file w)) :: ev1));
        [now constructor | exact Hev | exact He].
  - intros Hr Hw.
    destruct (check_player_statuses_and_post_changes E ps w) as [[r w'] ev]
      eqn:Hrun. cbn in Hr. subst r.
    destruct (check_returns_inv _ _ _ _ _ Hrun)
      as (cur & ch & w1 & ev1 & w2 & ev2 & ev3 & Hloop & _).
    destruct (for_players_returns _ _ _ _ _ _ _ _ _ _ Hloop)
      as (sts & Hf & Hcur & _).
    exists cur, ch, w1, ev1, sts. split; [exact Hloop|]. split.
    + exact (check_persists _ _ _ _ _ _ _ _ _ Hw Hrun Hloop).
    + split; [exact Hf|]. split; [exact Hcur|].
      exact (for_players_keys _ _ _ _ _ _ _ _ Hloop).
  - intros E' H run'. subst run'. rewrite !check_eq.
    destruct (load_raises (file w)); [split; reflexivity|].
    rewrite !after_load_eq.
    rewrite <- (for_players_same E E' _ _ _ _ H).
    destruct (for_players E (loaded (file w)) ps [] [] w)
      as [[[[cur ch]|x] w1] ev1]; [|split; reflexivity].
    rewrite <- (save_same E E' _ H).
    destruct (save_current_results E cur w1) as [[[u|x] w2] ev2];
      [|split; reflexivity].
    destruct (post_changes_returns E ch w2) as (w3 & ev3 & -> & Hf & _).
    destruct (post_changes_returns E' ch w2) as (w3' & ev3' & -> & Hf' & _).
    cbn. split; congruence.
  - intros x Hw Hx Hr.
    destruct (run_with_failed_write E ps w x Hw Hx)
      as (_ & _ & Hs & Hwr & Hdone).
    destruct (Hdone Hr) as [Hf Hlog]. auto.
Qed.

(** C6 as stated, for every run, fails when the write raises an
    [IOError]: the first write to the emptied file finds the disk full,
    the run logs the error and posts all the same, and the file does not
    hold the mapping the loop built.  The next run, with the same
    answers, reads it as no previous results and posts the same text
    again. *)
Lemma C6_counterexample :
  exists (cur : list (string * string)) (ch : list string) (w1 w2 : world)
         (ev1 ev2 : list event),
    for_players Cases.disk_fills_up (loaded (file Sample.first_run))
                [Sample.carpincho] [] [] Sample.first_run
    = (Return (cur, ch), w1, ev1)
    /\ check_player_statuses_and_post_changes Cases.disk_fills_up
         [Sample.carpincho] Sample.first_run
       = (Return tt, w2, ev2)
    /\ sent ev2 = ["Carpincho has no recent matches"]
    /\ written ev2 = []
    /\ file w2 = NotJSON Cases.empty_text
    /\ sent (snd (check_player_statuses_and_post_changes Sample.no_matches
                    [Sample.carpincho] w2))
       = ["Carpincho has no recent matches"]
    /\ file w2 <> JSONFile (dict_to_py cur).
Proof.
  do 6 eexists.
  split; [vm_compute; reflexivity|].
  split; [vm_compute; reflexivity|].
  split; [reflexivity|]. split; [reflexivity|]. split; [reflexivity|].
  split; [vm_compute; reflexivity | discriminate].
Qed.

Lemma C6_witness :
  let run := check_player_statuses_and_post_changes Sample.no_matches
               [Sample.carpincho] Sample.first_run in
  nth_error (snd run) 8 = Some (Login "bot.bsky.social" "app-password")
  /\ exists cur ch w1 ev1,
       for_players Sample.no_matches (PyDict []) [Sample.carpincho] [] []
                   Sample.first_run = (Return (cur, ch), w1, ev1)
       /\ In (FileWrite (dict_to_py cur) None) (firstn 8 (snd run))
       /\ written (firstn 8 (snd run)) = [dict_to_py cur].
Proof.
  intros run.
  destruct (C6_write_is_attempted_before_any_post Sample.no_matches
              [Sample.carpincho] Sample.first_run) as (Horder & _).
  destruct (Horder (firstn 8 (snd run))
                   (Login "bot.bsky.social" "app-password")
                   (skipn 9 (snd run)))
    as (cur & ch & w1 & ev1 & Hloop & Hin & Hwr).
  - vm_compute. reflexivity.
  - reflexivity.
  - split; [vm_compute; reflexivity|].
    exists cur, ch, w1, ev1. split; [exact Hloop|]. split; [exact Hin|].
    apply Hwr. reflexivity.
Defined.

(* ================================================================== *)
(** * A run that raises *)

(** X12: a run that ends with an exception has left the file as it was
    and has called the posting API not once: whatever is raised is
    raised before the first message is posted, and no write has
    succeeded by then. *)
Theorem X12_a_run_that_raises_wrote_and_posted_nothing (E : env)
    (ps : list player) (w w' : world) (e : exn) (ev : list event) :
  check_player_statuses_and_post_changes E ps w = (Raise e, w', ev) ->
  file w' = file w
  /\ written ev = []
  /\ sent ev = []
  /\ logins ev = 0%nat.
Proof.
  rewrite check_eq.
  destruct (load_raises (file w)) as [x|];
    [intros H; inversion H; subst; repeat split; reflexivity|].
  rewrite after_load_eq.
  pose proof (quiet_for_players E (loaded (file w)) ps [] [] w) as Hq.
  destruct (for_players_shape E (loaded (file w)) ps [] [] w)
    as (r & w1 & ev1 & Hloop & Hf1 & _ & _ & _ & Hwr1 & _).
  rewrite Hloop in *. cbn [snd] in Hq.
  assert (Hqp : Forall (fun x => is_post_event x = false)
                  (Print (load_line (file w)) :: ev1))
    by (constructor; [reflexivity | exact Hq]).
  destruct r as [[cur ch]|x].
  - rewrite save_current_results_cases.
    destruct (write_error E) as [e'|] eqn:Hw.
    + destruct (is_IOError (exn_cls e')).
      * destruct (post_changes_facts E ch
                    (mkWorld (match write_leaves E with
                              | Some msg => NotJSON msg
                              | None => file w1
                              end) (gets w1) (clients w1)))
          as (w3 & ev3 & -> & _).
        discriminate.
      * intros H. inversion H; subst. cbn [written].
        rewrite written_app, Hwr1. cbn [written app].
        assert (Hqs : Forall (fun x => is_post_event x = false)
                        (Print (load_line (file w))
                         :: ev1 ++ [FileWrite (dict_to_py cur) (Some e)])).
        { constructor; [reflexivity|]. apply Forall_app. split; [exact Hq|].
          now repeat constructor. }
        repeat split; auto; [exact (sent_quiet _ Hqs) | exact (logins_quiet _ Hqs)].
    + destruct (post_changes_facts E ch
                  (mkWorld (JSONFile (dict_to_py cur)) (gets w1) (clients w1)))
        as (w3 & ev3 & -> & _).
      discriminate.
  - intros H. inversion H; subst. cbn [written].
    repeat split; auto; [exact (sent_quiet _ Hqp) | exact (logins_quiet _ Hqp)].
Qed.

Lemma X12_witness :
  let run := main (Sample.env_of (fun _ _ => Sample.ok (PyDict [])))
                  Sample.first_run in
  fst (fst run) = Raise (mkExn KeyError "'matches'")
  /\ file (snd (fst run)) = NoFile
  /\ written (snd run) = []
  /\ sent (snd run) = []
  /\ logins (snd run) = 0%nat.
Proof.
  intros run. split; [vm_compute; reflexivity|].
  apply (X12_a_run_that_raises_wrote_and_posted_nothing
           (Sample.env_of (fun _ _ => Sample.ok (PyDict []))) players
           Sample.first_run (snd (fst run)) (mkExn KeyError "'matches'")
           (snd run)).
  vm_compute. reflexivity.
Defined.

(* ================================================================== *)
(** * What a run can post *)

(** Step 3 appends the status or nothing, whatever the previous results
    are. *)
Lemma compare_appends (prev : pyval) (n s : string) (ch ch' : list string)
    (w w' : world) (ev : list event) :
  compare_with_previous prev n s ch w = (Return ch', w', ev) ->
  ch' = ch \/ ch' = (ch ++ [s])%list.
Proof.
  unfold compare_with_previous, bind, lift, print, ret.
  destruct (get_method prev n) as [v|e]; [|discriminate].
  destruct (is_None v); [|destruct (ne_str v s)]; intros H; inversion H; auto.
Qed.

Lemma for_players_changed (E : env) (prev : pyval) (ps : list player) :
  forall cur ch w cur' ch' w' ev,
    for_players E prev ps cur ch w = (Return (cur', ch'), w', ev) ->
    exists sts,
      fetches E w ps sts w'
      /\ cur' = store_all cur (combine (map name ps) sts)
      /\ (List.length ch' <= List.length ch + List.length ps)%nat
      /\ (forall s, In s ch' -> In s ch \/ In s sts).
Proof.
  induction ps as [|p ps IH]; intros cur ch w cur' ch' w' ev H.
  - cbn in H. inversion H; subst. exists []. repeat split.
    + constructor.
    + cbn. lia.
    + intros s Hs. now left.
  - cbn [for_players] in H.
    apply bind_inv in H as ([o f] & w1 & ev1 & ev2 & Hfetch & H & ->).
    apply bind_inv in H as (ch1 & w2 & ev3 & ev4 & Hcmp & H & ->).
    pose proof (compare_world _ _ _ _ _ _ _ _ Hcmp) as ->.
    apply compare_appends in Hcmp.
    apply IH in H as (sts & Hf & Hcur & Hlen & Hin).
    exists (status_message_of (name p) o f :: sts). repeat split.
    + econstructor; eassumption.
    + exact Hcur.
    + cbn [List.length]. destruct Hcmp as [-> | ->];
        [|rewrite length_app in Hlen; cbn in Hlen]; lia.
    + intros s Hs. destruct (Hin s Hs) as [Hc | Hc]; [|right; now right].
      destruct Hcmp as [-> | ->]; [now left|].
      apply in_app_or in Hc as [Hc | [<- | []]]; [now left | right; now left].
Qed.

Lemma filter_length_le {A : Type} (f : A -> bool) (l : list A) :
  (List.length (filter f l) <= List.length l)%nat.
Proof.
  induction l as [|a l IH]; cbn; [lia|]. destruct (f a); cbn; lia.
Qed.

Lemma sent_post_changes_bound (E : env) (ch : list string) (w : world) :
  (List.length (sent (snd (post_changes E ch w))) <= List.length ch)%nat.
Proof.
  destruct (post_changes_facts E ch w) as (w' & ev & -> & _ & _ & _ & _ & Hs & _).
  cbn [snd]. rewrite Hs. destruct (credentials_set E); cbn; [|lia].
  rewrite length_map.
  etransitivity; [apply filter_length_le|].
  rewrite length_combine, length_seq. lia.
Qed.

(** X13: whatever the inputs and however the run ends, it makes at most
    one request per player, writes the file at most once, and logs in
    and hands a text to [send_post] at most once per player. *)
Theorem X13_a_run_does_at_most_one_of_each_per_player (E : env)
    (ps : list player) (w : world) :
  let ev := snd (check_player_statuses_and_post_changes E ps w) in
  (List.length (requested ev) <= List.length ps)%nat
  /\ (List.length (written ev) <= 1)%nat
  /\ (logins ev <= List.length ps)%nat
  /\ (List.length (sent ev) <= List.length ps)%nat.
Proof.
  intros ev. subst ev. rewrite check_eq.
  destruct (load_raises (file w)) as [x|];
    [cbn; unfold logins; cbn; repeat split; lia|].
  rewrite after_load_eq.
  pose proof (quiet_for_players E (loaded (file w)) ps [] [] w) as Hq.
  destruct (for_players_shape E (loaded (file w)) ps [] [] w)
    as (r & w1 & ev1 & Hloop & _ & _ & Hg & Hreq & Hwr1 & _).
  assert (Hreq1 : (List.length (requested ev1) <= List.length ps)%nat).
  { rewrite Hreq, length_firstn, length_map. lia. }
  rewrite Hloop in *. cbn [snd] in Hq.
  pose proof (sent_quiet _ Hq) as Hs1. pose proof (logins_quiet _ Hq) as Hl1.
  destruct r as [[cur ch]|x].
  - pose proof (for_players_changed _ _ _ _ _ _ _ _ _ _ Hloop)
      as (sts & _ & _ & Hlen & _). cbn in Hlen.
    rewrite save_current_results_cases.
    pose proof (sent_post_changes_bound E ch) as Hsb.
    destruct (write_error E) as [e'|]; [destruct (is_IOError (exn_cls e'))|].
    + specialize (Hsb (mkWorld (match write_leaves E with
                                  | Some msg => NotJSON msg
                                  | None => file w1
                                  end) (gets w1) (clients w1))).
      destruct (post_changes_facts E ch
                  (mkWorld (match write_leaves E with
                            | Some msg => NotJSON msg
                            | None => file w1
                            end) (gets w1) (clients w1)))
        as (w3 & ev3 & Hp & _ & _ & Hwr3 & Hrq3 & _ & Hl3).
      rewrite Hp in *. cbn [snd] in *.
      change (Print ?a :: ?l)%list with ([Print a] ++ l)%list.
      rewrite !requested_app, !written_app, !sent_app, !logins_app.
      rewrite Hwr1, Hwr3, Hrq3, Hs1, Hl1. cbn. rewrite app_nil_r.
      unfold logins in *. cbn. repeat split; lia.
    + cbn [snd].
      change (Print ?a :: ?l)%list with ([Print a] ++ l)%list.
      rewrite !requested_app, !written_app, !sent_app, !logins_app.
      rewrite Hwr1, Hs1, Hl1. cbn. rewrite app_nil_r.
      unfold logins in *. cbn. repeat split; lia.
    + specialize (Hsb (mkWorld (JSONFile (dict_to_py cur)) (gets w1) (clients w1))).
      destruct (post_changes_facts E ch
                  (mkWorld (JSONFile (dict_to_py cur)) (gets w1) (clients w1)))
        as (w3 & ev3 & Hp & _ & _ & Hwr3 & Hrq3 & _ & Hl3).
      rewrite Hp in *. cbn [snd] in *.
      change (Print ?a :: ?l)%list with ([Print a] ++ l)%list.
      rewrite !requested_app, !written_app, !sent_app, !logins_app.
      rewrite Hwr1, Hwr3, Hrq3, Hs1, Hl1. cbn. rewrite app_nil_r.
      unfold logins in *. cbn. repeat split; lia.
  - cbn [snd]. cbn [requested written sent]. rewrite Hwr1, Hs1.
    change (Print ?a :: ?l)%list with ([Print a] ++ l)%list.
    rewrite logins_app, Hl1. unfold logins in *. cbn. repeat split; lia.
Qed.

(* ================================================================== *)
(** * Statuses are trimmed *)

Lemma lstrip_head (x : string) :
  Str.lstrip x = ""
  \/ exists c r, Str.lstrip x = String c r /\ Str.isspace c = false.
Proof.
  induction x as [|c x IH]; cbn; [now left|].
  destruct (Str.isspace c) eqn:Hc; [exact IH|]. right. now exists c, x.
Qed.

Lemma rstrip_head (c : ascii) (r : string) :
  Str.isspace c = false -> exists r', Str.rstrip (String c r) = String c r'.
Proof.
  intros Hc. cbn. destruct (Str.rstrip r); [rewrite Hc|]; eexists; reflexivity.
Qed.

Lemma rstrip_idempotent (s : string) :
  Str.rstrip (Str.rstrip s) = Str.rstrip s.
Proof.
  induction s as [|c s IH]; [reflexivity|]. cbn.
  destruct (Str.rstrip s) as [|a r] eqn:Hr.
  - destruct (Str.isspace c) eqn:Hc; [reflexivity|]. cbn. now rewrite Hc.
  - cbn. cbn in IH. destruct (match Str.rstrip r with
                               | "" => if Str.isspace a then "" else String a ""
                               | String a0 s0 => String a (String a0 s0)
                               end) eqn:Hm; [discriminate IH|].
    now rewrite IH.
Qed.

Lemma strip_is_trimmed (x : string) :
  Str.lstrip (Str.strip x) = Str.strip x
  /\ Str.rstrip (Str.strip x) = Str.strip x.
Proof.
  unfold Str.strip. split; [|apply rstrip_idempotent].
  destruct (lstrip_head x) as [-> | (c & r & -> & Hc)]; [reflexivity|].
  destruct (rstrip_head c r Hc) as [r' ->]. cbn. now rewrite Hc.
Qed.

Lemma fetches_statuses (E : env) (w w' : world) (ps : list player)
    (sts : list string) :
  fetches E w ps sts w' ->
  forall s, In s sts -> exists n o f, s = status_message_of n o f.
Proof.
  induction 1 as [|w w1 w' p rest o f ev sts Hfetch _ IH]; intros s Hs.
  - contradiction.
  - destruct Hs as [<- | Hs]; [now exists (name p), o, f | now apply IH].
Qed.

(** X14: every status the loop stores, and every text it puts in
    [changed_posts], is one of the status lines fetched in this run, and
    neither starts nor ends with white space: [lstrip] and [rstrip]
    leave it as it is. *)
Theorem X14_statuses_are_fetched_and_trimmed (E : env) (prev : pyval)
    (ps : list player) (w w' : world) (cur : list (string * string))
    (ch : list string) (ev : list event) :
  for_players E prev ps [] [] w = (Return (cur, ch), w', ev) ->
  exists sts,
    fetches E w ps sts w'
    /\ (forall n s, In (n, s) cur -> In s sts)
    /\ (forall s, In s ch -> In s sts)
    /\ (forall s, In s sts -> Str.lstrip s = s /\ Str.rstrip s = s).
Proof.
  intros H. apply for_players_changed in H as (sts & Hf & -> & _ & Hin).
  exists sts. split; [exact Hf|]. repeat split.
  - intros n s Hs. apply store_all_values in Hs as [[] | Hs].
    now rewrite (combine_names_values _ _ (fetches_length _ _ _ _ _ Hf)) in Hs.
  - intros s Hs. destruct (Hin s Hs) as [[] | Hs']. exact Hs'.
  - destruct (fetches_statuses _ _ _ _ _ Hf s H) as (n & o & f & ->).
    apply strip_is_trimmed.
  - destruct (fetches_statuses _ _ _ _ _ Hf s H) as (n & o & f & ->).
    apply strip_is_trimmed.
Qed.

Lemma X14_witness :
  exists sts,
    fetches Sample.no_matches Sample.first_run [Sample.bob] sts
            (mkWorld NoFile 1 0)
    /\ (forall n s, In (n, s) [(" Bob", "Bob has no recent matches")] -> In s sts)
    /\ (forall s, In s ["Bob has no recent matches"] -> In s sts)
    /\ (forall s, In s sts -> Str.lstrip s = s /\ Str.rstrip s = s).
Proof.
  apply (X14_statuses_are_fetched_and_trimmed Sample.no_matches (PyDict [])
           [Sample.bob] Sample.first_run (mkWorld NoFile 1 0)
           [(" Bob", "Bob has no recent matches")]
           ["Bob has no recent matches"]
           [HttpGet "https://example/1";
            Print "No recent matches found for player:  Bob";
            Print "NEW PLAYER STATUS: Bob has no recent matches"]).
  vm_compute. reflexivity.
Defined.
